(** * TaskMaster backend: a shallow embedding of [backend/server.py]

    The request handlers of the FastAPI application are embedded as
    computations over an explicit [World]: the [db.tasks] collection, the
    wall clock read by [datetime.now()], the source of the identifiers that
    the driver assigns on insertion, and a counter of the operations issued
    against the store.  Python exceptions are values of type [exn]; the state
    reached when an exception is raised is kept, as in Python.

    Conventions of the model:
    - Python [int] is [Z]; a Python [float] is an IEEE 754 binary64 number,
      kept as the rational it is (in lowest terms): every operation on
      floats gives the double nearest to the exact result, ties to the even
      mantissa, and [round(x, 1)] gives the double nearest to the tenth
      nearest to [x], ties to the even tenth; infinities and NaN, which the
      counts of a collection cannot reach, are left out;
    - [str] is [string]; the store compares strings byte by byte
      ([String.compare]);
    - the calendar of [datetime] is the proleptic Gregorian calendar, without
      the bounds [MINYEAR]/[MAXYEAR];
    - the collection is a list of documents in natural (insertion) order;
      [find] with a sort is a merge sort of the matching documents and
      [$group] lists its buckets in order of first occurrence;
    - a pydantic model is a record; its constructor checks the patterns that
      the field declarations give ([pattern=] is the keyword of pydantic 2).
      The field [id] of [Task] is declared with the alias [_id], and the key
      [allow_population_by_field_name] of its [Config] is not one that
      pydantic 2 reads: the constructor fills [id] from the key [_id] only,
      so a [Task] built from a dict with the key [id] has [id = None];
    - an [ObjectId] is what [bson] builds from a string of 24 characters
      that [bytes.fromhex] reads: pairs of hexadecimal digits of either
      case, ASCII whitespace between pairs being skipped, so at most twelve
      bytes; it is kept as its text [str(oid)], the lower-case digits of
      these bytes.  The driver draws the identifiers of new documents from a
      sequence that the world carries, and the store compares identifiers by
      their bytes;
    - the store answers every operation, and requests do not interleave. *)

From Stdlib Require Import ZArith QArith Qabs Qround Qpower String Ascii Lia Lqa.
From Stdlib Require Import Floats.SpecFloat.
From stdpp Require Import base tactics option list sorting strings.

Local Open Scope string_scope.
Local Open Scope list_scope.
Local Open Scope Z_scope.

(** ** Python values *)

(** Numbers as they appear in the reports: [int] or [float]. *)
Inductive number :=
| PyInt (z : Z)
| PyFloat (q : Q).

(** The exceptions that the handlers can meet. *)
Inductive exn :=
| HTTPException (status_code : Z) (detail : string)
| DuplicateKeyError
| InvalidId
| TypeError
| ValidationError
| ValueError (msg : string)
| ZeroDivisionError.

(** [str(e)] *)
Definition exn_str (e : exn) : string :=
  match e with
  | HTTPException c d => d
  | DuplicateKeyError => "E11000 duplicate key error"
  | InvalidId => "not a valid ObjectId"
  | TypeError => "'NoneType' object is not subscriptable"
  | ValidationError => "validation error"
  | ValueError m => m
  | ZeroDivisionError => "division by zero"
  end.

Inductive Outcome (A : Type) :=
| Return (a : A)
| Raise (e : exn).
Arguments Return {A} a.
Arguments Raise {A} e.

(** The integer nearest to [q], ties to the even one. *)
Definition round_half_even (q : Q) : Z :=
  let f := Qfloor q in
  match Qcompare (q - inject_Z f) (1 # 2) with
  | Lt => f
  | Gt => f + 1
  | Eq => if Z.even f then f else f + 1
  end.

(** *** Floats: IEEE 754 binary64, round to nearest, ties to even *)

(** [2 ^ e] for an exponent of either sign. *)
Definition Qpow2 (e : Z) : Q :=
  if 0 <=? e then inject_Z (2 ^ e) else 1 # Z.to_pos (2 ^ (- e)).

(** The exponent of the leading bit of [q]: [floor (log2 |q|)], for [q]
    other than zero. *)
Definition ilog2 (q : Q) : Z :=
  let k := Z.log2 (Z.abs (Qnum q)) - Z.log2 (Zpos (Qden q)) in
  if Qle_bool (Qpow2 k) (Qabs q) then k else k - 1.

(** The double nearest to [q]: a mantissa of 53 bits, the exponent of its
    last bit not below -1074, ties to the even mantissa. *)
Definition round_double (q : Q) : Q :=
  if Qeq_bool q 0 then 0
  else
    let e := Z.max (ilog2 q - 52) (-1074) in
    Qred (inject_Z (round_half_even (q / Qpow2 e)) * Qpow2 e).

(** The value of a number. *)
Definition number_Q (x : number) : Q :=
  match x with
  | PyInt z => inject_Z z
  | PyFloat q => q
  end.

(** [float(x)]: the conversion that an operation between an [int] and a
    [float] applies to the [int]. *)
Definition to_float (x : number) : Q :=
  match x with
  | PyInt z => round_double (inject_Z z)
  | PyFloat q => q
  end.

(** [x / y]: true division; between two [int]s it is the double nearest to
    the exact quotient. *)
Definition py_truediv (x y : number) : Outcome number :=
  match x, y with
  | PyInt a, PyInt b =>
      if b =? 0 then Raise ZeroDivisionError
      else Return (PyFloat (round_double (inject_Z a / inject_Z b)))
  | _, _ =>
      if Qeq_bool (to_float y) 0 then Raise ZeroDivisionError
      else Return (PyFloat (round_double (to_float x / to_float y)))
  end.

Definition py_mul (x y : number) : number :=
  match x, y with
  | PyInt a, PyInt b => PyInt (a * b)
  | _, _ => PyFloat (round_double (to_float x * to_float y))
  end.

Definition py_add (x y : number) : number :=
  match x, y with
  | PyInt a, PyInt b => PyInt (a + b)
  | _, _ => PyFloat (round_double (to_float x + to_float y))
  end.

Definition py_sub (x y : number) : number :=
  match x, y with
  | PyInt a, PyInt b => PyInt (a - b)
  | _, _ => PyFloat (round_double (to_float x - to_float y))
  end.

(** [round(x, 1)]: an [int] is returned as it is; a [float] is printed to
    one decimal, correctly rounded with ties to the even digit, and read
    back as a double. *)
Definition py_round1 (x : number) : number :=
  match x with
  | PyInt z => PyInt z
  | PyFloat q => PyFloat (round_double (inject_Z (round_half_even (q * 10)) / 10))
  end.

(** ** [datetime] *)

Record datetime := mk_datetime {
  year : Z; month : Z; day : Z;
  hour : Z; minute : Z; second : Z; microsecond : Z
}.

Record timedelta := mk_timedelta {
  td_days : Z; td_seconds : Z; td_microseconds : Z
}.

(** [timedelta(weeks=.., days=.., hours=.., minutes=.., seconds=..)] *)
Definition timedelta_of (weeks days hours minutes seconds : Z) : timedelta :=
  let s := hours * 3600 + minutes * 60 + seconds in
  mk_timedelta (weeks * 7 + days + s / 86400) (s mod 86400) 0.

Definition is_leap (y : Z) : bool :=
  (y mod 4 =? 0) && (negb (y mod 100 =? 0) || (y mod 400 =? 0)).

Definition days_before_year (y : Z) : Z :=
  let y := y - 1 in y * 365 + y / 4 - y / 100 + y / 400.

Definition DAYS_IN_MONTH (m : Z) : Z :=
  match m with
  | 1 => 31 | 2 => 28 | 3 => 31 | 4 => 30 | 5 => 31 | 6 => 30
  | 7 => 31 | 8 => 31 | 9 => 30 | 10 => 31 | 11 => 30 | 12 => 31
  | _ => 0
  end.

Definition DAYS_BEFORE_MONTH (m : Z) : Z :=
  match m with
  | 1 => 0 | 2 => 31 | 3 => 59 | 4 => 90 | 5 => 120 | 6 => 151
  | 7 => 181 | 8 => 212 | 9 => 243 | 10 => 273 | 11 => 304 | 12 => 334
  | _ => 0
  end.

Definition days_before_month (y m : Z) : Z :=
  DAYS_BEFORE_MONTH m + (if (2 <? m) && is_leap y then 1 else 0).

(** Day number of a date, 0001-01-01 being day 1. *)
Definition ymd2ord (y m d : Z) : Z :=
  days_before_year y + days_before_month y m + d.

(** The date of a day number. *)
Definition ord2ymd (n : Z) : Z * Z * Z :=
  let n := n - 1 in
  let n400 := n / 146097 in
  let n := n mod 146097 in
  let n100 := n / 36524 in
  let n := n mod 36524 in
  let n4 := n / 1461 in
  let n := n mod 1461 in
  let n1 := n / 365 in
  let n := n mod 365 in
  let y := n400 * 400 + 1 + n100 * 100 + n4 * 4 + n1 in
  if (n1 =? 4) || (n100 =? 4) then (y - 1, 12, 31)
  else
    let leapyear := (n1 =? 3) && (negb (n4 =? 24) || (n100 =? 3)) in
    let m := Z.shiftr (n + 50) 5 in
    let preceding :=
      DAYS_BEFORE_MONTH m + (if (2 <? m) && leapyear then 1 else 0) in
    if n <? preceding then
      let m' := m - 1 in
      let preceding' :=
        preceding - (DAYS_IN_MONTH m' + (if (m' =? 2) && leapyear then 1 else 0)) in
      (y, m', n - preceding' + 1)
    else (y, m, n - preceding + 1).

Definition toordinal (dt : datetime) : Z :=
  ymd2ord (year dt) (month dt) (day dt).

(** [dt.weekday()]: Monday is 0. *)
Definition weekday (dt : datetime) : Z := (toordinal dt + 6) mod 7.

(** [dt + td] *)
Definition datetime_add (dt : datetime) (td : timedelta) : datetime :=
  let us := microsecond dt + td_microseconds td in
  let s := hour dt * 3600 + minute dt * 60 + second dt
           + td_seconds td + us / 1000000 in
  let d := toordinal dt + td_days td + s / 86400 in
  let s := s mod 86400 in
  let '(y, m, dd) := ord2ymd d in
  mk_datetime y m dd (s / 3600) (s mod 3600 / 60) (s mod 60) (us mod 1000000).

(** [dt - td] *)
Definition datetime_sub (dt : datetime) (td : timedelta) : datetime :=
  datetime_add dt
    (mk_timedelta (- td_days td) (- td_seconds td) (- td_microseconds td)).

(** [dt.replace(hour=h, minute=m, second=s, microsecond=us)] *)
Definition replace_time (dt : datetime) (h m s us : Z) : datetime :=
  mk_datetime (year dt) (month dt) (day dt) h m s us.

Definition digit (n : Z) : ascii := ascii_of_nat (48 + Z.to_nat n).

Definition pad2 (n : Z) : string :=
  String (digit (n / 10)) (String (digit (n mod 10)) "").

Definition pad4 (n : Z) : string :=
  pad2 (n / 100) +:+ pad2 (n mod 100).

Definition pad6 (n : Z) : string :=
  pad2 (n / 10000) +:+ pad4 (n mod 10000).

(** [dt.strftime("%Y-%m-%d")] *)
Definition strftime_Ymd (dt : datetime) : string :=
  pad4 (year dt) +:+ "-" +:+ pad2 (month dt) +:+ "-" +:+ pad2 (day dt).

(** [dt.strftime("%a")] *)
Definition strftime_a (dt : datetime) : string :=
  match weekday dt with
  | 0 => "Mon" | 1 => "Tue" | 2 => "Wed" | 3 => "Thu"
  | 4 => "Fri" | 5 => "Sat" | _ => "Sun"
  end.

(** [dt.isoformat()]: the fraction is printed only when it is not zero. *)
Definition isoformat (dt : datetime) : string :=
  strftime_Ymd dt +:+ "T" +:+ pad2 (hour dt) +:+ ":" +:+ pad2 (minute dt)
  +:+ ":" +:+ pad2 (second dt)
  +:+ (if microsecond dt =? 0 then "" else "." +:+ pad6 (microsecond dt)).

(** ** [bson.ObjectId]

    [ObjectId(s)] accepts a [str] of 24 characters that [bytes.fromhex]
    reads, and holds the bytes read; [str(oid)] is their lower-case
    hexadecimal text, which is how an [ObjectId] is kept here. *)

Definition is_hex_lower (c : ascii) : bool :=
  let n := nat_of_ascii c in
  ((48 <=? n) && (n <=? 57) || (97 <=? n) && (n <=? 102))%nat.

(** ASCII whitespace: tab, line feed, vertical tab, form feed, carriage
    return and space. *)
Definition is_space (c : ascii) : bool :=
  let n := nat_of_ascii c in
  ((9 <=? n) && (n <=? 13) || (n =? 32))%nat.

(** A hexadecimal digit of either case, as the lower-case digit. *)
Definition hex_digit (c : ascii) : option ascii :=
  let n := nat_of_ascii c in
  if is_hex_lower c then Some c
  else if ((65 <=? n) && (n <=? 70))%nat then Some (ascii_of_nat (n + 32))
  else None.

(** [bytes.fromhex(s)], the result as its hexadecimal text: whitespace is
    skipped before a byte, and a byte is two digits that follow each
    other. *)
Fixpoint fromhex (s : string) : option string :=
  match s with
  | EmptyString => Some EmptyString
  | String c s' =>
      if is_space c then fromhex s'
      else
        match hex_digit c, s' with
        | Some a, String c' s'' =>
            match hex_digit c', fromhex s'' with
            | Some b, Some r => Some (String a (String b r))
            | _, _ => None
            end
        | _, _ => None
        end
  end.

Fixpoint string_forallb (p : ascii -> bool) (s : string) : bool :=
  match s with
  | EmptyString => true
  | String c s' => p c && string_forallb p s'
  end.

(** The text of at most twelve bytes. *)
Definition oid_canonical (s : string) : bool :=
  string_forallb is_hex_lower s
  && Nat.even (String.length s) && (String.length s <=? 24)%nat.

Definition ObjectId : Type := { s : string | Is_true (oid_canonical s) }.

(** [str(oid)] *)
Definition oid_str (o : ObjectId) : string := proj1_sig o.

(** [ObjectId(s)] for a [str]; what [fromhex] reads from 24 characters is
    always the text of at most twelve bytes. *)
Definition ObjectId_new (s : string) : Outcome ObjectId :=
  if (String.length s =? 24)%nat then
    match fromhex s with
    | Some h =>
        match decide (Is_true (oid_canonical h)) with
        | left H => Return (exist _ h H)
        | right _ => Raise InvalidId
        end
    | None => Raise InvalidId
    end
  else Raise InvalidId.

(** [ObjectId.is_valid(s)]: whether [ObjectId(s)] can be built. *)
Definition is_valid (s : string) : bool :=
  match ObjectId_new s with
  | Return _ => true
  | Raise _ => false
  end.

#[global] Instance ObjectId_eq_dec : EqDecision ObjectId.
Proof. unfold ObjectId. apply _. Defined.

(** ** The pydantic models *)

Definition priority_pattern (s : string) : bool :=
  bool_decide (s = "high") || bool_decide (s = "medium") || bool_decide (s = "low").

Definition category_pattern (s : string) : bool :=
  bool_decide (s = "work") || bool_decide (s = "personal") || bool_decide (s = "study").

Module Task.
Record t := mk {
  id : option string;
  title : string;
  dueDate : string;
  priority : string;
  category : string;
  completed : bool;
  createdAt : string;
  updatedAt : option string;
  userId : option string;
  notificationId : option string
}.
(** The constraints that the field declarations put on a [Task]. *)
Definition valid (x : t) : bool :=
  priority_pattern (priority x) && category_pattern (category x).
End Task.

Module TaskCreate.
Record t := mk {
  title : string;
  dueDate : string;
  priority : string;
  category : string;
  notificationId : option string
}.
Definition valid (x : t) : bool :=
  priority_pattern (priority x) && category_pattern (category x).
End TaskCreate.

Module TaskUpdate.
Record t := mk {
  title : option string;
  dueDate : option string;
  priority : option string;
  category : option string;
  completed : option bool;
  notificationId : option string
}.
Definition valid (x : t) : bool :=
  from_option priority_pattern true (priority x)
  && from_option category_pattern true (category x).
End TaskUpdate.

Module SyncRequest.
Record t := mk {
  tasks : list Task.t;
  lastSyncTime : option string
}.
Definition valid (x : t) : bool := forallb Task.valid (tasks x).
End SyncRequest.

Module SyncResponse.
Record t := mk {
  tasks : list Task.t;
  conflicts : list Task.t;
  syncTime : string
}.
End SyncResponse.

(** The constructor [Task] applied to the keys of a dict, here the dict
    that [task_helper] builds: the model is validated, and the key [id],
    which is not the alias [_id] under which the model reads its field [id],
    is ignored, so that [id] keeps its default [None]. *)
Definition Task_init (d : Task.t) : Outcome Task.t :=
  if Task.valid d
  then Return (Task.mk None (Task.title d) (Task.dueDate d) (Task.priority d)
                 (Task.category d) (Task.completed d) (Task.createdAt d)
                 (Task.updatedAt d) (Task.userId d) (Task.notificationId d))
  else Raise ValidationError.

(** ** Documents and the store *)

(** The keys of a task dict other than [_id]; an optional key holds [None]
    when it is absent or null. *)
Module TaskDict.
Record t := mk {
  id : option string;
  title : string;
  dueDate : string;
  priority : string;
  category : string;
  completed : bool;
  createdAt : string;
  updatedAt : option string;
  userId : option string;
  notificationId : option string
}.
End TaskDict.

(** A stored document. *)
Record Document := mk_Document {
  _id : ObjectId;
  data : TaskDict.t
}.

(** The entries of a [$set] update. *)
Inductive set_entry :=
| set_title (v : string)
| set_dueDate (v : string)
| set_priority (v : string)
| set_category (v : string)
| set_completed (v : bool)
| set_notificationId (v : string)
| set_updatedAt (v : string).

Definition apply_set (e : set_entry) (x : TaskDict.t) : TaskDict.t :=
  let 'TaskDict.mk i t d p c done cr up us n := x in
  match e with
  | set_title v => TaskDict.mk i v d p c done cr up us n
  | set_dueDate v => TaskDict.mk i t v p c done cr up us n
  | set_priority v => TaskDict.mk i t d v c done cr up us n
  | set_category v => TaskDict.mk i t d p v done cr up us n
  | set_completed v => TaskDict.mk i t d p c v cr up us n
  | set_notificationId v => TaskDict.mk i t d p c done cr up us (Some v)
  | set_updatedAt v => TaskDict.mk i t d p c done cr (Some v) us n
  end.

Definition apply_sets (l : list set_entry) (x : TaskDict.t) : TaskDict.t :=
  foldl (fun acc e => apply_set e acc) x l.

(** Queries: a dict from keys to a value (equality) or to a dict of
    comparison operators. *)
Inductive value :=
| VOid (o : ObjectId)
| VStr (s : string)
| VBool (b : bool).

Inductive operator := op_lt | op_gte | op_lte.

Inductive condition :=
| Is (v : value)
| Ops (l : list (operator * string)).

Inductive key := K_id | K_category | K_priority | K_completed | K_dueDate | K_createdAt.

Definition query : Type := list (key * condition).

Definition get_key (k : key) (d : Document) : value :=
  match k with
  | K_id => VOid (_id d)
  | K_category => VStr (TaskDict.category (data d))
  | K_priority => VStr (TaskDict.priority (data d))
  | K_completed => VBool (TaskDict.completed (data d))
  | K_dueDate => VStr (TaskDict.dueDate (data d))
  | K_createdAt => VStr (TaskDict.createdAt (data d))
  end.

Definition value_eqb (a b : value) : bool :=
  match a, b with
  | VOid x, VOid y => bool_decide (x = y)
  | VStr x, VStr y => bool_decide (x = y)
  | VBool x, VBool y => bool_decide (x = y)
  | _, _ => false
  end.

Definition operator_holds (o : operator) (field bound : string) : bool :=
  match o with
  | op_lt => String.ltb field bound
  | op_gte => String.leb bound field
  | op_lte => String.leb field bound
  end.

Definition condition_holds (c : condition) (v : value) : bool :=
  match c with
  | Is x => value_eqb v x
  | Ops l =>
      match v with
      | VStr s => forallb (fun '(o, b) => operator_holds o s b) l
      | _ => false
      end
  end.

Definition matches (q : query) (d : Document) : bool :=
  forallb (fun '(k, c) => condition_holds c (get_key k d)) q.

(** [{"_id": o}] *)
Definition by_id (o : ObjectId) : query := [(K_id, Is (VOid o))].

(** ** The world and the monad of handlers *)

Record World := mk_World {
  tasks : list Document;        (* db.tasks *)
  store_calls : nat;            (* operations issued against the store *)
  clock : nat -> datetime;      (* the successive readings of the clock *)
  clock_reads : nat;            (* how many were taken *)
  oid_source : nat -> ObjectId; (* the identifiers the driver generates *)
  oid_count : nat               (* how many were taken *)
}.

Definition M (A : Type) : Type := World -> Outcome A * World.

#[global] Instance M_ret : MRet M := fun A a w => (Return a, w).

#[global] Instance M_bind : MBind M := fun A B f m w =>
  match m w with
  | (Return a, w') => f a w'
  | (Raise e, w') => (Raise e, w')
  end.

Definition raise {A} (e : exn) : M A := fun w => (Raise e, w).

Definition lift {A} (o : Outcome A) : M A := fun w => (o, w).

Fixpoint mapM {A B} (f : A -> M B) (l : list A) : M (list B) :=
  match l with
  | [] => mret []
  | x :: l' => y ← f x; ys ← mapM f l'; mret (y :: ys)
  end.

(** [try: body  except Exception as e: raise HTTPException(500, prefix + str(e))] *)
Definition except_Exception {A} (prefix : string) (body : M A) : M A :=
  fun w =>
    match body w with
    | (Raise e, w') => (Raise (HTTPException 500 (prefix +:+ exn_str e)), w')
    | r => r
    end.

(** The same with [except HTTPException: raise] in front. *)
Definition except_HTTPException_reraise {A} (prefix : string) (body : M A) : M A :=
  fun w =>
    match body w with
    | (Raise (HTTPException c d), w') => (Raise (HTTPException c d), w')
    | (Raise e, w') => (Raise (HTTPException 500 (prefix +:+ exn_str e)), w')
    | r => r
    end.

(** [datetime.now()] *)
Definition datetime_now : M datetime := fun w =>
  (Return (clock w (clock_reads w)),
   mk_World (tasks w) (store_calls w) (clock w) (S (clock_reads w))
            (oid_source w) (oid_count w)).

(** Every operation on [db.tasks] is counted. *)
Definition store_call : M unit := fun w =>
  (Return tt,
   mk_World (tasks w) (S (store_calls w)) (clock w) (clock_reads w)
            (oid_source w) (oid_count w)).

Definition get_tasks_coll : M (list Document) := fun w => (Return (tasks w), w).

Definition put_tasks_coll (l : list Document) : M unit := fun w =>
  (Return tt,
   mk_World l (store_calls w) (clock w) (clock_reads w)
            (oid_source w) (oid_count w)).

(** The driver's [ObjectId()] *)
Definition generate_oid : M ObjectId := fun w =>
  (Return (oid_source w (oid_count w)),
   mk_World (tasks w) (store_calls w) (clock w) (clock_reads w)
            (oid_source w) (S (oid_count w))).

(** [db.tasks.insert_one(d)]: a dict without [_id] gets a generated one; the
    result is [inserted_id]. *)
Definition insert_one (oid : option ObjectId) (d : TaskDict.t) : M ObjectId :=
  i ← match oid with Some i => mret i | None => generate_oid end;
  _ ← store_call;
  coll ← get_tasks_coll;
  if bool_decide (i ∈ map _id coll) then raise DuplicateKeyError
  else _ ← put_tasks_coll (coll ++ [mk_Document i d]); mret i.

(** [db.tasks.find_one(q)] *)
Definition find_one (q : query) : M (option Document) :=
  _ ← store_call;
  coll ← get_tasks_coll;
  mret (List.find (matches q) coll).

Definition createdAt_desc (a b : Document) : Prop :=
  Is_true (String.leb (TaskDict.createdAt (data b)) (TaskDict.createdAt (data a))).

#[global] Instance createdAt_desc_dec : RelDecision createdAt_desc.
Proof. intros a b. unfold createdAt_desc. apply _. Defined.

(** [db.tasks.find(q).limit(n).sort("createdAt", -1).to_list(n)]: the sort
    applies before the limit; [to_list] refuses a negative length. *)
Definition find_sort_limit (q : query) (n : Z) : M (list Document) :=
  if n <? 0 then raise (ValueError "length must be non-negative")
  else
    _ ← store_call;
    coll ← get_tasks_coll;
    mret (take (Z.to_nat n) (merge_sort createdAt_desc (List.filter (matches q) coll))).

Fixpoint update_first (q : query) (l : list set_entry) (coll : list Document)
  : list Document * Z :=
  match coll with
  | [] => ([], 0)
  | d :: coll' =>
      if matches q d then (mk_Document (_id d) (apply_sets l (data d)) :: coll', 1)
      else let '(r, n) := update_first q l coll' in (d :: r, n)
  end.

(** [db.tasks.update_one(q, {"$set": l})]; the result is [matched_count]. *)
Definition update_one (q : query) (l : list set_entry) : M Z :=
  _ ← store_call;
  coll ← get_tasks_coll;
  let '(coll', n) := update_first q l coll in
  _ ← put_tasks_coll coll'; mret n.

Fixpoint delete_first (q : query) (coll : list Document) : list Document * Z :=
  match coll with
  | [] => ([], 0)
  | d :: coll' =>
      if matches q d then (coll', 1)
      else let '(r, n) := delete_first q coll' in (d :: r, n)
  end.

(** [db.tasks.delete_one(q)]; the result is [deleted_count]. *)
Definition delete_one (q : query) : M Z :=
  _ ← store_call;
  coll ← get_tasks_coll;
  let '(coll', n) := delete_first q coll in
  _ ← put_tasks_coll coll'; mret n.

(** [db.tasks.delete_many(q)] *)
Definition delete_many (q : query) : M Z :=
  _ ← store_call;
  coll ← get_tasks_coll;
  _ ← put_tasks_coll (List.filter (fun d => negb (matches q d)) coll);
  mret (Z.of_nat (length (List.filter (matches q) coll))).

(** [db.tasks.count_documents(q)] *)
Definition count_documents (q : query) : M Z :=
  _ ← store_call;
  coll ← get_tasks_coll;
  mret (Z.of_nat (length (List.filter (matches q) coll))).

Module GroupRow.
Record t := mk { _id : string; total : Z; completed : Z }.
End GroupRow.

Definition group_rows (f : TaskDict.t -> string) (coll : list Document)
  : list GroupRow.t :=
  map (fun k =>
         let members := List.filter (fun d => bool_decide (f (data d) = k)) coll in
         GroupRow.mk k (Z.of_nat (length members))
           (Z.of_nat (length (List.filter (fun d => TaskDict.completed (data d)) members))))
      (remove_dups (map (fun d => f (data d)) coll)).

(** [db.tasks.aggregate([{"$group": {"_id": "$<f>", "total": {"$sum": 1},
    "completed": {"$sum": {"$cond": ["$completed", 1, 0]}}}}]).to_list(None)] *)
Definition aggregate_group (f : TaskDict.t -> string) : M (list GroupRow.t) :=
  _ ← store_call;
  coll ← get_tasks_coll;
  mret (group_rows f coll).

(** ** The handlers of [server.py] *)

(** Convert MongoDB document to Task dict *)
Definition task_helper (task : Document) : Task.t :=
  Task.mk (Some (oid_str (_id task)))
          (TaskDict.title (data task))
          (TaskDict.dueDate (data task))
          (TaskDict.priority (data task))
          (TaskDict.category (data task))
          (TaskDict.completed (data task))
          (TaskDict.createdAt (data task))
          (TaskDict.updatedAt (data task))
          (TaskDict.userId (data task))
          (TaskDict.notificationId (data task)).

(** [Task] built from [task_helper(task)] where [task] is the result of
    [find_one]; subscripting [None] is a [TypeError]. *)
Definition Task_of_found (task : option Document) : M Task.t :=
  match task with
  | None => raise TypeError
  | Some d => lift (Task_init (task_helper d))
  end.

(** [POST /tasks] *)
Definition create_task (task_data : TaskCreate.t) : M Task.t :=
  except_Exception "Failed to create task: " (
    created ← datetime_now;
    updated ← datetime_now;
    let task_dict :=
      TaskDict.mk None
                  (TaskCreate.title task_data)
                  (TaskCreate.dueDate task_data)
                  (TaskCreate.priority task_data)
                  (TaskCreate.category task_data)
                  false
                  (isoformat created)
                  (Some (isoformat updated))
                  None
                  (TaskCreate.notificationId task_data) in
    result ← insert_one None task_dict;
    created_task ← find_one (by_id result);
    Task_of_found created_task).

(** Truth value of an [Optional[str]]. *)
Definition str_truthy (o : option string) : bool :=
  match o with
  | Some s => negb (bool_decide (s = ""))
  | None => false
  end.

Definition category_filter (category : option string) : query :=
  match category with
  | Some c =>
      if str_truthy category && bool_decide (c ∈ ["work"; "personal"; "study"])
      then [(K_category, Is (VStr c))] else []
  | None => []
  end.

Definition priority_filter (priority : option string) : query :=
  match priority with
  | Some p =>
      if str_truthy priority && bool_decide (p ∈ ["high"; "medium"; "low"])
      then [(K_priority, Is (VStr p))] else []
  | None => []
  end.

Definition completed_filter (completed : option bool) : query :=
  match completed with
  | Some b => [(K_completed, Is (VBool b))]
  | None => []
  end.

(** [GET /tasks] *)
Definition get_tasks (category priority : option string)
  (completed : option bool) (limit : Z) : M (list Task.t) :=
  except_Exception "Failed to fetch tasks: " (
    let query :=
      (category_filter category ++ priority_filter priority
       ++ completed_filter completed)%list in
    tasks ← find_sort_limit query limit;
    mapM (fun task => lift (Task_init (task_helper task))) tasks).

(** [GET /tasks/{task_id}] *)
Definition get_task (task_id : string) : M Task.t :=
  except_HTTPException_reraise "Failed to fetch task: " (
    if negb (is_valid task_id)
    then raise (HTTPException 400 "Invalid task ID format")
    else
      oid ← lift (ObjectId_new task_id);
      task ← find_one (by_id oid);
      match task with
      | None => raise (HTTPException 404 "Task not found")
      | Some d => lift (Task_init (task_helper d))
      end).

Definition entry_of {A} (f : A -> set_entry) (o : option A) : list set_entry :=
  match o with
  | Some v => [f v]
  | None => []
  end.

(** [{k: v for k, v in task_update.dict().items() if v is not None}] *)
Definition update_data_of (task_update : TaskUpdate.t) : list set_entry :=
  (entry_of set_title (TaskUpdate.title task_update)
   ++ entry_of set_dueDate (TaskUpdate.dueDate task_update)
   ++ entry_of set_priority (TaskUpdate.priority task_update)
   ++ entry_of set_category (TaskUpdate.category task_update)
   ++ entry_of set_completed (TaskUpdate.completed task_update)
   ++ entry_of set_notificationId (TaskUpdate.notificationId task_update))%list.

(** [PUT /tasks/{task_id}] *)
Definition update_task (task_id : string) (task_update : TaskUpdate.t) : M Task.t :=
  except_HTTPException_reraise "Failed to update task: " (
    if negb (is_valid task_id)
    then raise (HTTPException 400 "Invalid task ID format")
    else
      let update_data := update_data_of task_update in
      match update_data with
      | [] => raise (HTTPException 400 "No valid update data provided")
      | _ :: _ =>
          now ← datetime_now;
          let update_data := (update_data ++ [set_updatedAt (isoformat now)])%list in
          oid ← lift (ObjectId_new task_id);
          matched_count ← update_one (by_id oid) update_data;
          if matched_count =? 0
          then raise (HTTPException 404 "Task not found")
          else
            oid ← lift (ObjectId_new task_id);
            updated_task ← find_one (by_id oid);
            Task_of_found updated_task
      end).

Module DeleteResponse.
Record t := mk { message : string; taskId : string }.
End DeleteResponse.

(** [DELETE /tasks/{task_id}] *)
Definition delete_task (task_id : string) : M DeleteResponse.t :=
  except_HTTPException_reraise "Failed to delete task: " (
    if negb (is_valid task_id)
    then raise (HTTPException 400 "Invalid task ID format")
    else
      oid ← lift (ObjectId_new task_id);
      deleted_count ← delete_one (by_id oid);
      if deleted_count =? 0
      then raise (HTTPException 404 "Task not found")
      else mret (DeleteResponse.mk "Task deleted successfully" task_id)).

(** [task.dict()] with [updatedAt] overwritten. *)
Definition sync_task_dict (current_time : string) (task : Task.t) : TaskDict.t :=
  TaskDict.mk (Task.id task) (Task.title task) (Task.dueDate task)
              (Task.priority task) (Task.category task) (Task.completed task)
              (Task.createdAt task) (Some current_time) (Task.userId task)
              (Task.notificationId task).

(** [task_dict.pop("id", None)] *)
Definition pop_id (x : TaskDict.t) : TaskDict.t :=
  let 'TaskDict.mk _ t d p c done cr up us n := x in
  TaskDict.mk None t d p c done cr up us n.

(** The body of the loop of [sync_tasks]. *)
Definition sync_one (current_time : string) (task : Task.t) : M Task.t :=
  let task_dict := sync_task_dict current_time task in
  '(oid, task_dict) ←
    (if str_truthy (Task.id task) then
       let task_id := default "" (Task.id task) in
       if is_valid task_id
       then o ← lift (ObjectId_new task_id); mret (Some o, task_dict)
       else mret (None, pop_id task_dict)
     else mret (None, task_dict));
  result ← insert_one oid task_dict;
  created_task ← find_one (by_id result);
  Task_of_found created_task.

(** [POST /tasks/sync] *)
Definition sync_tasks (sync_request : SyncRequest.t) : M SyncResponse.t :=
  except_Exception "Failed to sync tasks: " (
    now ← datetime_now;
    let current_time := isoformat now in
    let conflicts := [] in
    _ ← delete_many [];
    server_tasks ← mapM (sync_one current_time) (SyncRequest.tasks sync_request);
    mret (SyncResponse.mk server_tasks conflicts current_time)).

(** *** Statistics *)

Module Overview.
Record t := mk {
  totalTasks : Z;
  completedTasks : Z;
  pendingTasks : Z;
  overdueTask : Z;
  todayTasks : Z;
  weekTasks : Z;
  completionRate : number
}.
End Overview.

Module Bucket.
Record t := mk {
  total : Z;
  completed : Z;
  pending : Z;
  completionRate : number
}.
End Bucket.

Module DailyStat.
Record t := mk {
  date : string;
  day : string;
  created : Z;
  completed : Z;
  completionRate : number
}.
End DailyStat.

Module Insights.
Record t := mk {
  mostProductiveCategory : option string;
  leastProductiveCategory : option string;
  averageTasksPerDay : number;
  streak : Z;
  productivityScore : number
}.
End Insights.

Module Stats.
Record t := mk {
  overview : Overview.t;
  categoryStats : list (string * Bucket.t);
  priorityStats : list (string * Bucket.t);
  dailyTrends : list DailyStat.t;
  insights : Insights.t;
  timestamp : string
}.
End Stats.

Module WeeklyStat.
Record t := mk {
  week : string;
  startDate : string;
  created : Z;
  completed : Z;
  completionRate : number
}.
End WeeklyStat.

Module Productivity.
Record t := mk {
  weeklyTrends : list WeeklyStat.t;
  timestamp : string
}.
End Productivity.

(** [(a / b * 100) if b > 0 else 0] *)
Definition percentage (a b : Z) : M number :=
  if 0 <? b
  then r ← lift (py_truediv (PyInt a) (PyInt b)); mret (py_mul r (PyInt 100))
  else mret (PyInt 0).

(** [{"createdAt": {"$gte": lo, "$lte": hi}}] and the like. *)
Definition between (k : key) (lo hi : string) : key * condition :=
  (k, Ops [(op_gte, lo); (op_lte, hi)]).

(** The body of the loop over the last seven days. *)
Definition daily_stat (i : Z) : M DailyStat.t :=
  now ← datetime_now;
  let date := datetime_sub now (timedelta_of 0 i 0 0 0) in
  let day_start := isoformat (replace_time date 0 0 0 0) in
  let day_end := isoformat (replace_time date 23 59 59 999999) in
  day_total ← count_documents [between K_createdAt day_start day_end];
  day_completed ← count_documents
    [between K_createdAt day_start day_end; (K_completed, Is (VBool true))];
  rate ← percentage day_completed day_total;
  mret (DailyStat.mk (strftime_Ymd date) (strftime_a date)
                     day_total day_completed rate).

(** One entry of [categoryStats] or [priorityStats]. *)
Definition bucket_of (item : GroupRow.t) : M (string * Bucket.t) :=
  rate ← percentage (GroupRow.completed item) (GroupRow.total item);
  mret (GroupRow._id item,
        Bucket.mk (GroupRow.total item) (GroupRow.completed item)
                  (GroupRow.total item - GroupRow.completed item)
                  (py_round1 rate)).

(** [max(l, key=f)] and [min(l, key=f)] of a non-empty list: the first
    extremal element. *)
Definition py_max {A} (f : A -> Z) (x : A) (l : list A) : A :=
  foldl (fun best y => if f best <? f y then y else best) x l.

Definition py_min {A} (f : A -> Z) (x : A) (l : list A) : A :=
  foldl (fun best y => if f y <? f best then y else best) x l.

(** [range(n)] *)
Definition range (n : nat) : list Z := map Z.of_nat (seq 0 n).

(** [GET /stats] *)
Definition get_stats : M Stats.t :=
  except_Exception "Failed to fetch analytics: " (
    total_tasks ← count_documents [];
    completed_tasks ← count_documents [(K_completed, Is (VBool true))];
    let pending_tasks := total_tasks - completed_tasks in
    now ← datetime_now;
    let current_time := isoformat now in
    overdue_tasks ← count_documents
      [(K_completed, Is (VBool false)); (K_dueDate, Ops [(op_lt, current_time)])];
    now1 ← datetime_now;
    let today_start := isoformat (replace_time now1 0 0 0 0) in
    now2 ← datetime_now;
    let today_end := isoformat (replace_time now2 23 59 59 999999) in
    today_tasks ← count_documents [between K_dueDate today_start today_end];
    now3 ← datetime_now;
    now4 ← datetime_now;
    let week_start :=
      isoformat (replace_time
                   (datetime_sub now3 (timedelta_of 0 (weekday now4) 0 0 0))
                   0 0 0 0) in
    now5 ← datetime_now;
    now6 ← datetime_now;
    let week_end :=
      isoformat (replace_time
                   (datetime_add now5 (timedelta_of 0 (6 - weekday now6) 0 0 0))
                   23 59 59 999999) in
    week_tasks ← count_documents [between K_dueDate week_start week_end];
    categories ← aggregate_group TaskDict.category;
    priorities ← aggregate_group TaskDict.priority;
    daily_stats ← mapM daily_stat (range 7);
    completion_rate ← percentage completed_tasks total_tasks;
    let overview :=
      Overview.mk total_tasks completed_tasks pending_tasks overdue_tasks
                  today_tasks week_tasks (py_round1 completion_rate) in
    categoryStats ← mapM bucket_of categories;
    priorityStats ← mapM bucket_of priorities;
    let dailyTrends := reverse daily_stats in
    let mostProductiveCategory :=
      match categories with
      | x :: l => Some (GroupRow._id (py_max GroupRow.completed x l))
      | [] => None
      end in
    let leastProductiveCategory :=
      match categories with
      | x :: l => Some (GroupRow._id (py_min GroupRow.completed x l))
      | [] => None
      end in
    average ← lift (py_truediv (PyInt total_tasks) (PyInt 7));
    let productivityScore :=
      py_round1 (py_add completion_rate
                   (PyInt (if overdue_tasks =? 0 then 10 else - overdue_tasks * 2))) in
    let insights :=
      Insights.mk mostProductiveCategory leastProductiveCategory
                  (py_round1 average) 0 productivityScore in
    now7 ← datetime_now;
    mret (Stats.mk overview categoryStats priorityStats dailyTrends insights
                   (isoformat now7))).

(** The body of the loop over the last four weeks. *)
Definition weekly_stat (week : Z) : M WeeklyStat.t :=
  now ← datetime_now;
  now' ← datetime_now;
  let week_start := datetime_sub now (timedelta_of week (weekday now') 0 0 0) in
  let week_start := replace_time week_start 0 0 0 0 in
  let week_end := datetime_add week_start (timedelta_of 0 6 23 59 59) in
  week_tasks ← count_documents
    [between K_createdAt (isoformat week_start) (isoformat week_end)];
  week_completed ← count_documents
    [between K_createdAt (isoformat week_start) (isoformat week_end);
     (K_completed, Is (VBool true))];
  rate ← percentage week_completed week_tasks;
  mret (WeeklyStat.mk ("Week " +:+ String (digit (4 - week)) "")
                      (strftime_Ymd week_start)
                      week_tasks week_completed (py_round1 rate)).

(** [GET /analytics/productivity] *)
Definition get_productivity_analytics : M Productivity.t :=
  except_Exception "Failed to fetch productivity analytics: " (
    weekly_stats ← mapM weekly_stat (range 4);
    now ← datetime_now;
    mret (Productivity.mk (reverse weekly_stats) (isoformat now))).

(** *** Liveness and health *)

Module RootResponse.
Record t := mk { message : string; status : string }.
End RootResponse.

(** [GET /] *)
Definition root : M RootResponse.t :=
  mret (RootResponse.mk "TaskMaster API v1.0.0" "running").

Module HealthResponse.
Record t := mk { status : string; database : string; timestamp : string }.
End HealthResponse.

(** [try: body  except Exception as e: raise HTTPException(503, prefix + str(e))] *)
Definition except_Exception_503 {A} (prefix : string) (body : M A) : M A :=
  fun w =>
    match body w with
    | (Raise e, w') => (Raise (HTTPException 503 (prefix +:+ exn_str e)), w')
    | r => r
    end.

(** [GET /health]: [find_one()] without a filter, then the reading of the
    clock. *)
Definition health_check : M HealthResponse.t :=
  except_Exception_503 "Database connection failed: " (
    _ ← find_one [];
    now ← datetime_now;
    mret (HealthResponse.mk "healthy" "connected" (isoformat now))).

(** ** Auxiliary definitions for the statements *)

(** The world after [c] more readings of the clock and [s] more calls to the
    store. *)
Definition advance (c s : nat) (w : World) : World :=
  mk_World (tasks w) (store_calls w + s) (clock w) (clock_reads w + c)
           (oid_source w) (oid_count w).

(** The world with another collection. *)
Definition with_tasks (l : list Document) (w : World) : World :=
  mk_World l (store_calls w) (clock w) (clock_reads w)
           (oid_source w) (oid_count w).

(** Identifiers are unique in the collection. *)
Definition unique_ids (w : World) : Prop := NoDup (map _id (tasks w)).

(** Every stored document satisfies the patterns of the [Task] model. *)
Definition stored_valid (w : World) : Prop :=
  Forall (fun d => Is_true (Task.valid (task_helper d))) (tasks w).

(** The record that a handler returns for a stored document: the fields of
    the document, and no identifier. *)
Definition record_of (d : Document) : Task.t :=
  Task.mk None
          (TaskDict.title (data d)) (TaskDict.dueDate (data d))
          (TaskDict.priority (data d)) (TaskDict.category (data d))
          (TaskDict.completed (data d)) (TaskDict.createdAt (data d))
          (TaskDict.updatedAt (data d)) (TaskDict.userId (data d))
          (TaskDict.notificationId (data d)).

(** An identifier of twelve bytes, as the driver generates them: its text
    has 24 digits. *)
Definition oid_full (o : ObjectId) : Prop := String.length (oid_str o) = 24%nat.

(** The update that supplies no field. *)
Definition empty_update : TaskUpdate.t :=
  TaskUpdate.mk None None None None None None.

(** The document that Create stores. *)
Definition created_document (task_data : TaskCreate.t) (w : World) : Document :=
  mk_Document (oid_source w (oid_count w))
    (TaskDict.mk None
       (TaskCreate.title task_data) (TaskCreate.dueDate task_data)
       (TaskCreate.priority task_data) (TaskCreate.category task_data)
       false
       (isoformat (clock w (clock_reads w)))
       (Some (isoformat (clock w (S (clock_reads w)))))
       None (TaskCreate.notificationId task_data)).

(** The order of dates, read off their fields. *)
Definition date_compare (a b : datetime) : comparison :=
  match year a ?= year b with
  | Eq => match month a ?= month b with
          | Eq => day a ?= day b
          | c => c
          end
  | c => c
  end.

(** The part of [isoformat] after the date. *)
Definition time_part (t : datetime) : string :=
  "T" +:+ pad2 (hour t) +:+ ":" +:+ pad2 (minute t) +:+ ":" +:+ pad2 (second t)
  +:+ (if microsecond t =? 0 then "" else "." +:+ pad6 (microsecond t)).

(** *** The invariant of the store *)

(** Identifiers are unique and every document satisfies the patterns of the
    [Task] model. *)
Definition store_ok (w : World) : Prop := unique_ids w /\ stored_valid w.

(** Running [m] keeps the invariant [I], whether it returns or raises. *)
Definition preserves {A} (I : World -> Prop) (m : M A) : Prop :=
  forall w o w', I w -> m w = (o, w') -> I w'.

(** The entries of a [$set] that satisfy the patterns. *)
Definition set_entry_valid (e : set_entry) : bool :=
  match e with
  | set_priority v => priority_pattern v
  | set_category v => category_pattern v
  | _ => true
  end.

(** *** Sync, task by task *)

(** The identifier that a task of a Sync request supplies, when it is there
    and well formed. *)
Definition supplied_oid (task : Task.t) : option ObjectId :=
  match Task.id task with
  | Some s =>
      if str_truthy (Some s) && is_valid s
      then match ObjectId_new s with Return o => Some o | Raise _ => None end
      else None
  | None => None
  end.

(** The identifiers under which Sync inserts the tasks of a request: the
    supplied one when it is well formed, the next one of the driver
    otherwise ([n] counts the identifiers the driver gave out). *)
Fixpoint sync_oids (gen : nat -> ObjectId) (n : nat) (l : list Task.t)
  : list ObjectId :=
  match l with
  | [] => []
  | task :: l' =>
      match supplied_oid task with
      | Some o => o :: sync_oids gen n l'
      | None => gen n :: sync_oids gen (S n) l'
      end
  end.

(** The document stored for a task: its fields, [updatedAt] overwritten,
    and the key [id] dropped when it held a malformed identifier. *)
Definition synced_document (current_time : string) (task : Task.t)
  (oid : ObjectId) : Document :=
  mk_Document oid
    (if str_truthy (Task.id task) && negb (is_valid (default "" (Task.id task)))
     then pop_id (sync_task_dict current_time task)
     else sync_task_dict current_time task).

(** The record returned for a task: its fields with [updatedAt] overwritten,
    and no identifier. *)
Definition synced_task (current_time : string) (task : Task.t) : Task.t :=
  Task.mk None (Task.title task) (Task.dueDate task)
          (Task.priority task) (Task.category task) (Task.completed task)
          (Task.createdAt task) (Some current_time) (Task.userId task)
          (Task.notificationId task).

(** *** Statistics in closed form *)

(** [count_documents(q)] on a collection. *)
Definition count (q : query) (coll : list Document) : Z :=
  Z.of_nat (length (List.filter (matches q) coll)).

(** [y] is [x] rounded to one decimal.  An [int] is left as it is.  For a
    [float], [y] is the double nearest to the tenth [n / 10] that is nearest
    to [x], the one with [n] even when two tenths are as near. *)
Definition rounded_to_one_decimal (x y : number) : Prop :=
  match x with
  | PyInt z => y = PyInt z
  | PyFloat q =>
      exists n : Z,
        y = PyFloat (round_double (inject_Z n / 10))
        /\ (Qabs (q - inject_Z n / 10) <= 1 # 20)%Q
        /\ ((Qabs (q - inject_Z n / 10) == 1 # 20)%Q -> Z.even n = true)
  end.

(** The value of [(a / b * 100) if b > 0 else 0]. *)
Definition pct (a b : Z) : number :=
  if 0 <? b
  then py_mul (PyFloat (round_double (inject_Z a / inject_Z b))) (PyInt 100)
  else PyInt 0.

(** The documents whose [createdAt] lies, as a string, between the first and
    the last instant of the day of [date]. *)
Definition created_on (date : datetime) : key * condition :=
  between K_createdAt (isoformat (replace_time date 0 0 0 0))
                      (isoformat (replace_time date 23 59 59 999999)).

(** The entry of the daily trend for the day of [date]. *)
Definition daily_entry (coll : list Document) (date : datetime) : DailyStat.t :=
  DailyStat.mk (strftime_Ymd date) (strftime_a date)
    (count [created_on date] coll)
    (count [created_on date; (K_completed, Is (VBool true))] coll)
    (pct (count [created_on date; (K_completed, Is (VBool true))] coll)
         (count [created_on date] coll)).

(** The entries that the loop over [l] builds, the clock being read for the
    [n]-th time at its first turn. *)
Fixpoint daily_entries (coll : list Document) (clk : nat -> datetime) (n : nat)
  (l : list Z) : list DailyStat.t :=
  match l with
  | [] => []
  | i :: l' =>
      daily_entry coll (datetime_sub (clk n) (timedelta_of 0 i 0 0 0))
      :: daily_entries coll clk (S n) l'
  end.

Definition bucket_entry (item : GroupRow.t) : string * Bucket.t :=
  (GroupRow._id item,
   Bucket.mk (GroupRow.total item) (GroupRow.completed item)
             (GroupRow.total item - GroupRow.completed item)
             (py_round1 (pct (GroupRow.completed item) (GroupRow.total item)))).

(** The first instant of the Monday-to-Sunday week of a reading [a], the
    weekday being that of a reading [b] taken [weeks] weeks back. *)
Definition week_start_of (weeks : Z) (a b : datetime) : datetime :=
  replace_time (datetime_sub a (timedelta_of weeks (weekday b) 0 0 0)) 0 0 0 0.

Definition weekly_entry (coll : list Document) (week : Z) (a b : datetime)
  : WeeklyStat.t :=
  let week_start := week_start_of week a b in
  let week_end := datetime_add week_start (timedelta_of 0 6 23 59 59) in
  let q := between K_createdAt (isoformat week_start) (isoformat week_end) in
  WeeklyStat.mk ("Week " +:+ String (digit (4 - week)) "")
    (strftime_Ymd week_start)
    (count [q] coll)
    (count [q; (K_completed, Is (VBool true))] coll)
    (py_round1 (pct (count [q; (K_completed, Is (VBool true))] coll)
                    (count [q] coll))).

Fixpoint weekly_entries (coll : list Document) (clk : nat -> datetime) (n : nat)
  (l : list Z) : list WeeklyStat.t :=
  match l with
  | [] => []
  | i :: l' =>
      weekly_entry coll i (clk n) (clk (S n))
      :: weekly_entries coll clk (S (S n)) l'
  end.

(** The report of [get_stats] in a world, the [k]-th reading of the clock
    during the request being [clock w (clock_reads w + k)]. *)
Definition stats_report (w : World) : Stats.t :=
  let coll := tasks w in
  let clk k := clock w (clock_reads w + k)%nat in
  let total_tasks := count [] coll in
  let completed_tasks := count [(K_completed, Is (VBool true))] coll in
  let overdue_tasks :=
    count [(K_completed, Is (VBool false));
           (K_dueDate, Ops [(op_lt, isoformat (clk 0%nat))])] coll in
  let today_tasks :=
    count [between K_dueDate
             (isoformat (replace_time (clk 1%nat) 0 0 0 0))
             (isoformat (replace_time (clk 2%nat) 23 59 59 999999))] coll in
  let week_tasks :=
    count [between K_dueDate
             (isoformat (replace_time
                (datetime_sub (clk 3%nat)
                   (timedelta_of 0 (weekday (clk 4%nat)) 0 0 0)) 0 0 0 0))
             (isoformat (replace_time
                (datetime_add (clk 5%nat)
                   (timedelta_of 0 (6 - weekday (clk 6%nat)) 0 0 0))
                23 59 59 999999))] coll in
  let categories := group_rows TaskDict.category coll in
  let priorities := group_rows TaskDict.priority coll in
  let completion_rate := pct completed_tasks total_tasks in
  Stats.mk
    (Overview.mk total_tasks completed_tasks (total_tasks - completed_tasks)
       overdue_tasks today_tasks week_tasks (py_round1 completion_rate))
    (map bucket_entry categories)
    (map bucket_entry priorities)
    (reverse (daily_entries coll (clock w) (clock_reads w + 7) (range 7)))
    (Insights.mk
       (match categories with
        | x :: l => Some (GroupRow._id (py_max GroupRow.completed x l))
        | [] => None
        end)
       (match categories with
        | x :: l => Some (GroupRow._id (py_min GroupRow.completed x l))
        | [] => None
        end)
       (py_round1 (PyFloat (round_double (inject_Z total_tasks / 7))))
       0
       (py_round1 (py_add completion_rate
          (PyInt (if overdue_tasks =? 0 then 10 else - overdue_tasks * 2)))))
    (isoformat (clk 14%nat)).

Definition productivity_report (w : World) : Productivity.t :=
  Productivity.mk
    (reverse (weekly_entries (tasks w) (clock w) (clock_reads w) (range 4)))
    (isoformat (clock w (clock_reads w + 8)%nat)).

(** *** Calendar days *)

(** The time of day of a reading is in range. *)
Definition valid_time (t : datetime) : Prop :=
  0 <= hour t < 24 /\ 0 <= minute t < 60 /\ 0 <= second t < 60
  /\ 0 <= microsecond t < 1000000.

(** The date of a reading is in the range that [isoformat] prints with four,
    two and two digits. *)
Definition valid_date (t : datetime) : Prop :=
  0 <= year t <= 9999 /\ 0 <= month t <= 99 /\ 0 <= day t <= 99.

(** Two readings on the same calendar day. *)
Definition same_date (a b : datetime) : Prop :=
  year a = year b /\ month a = month b /\ day a = day b.

(** The calendar day [i] days before the day of [today], at midnight. *)
Definition days_ago (today : datetime) (i : Z) : datetime :=
  let '(y, m, d) := ord2ymd (toordinal today - i) in
  mk_datetime y m d 0 0 0 0.

(** The string [s] lies in the day of [date]: between its first and its last
    instant, compared as strings. *)
Definition in_day (date : datetime) (s : string) : bool :=
  String.leb (isoformat (replace_time date 0 0 0 0)) s
  && String.leb s (isoformat (replace_time date 23 59 59 999999)).

(** ** Concrete worlds for the examples *)

Module Ex.

Definition oid0 : ObjectId := exist _ "507f1f77bcf86cd799439011" I.

Definition oid_nth (n : nat) : ObjectId :=
  match ObjectId_new ("65a0000000000000000000" +:+ pad2 (Z.of_nat n)) with
  | Return o => o
  | Raise _ => oid0
  end.

(** A clock that advances by one microsecond at each reading. *)
Definition tick (n : nat) : datetime :=
  mk_datetime 2025 1 15 10 30 0 (Z.of_nat n).

(** A clock that stands still. *)
Definition frozen (n : nat) : datetime :=
  mk_datetime 2025 1 15 10 30 0 0.

Definition w0 : World := mk_World [] 0 tick 0 oid_nth 0.

Definition w0_frozen : World := mk_World [] 0 frozen 0 oid_nth 0.

Definition buy_milk : TaskCreate.t :=
  TaskCreate.mk "Buy milk" "2025-01-01T00:00:00" "low" "personal" None.

Definition report : TaskCreate.t :=
  TaskCreate.mk "Write report" "2026-01-01T00:00:00" "high" "work" (Some "n-1").

(** The worlds after one and two creations. *)
Definition w1 : World := snd (create_task buy_milk w0).
Definition w2 : World := snd (create_task report w1).

(** The first task is then completed. *)
Definition w3 : World :=
  snd (update_task "65a000000000000000000000"
         (TaskUpdate.mk None None None None (Some true) None) w2).

(** A world whose only task is completed and not overdue. *)
Definition w_done : World :=
  snd (update_task "65a000000000000000000000"
         (TaskUpdate.mk None None None None (Some true) None)
         (snd (create_task report w0))).

(** A clock that passes midnight between its eighth and its ninth
    reading. *)
Definition midnight (n : nat) : datetime :=
  if (n <? 8)%nat then mk_datetime 2025 1 15 23 59 59 999999
  else mk_datetime 2025 1 16 0 0 0 1.

Definition w_midnight : World :=
  mk_World (tasks w2) 0 midnight 0 oid_nth 2.

(** The collection after eighty creations, the first twenty-three tasks
    then completed; none is due before the readings of [frozen]. *)
Definition task_nth (k : nat) : Document :=
  mk_Document (oid_nth k)
    (TaskDict.mk None "Task" "2026-01-01T00:00:00" "low" "work"
                 (k <? 23)%nat "2025-01-15T10:30:00"
                 (Some "2025-01-15T10:30:00") None None).

Definition w_80 : World :=
  mk_World (map task_nth (seq 0 80)) 0 frozen 0 oid_nth 80.

(** Two tasks of a Sync request that carry the same well-formed
    identifier, and two that carry none. *)
Definition same_id_request : SyncRequest.t :=
  SyncRequest.mk
    [Task.mk (Some "507f1f77bcf86cd799439011") "S1" "2025-02-01T00:00:00"
             "high" "work" false "2025-01-10T08:00:00" None None None;
     Task.mk (Some "507f1f77bcf86cd799439011") "S2" "2025-02-02T00:00:00"
             "low" "study" false "2025-01-11T08:00:00" None None None]
    None.

Definition no_id_request : SyncRequest.t :=
  SyncRequest.mk
    [Task.mk None "Sync Task 1" "2025-02-01T00:00:00"
             "high" "work" false "2025-01-10T08:00:00" None None None;
     Task.mk None "Sync Task 2" "2025-02-02T00:00:00"
             "medium" "personal" true "2025-01-11T08:00:00" None None None]
    (Some "2025-01-12T00:00:00").

End Ex.

(** ** Auxiliary definitions for the further properties *)

(** The query that List builds from its parameters. *)
Definition list_query (category priority : option string)
  (completed : option bool) : query :=
  (category_filter category ++ priority_filter priority
   ++ completed_filter completed)%list.

(** A record is at least as recent as another one: its [createdAt] is not
    smaller, as a string. *)
Definition not_older (a b : Task.t) : Prop :=
  String.leb (Task.createdAt b) (Task.createdAt a) = true.

(** The fields of a document after an Update with body [tu] at the instant
    printed as [now]. *)
Definition updated_data (tu : TaskUpdate.t) (now : string) (x : TaskDict.t)
  : TaskDict.t :=
  TaskDict.mk (TaskDict.id x)
    (default (TaskDict.title x) (TaskUpdate.title tu))
    (default (TaskDict.dueDate x) (TaskUpdate.dueDate tu))
    (default (TaskDict.priority x) (TaskUpdate.priority tu))
    (default (TaskDict.category x) (TaskUpdate.category tu))
    (default (TaskDict.completed x) (TaskUpdate.completed tu))
    (TaskDict.createdAt x)
    (Some now)
    (TaskDict.userId x)
    (match TaskUpdate.notificationId tu with
     | Some n => Some n
     | None => TaskDict.notificationId x
     end).

(** The collection is [l]. *)
Definition collection_is (l : list Document) (w : World) : Prop := tasks w = l.

(** Every value that [m] returns satisfies [P]. *)
Definition returns_only {A} (P : A -> Prop) (m : M A) : Prop :=
  forall w a w', m w = (Return a, w') -> P a.

(** The sum of a list of integers. *)
Definition sum_Z (l : list Z) : Z := foldr Z.add 0 l.

(** A number between two integers. *)
Definition in_range (lo hi : Z) (x : number) : Prop :=
  (inject_Z lo <= number_Q x)%Q /\ (number_Q x <= inject_Z hi)%Q.

(** The order of readings of the clock, read off their fields. *)
Definition datetime_compare (a b : datetime) : comparison :=
  match date_compare a b with
  | Eq => match hour a ?= hour b with
          | Eq => match minute a ?= minute b with
                  | Eq => match second a ?= second b with
                          | Eq => microsecond a ?= microsecond b
                          | c => c
                          end
                  | c => c
                  end
          | c => c
          end
  | c => c
  end.

(** A reading is strictly before another one. *)
Definition before (a b : datetime) : bool :=
  match datetime_compare a b with
  | Lt => true
  | _ => false
  end.

(** The window of a week in the queries of the weekly trend. *)
Definition week_window (week_start : datetime) : key * condition :=
  between K_createdAt (isoformat week_start)
    (isoformat (datetime_add week_start (timedelta_of 0 6 23 59 59))).

(** The entry of the weekly trend for the week that starts at
    [week_start]. *)
Definition weekly_entry_from (coll : list Document) (week : Z)
  (week_start : datetime) : WeeklyStat.t :=
  WeeklyStat.mk ("Week " +:+ String (digit (4 - week)) "")
    (strftime_Ymd week_start)
    (count [week_window week_start] coll)
    (count [week_window week_start; (K_completed, Is (VBool true))] coll)
    (py_round1
       (pct (count [week_window week_start; (K_completed, Is (VBool true))] coll)
            (count [week_window week_start] coll))).

(** The Monday of the week of [today], [week] weeks back, at midnight. *)
Definition monday_of (today : datetime) (week : Z) : datetime :=
  days_ago today (7 * week + weekday today).

(** The order and the equality of calendar days. *)
Definition date_leb (a b : datetime) : bool :=
  match date_compare a b with
  | Gt => false
  | _ => true
  end.

Definition date_eqb (a b : datetime) : bool :=
  match date_compare a b with
  | Eq => true
  | _ => false
  end.

(** ** Further concrete inputs for the examples *)

Module Ex2.

(** The identifier of the first task of [Ex.w2], as text. *)
Definition id0 : string := "65a000000000000000000000".

(** An Update that renames, raises the priority and sets a notification. *)
Definition rename : TaskUpdate.t :=
  TaskUpdate.mk (Some "Buy oat milk") None (Some "high") None None (Some "n-2").

(** An Update that completes. *)
Definition complete : TaskUpdate.t :=
  TaskUpdate.mk None None None None (Some true) None.

Definition oid1 : ObjectId := exist _ "507f191e810c19729de860ea" I.

(** Two tasks that carry distinct well-formed identifiers, the second one
    written with capital digits. *)
Definition identified_request : SyncRequest.t :=
  SyncRequest.mk
    [Task.mk (Some "507f1f77bcf86cd799439011") "S1" "2025-02-01T00:00:00"
             "high" "work" false "2025-01-10T08:00:00" None None None;
     Task.mk (Some "507F191E810C19729DE860EA") "S2" "2025-02-02T00:00:00"
             "low" "study" true "2025-01-11T08:00:00" None None None]
    None.

(** The due dates of the tasks of [Ex.w2], as readings of a clock. *)
Definition due (d : Document) : datetime :=
  if bool_decide (TaskDict.title (data d) = "Buy milk")
  then mk_datetime 2025 1 1 0 0 0 0
  else mk_datetime 2026 1 1 0 0 0 0.

(** Monday 13 January 2025 at midnight, and an instant of the last second
    of the Sunday that follows. *)
Definition monday : datetime := mk_datetime 2025 1 13 0 0 0 0.

Definition sunday_night : datetime := mk_datetime 2025 1 19 23 59 59 500000.

Definition late_task : Document :=
  mk_Document Ex.oid0
    (TaskDict.mk None "Late" "2025-02-01T00:00:00" "low" "work" false
                 (isoformat sunday_night) None None None).

(** A world whose only document holds a priority that the models do not
    admit, as a client of the database other than this server may have
    written it. *)
Definition w_foreign : World :=
  mk_World
    [mk_Document Ex.oid0
       (TaskDict.mk None "Old" "2025-02-01T00:00:00" "urgent" "work" false
                    "2025-01-10T08:00:00" None None None)]
    0 Ex.tick 0 Ex.oid_nth 0.

End Ex2.

(** *** The doubles of the Standard Library *)

(** The value of a finite float of [SpecFloat], the formalisation of
    IEEE 754 of the Standard Library. *)
Definition spec_float_Q (f : spec_float) : Q :=
  match f with
  | S754_finite s m e => (if s then -1 else 1) * inject_Z (Zpos m) * Qpow2 e
  | _ => 0
  end.

(** An integer as a binary64 float. *)
Definition binary64_of_Z (z : Z) : spec_float := binary_normalize 53 1024 z 0 false.

(** [a / b * 100 + 10] in binary64 arithmetic agrees with the same
    computation through [round_double]. *)
Definition agrees_with_binary64 (a b : Z) : bool :=
  let q := SFdiv 53 1024 (binary64_of_Z a) (binary64_of_Z b) in
  let p := SFmul 53 1024 q (binary64_of_Z 100) in
  let s := SFadd 53 1024 p (binary64_of_Z 10) in
  let q' := round_double (inject_Z a / inject_Z b) in
  let p' := round_double (q' * round_double (inject_Z 100)) in
  let s' := round_double (p' + round_double (inject_Z 10)) in
  Qeq_bool (spec_float_Q q) q' && Qeq_bool (spec_float_Q p) p'
  && Qeq_bool (spec_float_Q s) s'.


(** * Properties *)

(** ** The monad *)

Lemma bind_Return {A B} (m : M A) (f : A -> M B) w a w' :
  m w = (Return a, w') -> (m ≫= f) w = f a w'.
Proof. intros H. unfold mbind, M_bind. now rewrite H. Qed.

Lemma bind_Raise {A B} (m : M A) (f : A -> M B) w e w' :
  m w = (Raise e, w') -> (m ≫= f) w = (Raise e, w').
Proof. intros H. unfold mbind, M_bind. now rewrite H. Qed.

Ltac run_monad :=
  cbv beta iota delta
    [mbind M_bind mret M_ret store_call get_tasks_coll put_tasks_coll
     generate_oid raise lift];
  cbn [tasks store_calls clock clock_reads oid_source oid_count fst snd].

Ltac world_eq :=
  unfold advance, with_tasks; run_monad;
  repeat match goal with
         | |- (_, _) = (_, _) => f_equal
         | |- mk_World _ _ _ _ _ _ = mk_World _ _ _ _ _ _ => f_equal
         end; try reflexivity; try lia.

Lemma advance_advance c s c' s' w :
  advance c s (advance c' s' w) = advance (c' + c) (s' + s) w.
Proof. unfold advance; simpl. f_equal; lia. Qed.

Lemma advance_0 w : advance 0 0 w = w.
Proof. destruct w. unfold advance; simpl. f_equal; lia. Qed.

Lemma datetime_now_run w :
  datetime_now w = (Return (clock w (clock_reads w)), advance 1 0 w).
Proof. unfold datetime_now. world_eq. Qed.

Lemma count_documents_run q w :
  count_documents q w =
  (Return (Z.of_nat (length (List.filter (matches q) (tasks w)))), advance 0 1 w).
Proof. unfold count_documents. world_eq. Qed.

Lemma aggregate_group_run f w :
  aggregate_group f w = (Return (group_rows f (tasks w)), advance 0 1 w).
Proof. unfold aggregate_group. world_eq. Qed.

Lemma find_one_run q w :
  find_one q w = (Return (List.find (matches q) (tasks w)), advance 0 1 w).
Proof. unfold find_one. world_eq. Qed.

(** ** Identifiers *)

Lemma oid_str_canonical o : oid_canonical (oid_str o) = true.
Proof. destruct o as [s H]. simpl. now apply Is_true_true. Qed.

Lemma oid_str_inj o1 o2 : oid_str o1 = oid_str o2 -> o1 = o2.
Proof. intros H. now apply (sig_eq_pi _). Qed.

Lemma hex_digit_lower c : is_hex_lower c = true -> hex_digit c = Some c.
Proof. intros H. unfold hex_digit. now rewrite H. Qed.

Lemma is_hex_lower_not_space c : is_hex_lower c = true -> is_space c = false.
Proof.
  unfold is_hex_lower, is_space. generalize (nat_of_ascii c) as n. intros n H.
  apply orb_true_iff in H as [H|H]; apply andb_true_iff in H as [H1 H2];
    apply Nat.leb_le in H1, H2;
    (apply orb_false_iff; split;
     [apply andb_false_iff; right; apply Nat.leb_gt; lia
     | apply Nat.eqb_neq; lia]).
Qed.

Lemma hex_digit_is_hex_lower c a : hex_digit c = Some a -> is_hex_lower a = true.
Proof.
  unfold hex_digit. destruct (is_hex_lower c) eqn:E; [now intros [= <-]|].
  destruct ((65 <=? nat_of_ascii c)%nat && (nat_of_ascii c <=? 70)%nat) eqn:E';
    [|discriminate].
  intros [= <-]. apply andb_true_iff in E' as [H1 H2]. apply Nat.leb_le in H1, H2.
  unfold is_hex_lower. rewrite nat_ascii_embedding by lia.
  apply orb_true_iff. right. apply andb_true_iff.
  split; apply Nat.leb_le; lia.
Qed.

(** What [fromhex] reads is the text of bytes, no longer than what it
    read. *)
Lemma fromhex_spec n : forall s h,
  (String.length s <= n)%nat -> fromhex s = Some h ->
  string_forallb is_hex_lower h = true
  /\ Nat.even (String.length h) = true
  /\ (String.length h <= String.length s)%nat.
Proof.
  induction n as [|n IH]; intros [|c s] h Hn; simpl in *;
    try (intros [= <-]; simpl; repeat split; lia); try lia.
  destruct (is_space c).
  - intros H. destruct (IH s h) as (H1 & H2 & H3); [lia | exact H |].
    repeat split; try assumption. lia.
  - destruct (hex_digit c) as [a|] eqn:Ea; [|discriminate].
    destruct s as [|c' s]; [discriminate|].
    destruct (hex_digit c') as [b|] eqn:Eb; [|discriminate].
    destruct (fromhex s) as [r|] eqn:Er; [|discriminate].
    intros [= <-]. simpl in Hn.
    destruct (IH s r) as (H1 & H2 & H3); [lia | exact Er |].
    cbn [string_forallb String.length].
    rewrite (hex_digit_is_hex_lower _ _ Ea), (hex_digit_is_hex_lower _ _ Eb), H1.
    repeat split; [exact H2 | lia].
Qed.

Lemma fromhex_canonical s h :
  String.length s = 24%nat -> fromhex s = Some h -> oid_canonical h = true.
Proof.
  intros Hl H.
  destruct (fromhex_spec (String.length s) s h) as (H1 & H2 & H3); [lia | exact H |].
  unfold oid_canonical. rewrite H1, H2. simpl. apply Nat.leb_le. lia.
Qed.

(** The text of bytes reads back as itself. *)
Lemma fromhex_text n : forall h,
  (String.length h <= n)%nat ->
  string_forallb is_hex_lower h = true -> Nat.even (String.length h) = true ->
  fromhex h = Some h.
Proof.
  induction n as [|n IH]; intros h Hn Hall Hev.
  - destruct h; [reflexivity | simpl in Hn; lia].
  - destruct h as [|c [|c' h]]; [reflexivity | simpl in Hev; discriminate |].
    cbn [string_forallb String.length] in Hall, Hev, Hn.
    apply andb_true_iff in Hall as [Hc [Hc' Hh]%andb_true_iff].
    cbn [fromhex].
    rewrite (is_hex_lower_not_space _ Hc), (hex_digit_lower _ Hc),
      (hex_digit_lower _ Hc').
    rewrite IH; [reflexivity | lia | exact Hh | exact Hev].
Qed.

(** What [ObjectId] accepts, and what it builds. *)
Lemma ObjectId_new_Return s o :
  ObjectId_new s = Return o <->
  String.length s = 24%nat /\ fromhex s = Some (oid_str o).
Proof.
  unfold ObjectId_new. split.
  - destruct (String.length s =? 24)%nat eqn:El; [|discriminate].
    apply Nat.eqb_eq in El.
    destruct (fromhex s) as [h|] eqn:Eh; [|discriminate].
    destruct (decide _) as [H|H]; [|discriminate].
    now intros [= <-].
  - intros [El Eh]. rewrite El, Eh. simpl.
    destruct (decide _) as [H|H].
    + f_equal. now apply oid_str_inj.
    + exfalso. apply H, Is_true_true, oid_str_canonical.
Qed.

(** The text of an identifier of twelve bytes is accepted and reads back as
    the identifier. *)
Lemma ObjectId_new_oid_str o : oid_full o -> ObjectId_new (oid_str o) = Return o.
Proof.
  intros Hf. apply ObjectId_new_Return. split; [exact Hf|].
  pose proof (oid_str_canonical o) as H. unfold oid_canonical in H.
  apply andb_true_iff in H as [[H1 H2]%andb_true_iff _].
  now apply (fromhex_text (String.length (oid_str o))).
Qed.

Lemma is_valid_oid_str o : oid_full o -> is_valid (oid_str o) = true.
Proof. intros Hf. unfold is_valid. now rewrite ObjectId_new_oid_str. Qed.

(** An accepted text always yields an identifier. *)
Lemma ObjectId_new_valid s :
  is_valid s = true ->
  exists o, ObjectId_new s = Return o /\ fromhex s = Some (oid_str o).
Proof.
  unfold is_valid. destruct (ObjectId_new s) as [o|e] eqn:E; [|discriminate].
  intros _. exists o. split; [reflexivity|]. now apply ObjectId_new_Return in E.
Qed.

Lemma ObjectId_new_is_valid s o : ObjectId_new s = Return o -> is_valid s = true.
Proof. unfold is_valid. now intros ->. Qed.

Lemma is_valid_false s : is_valid s = false -> exists e, ObjectId_new s = Raise e.
Proof.
  unfold is_valid. destruct (ObjectId_new s) as [o|e]; [discriminate|]. eauto.
Qed.

(** ** Handlers and [try]/[except] *)

Lemma except_reraise_Return {A} p (body : M A) w a w' :
  body w = (Return a, w') -> except_HTTPException_reraise p body w = (Return a, w').
Proof. intros H. unfold except_HTTPException_reraise. now rewrite H. Qed.

Lemma except_reraise_HTTP {A} p (body : M A) w c d w' :
  body w = (Raise (HTTPException c d), w') ->
  except_HTTPException_reraise p body w = (Raise (HTTPException c d), w').
Proof. intros H. unfold except_HTTPException_reraise. now rewrite H. Qed.

Lemma except_Return {A} p (body : M A) w a w' :
  body w = (Return a, w') -> except_Exception p body w = (Return a, w').
Proof. intros H. unfold except_Exception. now rewrite H. Qed.

Lemma except_Raise {A} p (body : M A) w e w' :
  body w = (Raise e, w') ->
  except_Exception p body w = (Raise (HTTPException 500 (p +:+ exn_str e)), w').
Proof. intros H. unfold except_Exception. now rewrite H. Qed.

Lemma lift_run {A} (o : Outcome A) w : lift o w = (o, w).
Proof. reflexivity. Qed.

Lemma raise_run {A} e w : raise (A:=A) e w = (Raise e, w).
Proof. reflexivity. Qed.

Lemma mret_run {A} (a : A) w : mret (M:=M) a w = (Return a, w).
Proof. reflexivity. Qed.

(** One step of a computation: the first action of a bind returns. *)
Lemma bind_datetime_now {B} (f : datetime -> M B) w :
  (datetime_now ≫= f) w = f (clock w (clock_reads w)) (advance 1 0 w).
Proof. apply bind_Return, datetime_now_run. Qed.

Lemma bind_count_documents {B} q (f : Z -> M B) w :
  (count_documents q ≫= f) w
  = f (Z.of_nat (length (List.filter (matches q) (tasks w)))) (advance 0 1 w).
Proof. apply bind_Return, count_documents_run. Qed.

Lemma bind_aggregate_group {B} g (f : list GroupRow.t -> M B) w :
  (aggregate_group g ≫= f) w = f (group_rows g (tasks w)) (advance 0 1 w).
Proof. apply bind_Return, aggregate_group_run. Qed.

Lemma bind_find_one {B} q (f : option Document -> M B) w :
  (find_one q ≫= f) w = f (List.find (matches q) (tasks w)) (advance 0 1 w).
Proof. apply bind_Return, find_one_run. Qed.

Lemma bind_lift_Return {A B} (a : A) (f : A -> M B) w :
  (lift (Return a) ≫= f) w = f a w.
Proof. reflexivity. Qed.

Lemma bind_mret {A B} (a : A) (f : A -> M B) w : (mret a ≫= f) w = f a w.
Proof. reflexivity. Qed.

Lemma tasks_advance c s w : tasks (advance c s w) = tasks w.
Proof. reflexivity. Qed.

Lemma clock_advance c s w : clock (advance c s w) = clock w.
Proof. reflexivity. Qed.

Lemma clock_reads_advance c s w : clock_reads (advance c s w) = (clock_reads w + c)%nat.
Proof. reflexivity. Qed.

Lemma store_calls_advance c s w : store_calls (advance c s w) = (store_calls w + s)%nat.
Proof. reflexivity. Qed.

Lemma oid_source_advance c s w : oid_source (advance c s w) = oid_source w.
Proof. reflexivity. Qed.

Lemma oid_count_advance c s w : oid_count (advance c s w) = oid_count w.
Proof. reflexivity. Qed.

Create Rewrite HintDb run.

#[local] Hint Rewrite @bind_datetime_now @bind_count_documents
  @bind_aggregate_group @bind_find_one @bind_lift_Return @bind_mret
  tasks_advance clock_advance clock_reads_advance store_calls_advance
  oid_source_advance oid_count_advance advance_advance : run.

Ltac step := autorewrite with run.

(** ** Queries by identifier *)

#[local] Arguments matches : simpl never.

Lemma matches_by_id o d : matches (by_id o) d = bool_decide (_id d = o).
Proof. unfold matches, by_id; simpl. now rewrite andb_true_r. Qed.

Lemma find_by_id_None o coll :
  o ∉ map _id coll -> List.find (matches (by_id o)) coll = None.
Proof.
  induction coll as [|d coll IH]; simpl; [done|].
  intros H. apply not_elem_of_cons in H as [H1 H2].
  rewrite matches_by_id, bool_decide_false by congruence. auto.
Qed.

Lemma find_by_id_Some o coll d :
  List.find (matches (by_id o)) coll = Some d -> d ∈ coll /\ _id d = o.
Proof.
  induction coll as [|x coll IH]; simpl; [done|].
  rewrite matches_by_id. case_bool_decide as E.
  - intros [= <-]. split; [left | done].
  - intros H. destruct (IH H). split; [now right | done].
Qed.

Lemma find_by_id_new o coll x :
  o ∉ map _id coll ->
  List.find (matches (by_id o)) (coll ++ [mk_Document o x]) = Some (mk_Document o x).
Proof.
  induction coll as [|d coll IH]; simpl.
  - intros _. rewrite matches_by_id. simpl. now rewrite bool_decide_true.
  - intros H. apply not_elem_of_cons in H as [H1 H2].
    rewrite matches_by_id, bool_decide_false by congruence. auto.
Qed.

(** ** The store *)

Lemma insert_one_generated x w :
  oid_source w (oid_count w) ∉ map _id (tasks w) ->
  insert_one None x w =
  (Return (oid_source w (oid_count w)),
   mk_World (tasks w ++ [mk_Document (oid_source w (oid_count w)) x])
            (S (store_calls w)) (clock w) (clock_reads w)
            (oid_source w) (S (oid_count w))).
Proof.
  intros H. unfold insert_one. run_monad.
  now rewrite bool_decide_false.
Qed.

Lemma insert_one_supplied o x w :
  o ∉ map _id (tasks w) ->
  insert_one (Some o) x w =
  (Return o,
   mk_World (tasks w ++ [mk_Document o x])
            (S (store_calls w)) (clock w) (clock_reads w)
            (oid_source w) (oid_count w)).
Proof.
  intros H. unfold insert_one. run_monad.
  now rewrite bool_decide_false.
Qed.

Lemma insert_one_duplicate o x w :
  o ∈ map _id (tasks w) ->
  insert_one (Some o) x w =
  (Raise DuplicateKeyError,
   mk_World (tasks w) (S (store_calls w)) (clock w) (clock_reads w)
            (oid_source w) (oid_count w)).
Proof.
  intros H. unfold insert_one. run_monad.
  now rewrite bool_decide_true.
Qed.

Lemma delete_first_None o coll :
  o ∉ map _id coll -> delete_first (by_id o) coll = (coll, 0).
Proof.
  induction coll as [|d coll IH]; simpl; [done|].
  intros H. apply not_elem_of_cons in H as [H1 H2].
  rewrite matches_by_id, bool_decide_false by congruence.
  now rewrite IH.
Qed.

Lemma delete_first_count q coll :
  snd (delete_first q coll) = 0 \/ snd (delete_first q coll) = 1.
Proof.
  induction coll as [|d coll IH]; simpl; [now left|].
  destruct (matches q d); [now right|].
  destruct (delete_first q coll); simpl in *. exact IH.
Qed.

Lemma delete_first_subset q coll i :
  i ∈ map _id (fst (delete_first q coll)) -> i ∈ map _id coll.
Proof.
  induction coll as [|d coll IH]; simpl; [done|].
  destruct (matches q d); simpl.
  - intros H. now right.
  - destruct (delete_first q coll) as [r n]; simpl in *.
    intros [->|H]%elem_of_cons; [left | right; auto].
Qed.

(** Once one document with identifier [o] is deleted from a collection whose
    identifiers are unique, none is left. *)
Lemma delete_first_removes o coll :
  NoDup (map _id coll) ->
  snd (delete_first (by_id o) coll) = 1 ->
  (o ∉ map _id (fst (delete_first (by_id o) coll)))
  /\ NoDup (map _id (fst (delete_first (by_id o) coll))).
Proof.
  induction coll as [|d coll IH]; simpl; intros Hnd.
  - intros H; lia.
  - apply NoDup_cons in Hnd as [Hd Hnd].
    rewrite matches_by_id. case_bool_decide as E; simpl.
    + intros _. subst o. done.
    + pose proof (delete_first_subset (by_id o) coll) as Hsub.
      destruct (delete_first (by_id o) coll) as [r n] eqn:Er. simpl in *.
      intros ->. destruct (IH Hnd eq_refl) as [H1 H2].
      split.
      * apply not_elem_of_cons. split; [congruence | done].
      * apply NoDup_cons. split; [|done]. intros Hin. apply Hd. auto.
Qed.

Lemma delete_one_run q w :
  delete_one q w =
  (Return (snd (delete_first q (tasks w))),
   mk_World (fst (delete_first q (tasks w))) (S (store_calls w)) (clock w)
            (clock_reads w) (oid_source w) (oid_count w)).
Proof.
  unfold delete_one. run_monad. destruct (delete_first q (tasks w)). reflexivity.
Qed.

Lemma update_one_run q l w :
  update_one q l w =
  (Return (snd (update_first q l (tasks w))),
   mk_World (fst (update_first q l (tasks w))) (S (store_calls w)) (clock w)
            (clock_reads w) (oid_source w) (oid_count w)).
Proof.
  unfold update_one. run_monad. destruct (update_first q l (tasks w)). reflexivity.
Qed.

Lemma update_first_None o l coll :
  o ∉ map _id coll -> update_first (by_id o) l coll = (coll, 0).
Proof.
  induction coll as [|d coll IH]; simpl; [done|].
  intros H. apply not_elem_of_cons in H as [H1 H2].
  rewrite matches_by_id, bool_decide_false by congruence.
  now rewrite IH.
Qed.

(** [update_one] rewrites the first document that [find_one] returns, and
    [find_one] then returns the rewritten document. *)
Lemma update_first_found o l coll d :
  List.find (matches (by_id o)) coll = Some d ->
  snd (update_first (by_id o) l coll) = 1 /\
  List.find (matches (by_id o)) (fst (update_first (by_id o) l coll))
  = Some (mk_Document (_id d) (apply_sets l (data d))) /\
  map _id (fst (update_first (by_id o) l coll)) = map _id coll.
Proof.
  induction coll as [|x coll IH]; simpl; [done|].
  destruct (matches (by_id o) x) eqn:E.
  - intros [= ->]. simpl. rewrite matches_by_id in *. simpl. now rewrite E.
  - intros H. destruct (IH H) as (H1 & H2 & H3).
    destruct (update_first (by_id o) l coll) as [r n]. simpl in *.
    rewrite E. now rewrite H3.
Qed.

Lemma bind_delete_one {B} q (f : Z -> M B) w :
  (delete_one q ≫= f) w
  = f (snd (delete_first q (tasks w)))
      (with_tasks (fst (delete_first q (tasks w))) (advance 0 1 w)).
Proof. erewrite bind_Return; [reflexivity|]. rewrite delete_one_run. world_eq. Qed.

Lemma bind_update_one {B} q l (f : Z -> M B) w :
  (update_one q l ≫= f) w
  = f (snd (update_first q l (tasks w)))
      (with_tasks (fst (update_first q l (tasks w))) (advance 0 1 w)).
Proof. erewrite bind_Return; [reflexivity|]. rewrite update_one_run. world_eq. Qed.

Lemma tasks_with_tasks l w : tasks (with_tasks l w) = l.
Proof. reflexivity. Qed.

Lemma clock_with_tasks l w : clock (with_tasks l w) = clock w.
Proof. reflexivity. Qed.

Lemma clock_reads_with_tasks l w : clock_reads (with_tasks l w) = clock_reads w.
Proof. reflexivity. Qed.

Lemma advance_with_tasks c s l w :
  advance c s (with_tasks l w) = with_tasks l (advance c s w).
Proof. reflexivity. Qed.

#[local] Hint Rewrite @bind_delete_one @bind_update_one tasks_with_tasks
  clock_with_tasks clock_reads_with_tasks advance_with_tasks : run.

(** ** Get, Update and Delete *)

Lemma get_task_malformed task_id w :
  is_valid task_id = false ->
  get_task task_id w = (Raise (HTTPException 400 "Invalid task ID format"), w).
Proof. intros H. unfold get_task. now rewrite H. Qed.

Lemma update_task_malformed task_id tu w :
  is_valid task_id = false ->
  update_task task_id tu w = (Raise (HTTPException 400 "Invalid task ID format"), w).
Proof. intros H. unfold update_task. now rewrite H. Qed.

Lemma delete_task_malformed task_id w :
  is_valid task_id = false ->
  delete_task task_id w = (Raise (HTTPException 400 "Invalid task ID format"), w).
Proof. intros H. unfold delete_task. now rewrite H. Qed.

Lemma get_task_missing task_id oid w :
  ObjectId_new task_id = Return oid ->
  oid ∉ map _id (tasks w) ->
  get_task task_id w = (Raise (HTTPException 404 "Task not found"), advance 0 1 w).
Proof.
  intros Hoid Hno. unfold get_task.
  rewrite (ObjectId_new_is_valid _ _ Hoid), Hoid. simpl negb. cbv iota.
  apply except_reraise_HTTP.
  step. rewrite (find_by_id_None _ _ Hno).
  unfold raise. world_eq.
Qed.

Lemma delete_task_run task_id oid w :
  ObjectId_new task_id = Return oid ->
  delete_task task_id w =
  (if snd (delete_first (by_id oid) (tasks w)) =? 0
   then Raise (HTTPException 404 "Task not found")
   else Return (DeleteResponse.mk "Task deleted successfully" task_id),
   mk_World (fst (delete_first (by_id oid) (tasks w))) (S (store_calls w))
            (clock w) (clock_reads w) (oid_source w) (oid_count w)).
Proof.
  intros Hoid. unfold delete_task.
  rewrite (ObjectId_new_is_valid _ _ Hoid), Hoid. simpl negb. cbv iota.
  destruct (snd (delete_first (by_id oid) (tasks w)) =? 0) eqn:E.
  - apply except_reraise_HTTP. step. rewrite E. world_eq.
  - apply except_reraise_Return. step. rewrite E. world_eq.
Qed.

Lemma delete_task_missing task_id oid w :
  ObjectId_new task_id = Return oid ->
  oid ∉ map _id (tasks w) ->
  delete_task task_id w = (Raise (HTTPException 404 "Task not found"), advance 0 1 w).
Proof.
  intros Hoid Hno. rewrite (delete_task_run _ _ _ Hoid).
  rewrite (delete_first_None _ _ Hno). simpl. world_eq.
Qed.

Lemma update_task_missing task_id oid tu w :
  ObjectId_new task_id = Return oid ->
  oid ∉ map _id (tasks w) ->
  update_data_of tu <> [] ->
  update_task task_id tu w = (Raise (HTTPException 404 "Task not found"), advance 1 1 w).
Proof.
  intros Hoid Hno Hne. unfold update_task.
  rewrite (ObjectId_new_is_valid _ _ Hoid), Hoid. simpl negb. cbv iota.
  destruct (update_data_of tu) as [|e l] eqn:E; [done|].
  apply except_reraise_HTTP.
  step. rewrite (update_first_None _ _ _ Hno). simpl.
  world_eq.
Qed.

(** A successful Delete leaves no record with that identifier, so a second
    Delete finds nothing. *)
Lemma delete_task_twice task_id r w w' :
  unique_ids w ->
  delete_task task_id w = (Return r, w') ->
  delete_task task_id w' = (Raise (HTTPException 404 "Task not found"), advance 0 1 w').
Proof.
  intros Hu H.
  destruct (is_valid task_id) eqn:Hv.
  2:{ rewrite delete_task_malformed in H by done. discriminate. }
  destruct (ObjectId_new_valid _ Hv) as (oid & Hoid & _).
  rewrite (delete_task_run _ _ _ Hoid) in H.
  destruct (snd (delete_first (by_id oid) (tasks w)) =? 0) eqn:E; [discriminate|].
  injection H as _ <-.
  eapply delete_task_missing; [exact Hoid|]. cbn [tasks].
  apply delete_first_removes; [exact Hu|].
  destruct (delete_first_count (by_id oid) (tasks w)) as [E0|E1]; [|done].
  rewrite E0 in E. discriminate.
Qed.

(** C7 (as amended).  Get, Update and Delete answer 400 on a malformed
    identifier and leave the world as it was: no operation has been issued
    against the store.  On a well-formed identifier that no record carries,
    Get and Delete answer 404, and so does Update when its body supplies at
    least one field.  After a successful Delete, a second Delete of the same
    identifier answers 404. *)
Theorem malformed_and_missing_identifiers (task_id : string) (w : World) :
  (is_valid task_id = false ->
     get_task task_id w = (Raise (HTTPException 400 "Invalid task ID format"), w)
     /\ (forall tu, update_task task_id tu w
                    = (Raise (HTTPException 400 "Invalid task ID format"), w))
     /\ delete_task task_id w = (Raise (HTTPException 400 "Invalid task ID format"), w))
  /\ (forall oid, ObjectId_new task_id = Return oid -> oid ∉ map _id (tasks w) ->
        get_task task_id w
        = (Raise (HTTPException 404 "Task not found"), advance 0 1 w)
        /\ (forall tu, update_data_of tu <> [] ->
              update_task task_id tu w
              = (Raise (HTTPException 404 "Task not found"), advance 1 1 w))
        /\ delete_task task_id w
           = (Raise (HTTPException 404 "Task not found"), advance 0 1 w))
  /\ (forall r w', unique_ids w -> delete_task task_id w = (Return r, w') ->
        delete_task task_id w'
        = (Raise (HTTPException 404 "Task not found"), advance 0 1 w')).
Proof.
  split; [|split].
  - intros H. split; [|split].
    + now apply get_task_malformed.
    + intros tu. now apply update_task_malformed.
    + now apply delete_task_malformed.
  - intros oid Hoid Hno. split; [|split].
    + now apply get_task_missing with oid.
    + intros tu Htu. now apply update_task_missing with oid.
    + now apply delete_task_missing with oid.
  - intros r w' Hu H. now apply delete_task_twice with r w.
Qed.

(** C8.  On a well-formed identifier, an Update whose body supplies no field
    answers 400 and leaves the world, hence every stored record, as it was. *)
Theorem update_without_fields_rejected (task_id : string) (w : World) :
  is_valid task_id = true ->
  update_task task_id empty_update w
  = (Raise (HTTPException 400 "No valid update data provided"), w).
Proof. intros H. unfold update_task. now rewrite H. Qed.

(** The body with no field is the only one whose update data is empty. *)
Lemma update_data_empty_iff tu : update_data_of tu = [] <-> tu = empty_update.
Proof.
  split.
  - destruct tu as [[?|] [?|] [?|] [?|] [?|] [?|]]; simpl; done.
  - now intros ->.
Qed.

(** C10.  An Update whose only field is [completed = false] is not taken
    for an empty one: on an existing valid record it returns the record with
    [completed] false and [updatedAt] set to the reading of the clock, every
    other field as it was; the document then stored under the identifier
    holds these fields. *)
Theorem update_completed_false_is_applied
  (task_id : string) (oid : ObjectId) (d : Document) (w : World) :
  ObjectId_new task_id = Return oid ->
  List.find (matches (by_id oid)) (tasks w) = Some d ->
  Is_true (Task.valid (task_helper d)) ->
  exists t d' w',
    update_task task_id (TaskUpdate.mk None None None None (Some false) None) w
    = (Return t, w')
    /\ Task.completed t = false
    /\ Task.updatedAt t = Some (isoformat (clock w (clock_reads w)))
    /\ Task.title t = TaskDict.title (data d)
    /\ Task.dueDate t = TaskDict.dueDate (data d)
    /\ Task.priority t = TaskDict.priority (data d)
    /\ Task.category t = TaskDict.category (data d)
    /\ Task.createdAt t = TaskDict.createdAt (data d)
    /\ Task.userId t = TaskDict.userId (data d)
    /\ Task.notificationId t = TaskDict.notificationId (data d)
    /\ List.find (matches (by_id oid)) (tasks w') = Some d'
    /\ _id d' = oid
    /\ record_of d' = t.
Proof.
  intros Hoid Hd Hv.
  destruct (find_by_id_Some _ _ _ Hd) as [_ Hid].
  set (now := isoformat (clock w (clock_reads w))).
  set (sets := [set_completed false; set_updatedAt now]).
  destruct (update_first_found oid sets _ _ Hd) as (Hn & Hf & _).
  exists (record_of (mk_Document (_id d) (apply_sets sets (data d)))),
         (mk_Document (_id d) (apply_sets sets (data d))),
         (with_tasks (fst (update_first (by_id oid) sets (tasks w))) (advance 1 2 w)).
  split.
  - unfold update_task.
    rewrite (ObjectId_new_is_valid _ _ Hoid), Hoid. simpl negb. cbv iota.
    apply except_reraise_Return. cbn [update_data_of entry_of app TaskUpdate.title
      TaskUpdate.dueDate TaskUpdate.priority TaskUpdate.category
      TaskUpdate.completed TaskUpdate.notificationId].
    step. fold now. fold sets. rewrite Hn.
    change (1 =? 0) with false. cbv iota.
    step. rewrite Hf. unfold Task_of_found, Task_init.
    assert (Hv' : Task.valid (task_helper (mk_Document (_id d) (apply_sets sets (data d)))) = true).
    { apply Is_true_true in Hv. destruct d as [i [? ? ? ? ? ? ? ? ? ?]]. exact Hv. }
    rewrite Hv'. world_eq.
  - rewrite tasks_with_tasks.
    destruct d as [i [? ? ? ? ? ? ? ? ? ?]]. simpl in *. subst i.
    repeat split; try reflexivity. exact Hf.
Qed.

(** ** Create *)

Lemma create_task_run task_data w :
  TaskCreate.valid task_data = true ->
  oid_source w (oid_count w) ∉ map _id (tasks w) ->
  create_task task_data w =
  (Return (record_of (created_document task_data w)),
   mk_World (tasks w ++ [created_document task_data w])
            (S (S (store_calls w))) (clock w) (S (S (clock_reads w)))
            (oid_source w) (S (oid_count w))).
Proof.
  intros Hv Hfresh. unfold create_task. apply except_Return.
  step.
  erewrite bind_Return; [| apply insert_one_generated; exact Hfresh].
  rewrite bind_find_one. cbn [tasks clock clock_reads advance].
  replace (clock_reads w + 1)%nat with (S (clock_reads w)) by lia.
  rewrite find_by_id_new by exact Hfresh.
  unfold Task_of_found, Task_init, created_document.
  unfold TaskCreate.valid in Hv. unfold Task.valid. simpl. rewrite Hv.
  world_eq.
Qed.

Lemma get_task_found task_id oid d w :
  ObjectId_new task_id = Return oid ->
  List.find (matches (by_id oid)) (tasks w) = Some d ->
  Task.valid (task_helper d) = true ->
  get_task task_id w = (Return (record_of d), advance 0 1 w).
Proof.
  intros Hoid Hd Hv. unfold get_task.
  rewrite (ObjectId_new_is_valid _ _ Hoid), Hoid. simpl negb. cbv iota.
  apply except_reraise_Return. step. rewrite Hd.
  unfold Task_init. rewrite Hv. reflexivity.
Qed.


(** ** List *)

Lemma matches_app q1 q2 d : matches (q1 ++ q2) d = matches q1 d && matches q2 d.
Proof. unfold matches. apply forallb_app. Qed.

Lemma matches_category c d :
  matches [(K_category, Is (VStr c))] d = bool_decide (TaskDict.category (data d) = c).
Proof. unfold matches; simpl. now rewrite andb_true_r. Qed.

Lemma matches_priority p d :
  matches [(K_priority, Is (VStr p))] d = bool_decide (TaskDict.priority (data d) = p).
Proof. unfold matches; simpl. now rewrite andb_true_r. Qed.

(** What [find(q).limit(n).sort(..).to_list(n)] returns is made of documents
    of the collection that match [q]. *)
Lemma find_sort_limit_matches q n w ds w' :
  find_sort_limit q n w = (Return ds, w') ->
  Forall (fun d => d ∈ tasks w /\ matches q d = true) ds.
Proof.
  unfold find_sort_limit. destruct (n <? 0); [discriminate|].
  run_monad. intros [= <- _].
  apply Forall_forall. intros d Hd.
  apply elem_of_take in Hd as (i & Hd & _).
  apply list_elem_of_lookup_2 in Hd.
  rewrite merge_sort_Permutation in Hd.
  apply list_elem_of_In, filter_In in Hd as [Hd1 Hd2].
  split; [now apply list_elem_of_In | done].
Qed.

Lemma find_sort_limit_run q n w :
  0 <= n ->
  find_sort_limit q n w =
  (Return (take (Z.to_nat n)
             (merge_sort createdAt_desc (List.filter (matches q) (tasks w)))),
   advance 0 1 w).
Proof.
  intros Hn. unfold find_sort_limit.
  destruct (n <? 0) eqn:E; [apply Z.ltb_lt in E; lia|]. world_eq.
Qed.

(** Building the response models from documents either yields the image of
    every document or fails; the world is not touched. *)
Lemma mapM_Task_init_Return ds r w w' :
  mapM (fun task => lift (Task_init (task_helper task))) ds w = (Return r, w') ->
  r = map record_of ds /\ w' = w.
Proof.
  revert r. induction ds as [|d ds IH]; intros r; cbn [mapM map].
  - now intros [= <- <-].
  - unfold mbind, M_bind. rewrite lift_run. unfold Task_init at 1.
    destruct (Task.valid (task_helper d)); [|discriminate].
    destruct (mapM _ ds w) as [[r'|e] w''] eqn:E; [|discriminate].
    intros [= <- <-]. destruct (IH r' eq_refl) as [-> ->]. done.
Qed.

Lemma mapM_Task_init_valid ds w :
  Forall (fun d => Is_true (Task.valid (task_helper d))) ds ->
  mapM (fun task => lift (Task_init (task_helper task))) ds w
  = (Return (map record_of ds), w).
Proof.
  induction 1 as [|d ds Hd _ IH]; cbn [mapM map]; [done|].
  unfold mbind, M_bind. rewrite lift_run. unfold Task_init at 1.
  apply Is_true_true in Hd. rewrite Hd, IH. done.
Qed.

Lemma get_tasks_Return category priority completed limit w r w' :
  get_tasks category priority completed limit w = (Return r, w') ->
  exists ds,
    r = map record_of ds
    /\ Forall (fun d =>
         d ∈ tasks w
         /\ matches (category_filter category ++ priority_filter priority
                     ++ completed_filter completed) d = true) ds.
Proof.
  unfold get_tasks, except_Exception. unfold mbind at 1. unfold M_bind.
  destruct (find_sort_limit _ limit w) as [[ds|e] w1] eqn:E; [|discriminate].
  destruct (mapM _ ds w1) as [[r'|e] w2] eqn:E2; [|discriminate].
  intros [= <- <-]. apply mapM_Task_init_Return in E2 as [-> ->].
  exists ds. split; [done|]. eapply find_sort_limit_matches, E.
Qed.

Lemma category_filter_known c :
  c ∈ ["work"; "personal"; "study"] ->
  category_filter (Some c) = [(K_category, Is (VStr c))].
Proof.
  intros H. unfold category_filter, str_truthy.
  rewrite (bool_decide_true _ H).
  rewrite bool_decide_false; [done|].
  intros ->. clear -H.
  repeat (apply elem_of_cons in H as [H|H]; [discriminate H|]).
  now apply elem_of_nil in H.
Qed.

Lemma category_filter_unknown c :
  c ∉ ["work"; "personal"; "study"] -> category_filter (Some c) = [].
Proof.
  intros H. unfold category_filter.
  rewrite (bool_decide_false _ H). now rewrite andb_false_r.
Qed.

Lemma priority_filter_known p :
  p ∈ ["high"; "medium"; "low"] ->
  priority_filter (Some p) = [(K_priority, Is (VStr p))].
Proof.
  intros H. unfold priority_filter, str_truthy.
  rewrite (bool_decide_true _ H).
  rewrite bool_decide_false; [done|].
  intros ->. clear -H.
  repeat (apply elem_of_cons in H as [H|H]; [discriminate H|]).
  now apply elem_of_nil in H.
Qed.

Lemma priority_filter_unknown p :
  p ∉ ["high"; "medium"; "low"] -> priority_filter (Some p) = [].
Proof.
  intros H. unfold priority_filter.
  rewrite (bool_decide_false _ H). now rewrite andb_false_r.
Qed.

(** List always answers when the limit is not negative and the stored
    documents are valid. *)
Lemma get_tasks_returns category priority completed limit w :
  0 <= limit -> stored_valid w ->
  exists r, get_tasks category priority completed limit w = (Return r, advance 0 1 w).
Proof.
  intros Hl Hv. eexists. unfold get_tasks. apply except_Return.
  erewrite bind_Return; [| apply find_sort_limit_run; exact Hl].
  apply mapM_Task_init_valid.
  apply Forall_forall. intros d Hd.
  apply elem_of_take in Hd as (i & Hd & _).
  apply list_elem_of_lookup_2 in Hd.
  rewrite merge_sort_Permutation in Hd.
  apply list_elem_of_In, filter_In in Hd as [Hd1 Hd2].
  unfold stored_valid in Hv. rewrite Forall_forall in Hv.
  apply Hv. now apply list_elem_of_In.
Qed.

(** C9.  With a category of the enumeration, every record that List returns
    has that category; with any other value the call is the call without a
    category filter.  The same holds of the priority filter.  In each case
    the call returns a list whenever the limit is not negative and the stored
    documents are valid. *)
Theorem list_filters_by_category_and_priority
  (c p : string) (category priority : option string) (completed : option bool)
  (limit : Z) (w : World) :
  (c ∈ ["work"; "personal"; "study"] ->
   forall r w', get_tasks (Some c) priority completed limit w = (Return r, w') ->
                Forall (fun t => Task.category t = c) r)
  /\ (c ∉ ["work"; "personal"; "study"] ->
      get_tasks (Some c) priority completed limit w
      = get_tasks None priority completed limit w)
  /\ (p ∈ ["high"; "medium"; "low"] ->
      forall r w', get_tasks category (Some p) completed limit w = (Return r, w') ->
                   Forall (fun t => Task.priority t = p) r)
  /\ (p ∉ ["high"; "medium"; "low"] ->
      get_tasks category (Some p) completed limit w
      = get_tasks category None completed limit w)
  /\ (0 <= limit -> stored_valid w ->
      exists r, get_tasks category priority completed limit w
                = (Return r, advance 0 1 w)).
Proof.
  repeat split.
  - intros Hc r w' H. apply get_tasks_Return in H as (ds & -> & Hds).
    rewrite category_filter_known in Hds by done.
    apply Forall_map. eapply Forall_impl; [exact Hds|].
    intros d [_ Hm]. rewrite matches_app, matches_category in Hm.
    apply andb_true_iff in Hm as [Hm _]. now apply bool_decide_eq_true in Hm.
  - intros Hc. unfold get_tasks. now rewrite category_filter_unknown.
  - intros Hp r w' H. apply get_tasks_Return in H as (ds & -> & Hds).
    rewrite priority_filter_known in Hds by done.
    apply Forall_map. eapply Forall_impl; [exact Hds|].
    intros d [_ Hm]. rewrite !matches_app, matches_priority in Hm.
    apply andb_true_iff in Hm as [_ Hm]. apply andb_true_iff in Hm as [Hm _].
    now apply bool_decide_eq_true in Hm.
  - intros Hp. unfold get_tasks. now rewrite priority_filter_unknown.
  - intros Hl Hv. now apply get_tasks_returns.
Qed.

(** ** Sync *)

Lemma record_of_synced now task oid :
  record_of (synced_document now task oid) = synced_task now task.
Proof.
  unfold synced_document, synced_task, record_of, sync_task_dict, pop_id.
  destruct (_ && _); reflexivity.
Qed.

Lemma sync_oids_length gen l : forall n, length (sync_oids gen n l) = length l.
Proof.
  induction l as [|t l IH]; intros n; simpl; [done|].
  destruct (supplied_oid t); simpl; now rewrite IH.
Qed.

Lemma map_record_of_synced now l os :
  length os = length l ->
  map record_of (zip_with (synced_document now) l os) = map (synced_task now) l.
Proof.
  revert os. induction l as [|t l IH]; intros [|o os]; cbn [zip_with map length];
    try done.
  intros [= H]. now rewrite record_of_synced, IH.
Qed.

Lemma map_id_synced now l os :
  length os = length l ->
  map _id (zip_with (synced_document now) l os) = os.
Proof.
  revert os. induction l as [|t l IH]; intros [|o os]; cbn [zip_with map length];
    try done.
  intros [= H]. now rewrite IH.
Qed.

Lemma task_valid_synced now task oid :
  Task.valid (task_helper (synced_document now task oid)) = Task.valid task.
Proof.
  unfold synced_document, task_helper, sync_task_dict, pop_id, Task.valid.
  destruct (str_truthy _ && _); reflexivity.
Qed.

Lemma delete_many_all_run w :
  delete_many [] w =
  (Return (Z.of_nat (length (tasks w))), with_tasks [] (advance 0 1 w)).
Proof.
  unfold delete_many. run_monad.
  assert (H1 : List.filter (fun d => negb (matches [] d)) (tasks w) = []).
  { induction (tasks w) as [|d l IH]; [done|]. exact IH. }
  assert (H2 : List.filter (matches []) (tasks w) = tasks w).
  { induction (tasks w) as [|d l IH]; [done|]. simpl. now rewrite IH. }
  rewrite H1, H2. world_eq.
Qed.

(** One turn of the loop of Sync, when the identifier to insert is not in
    the collection. *)
Lemma sync_one_run now task w :
  Task.valid task = true ->
  default (oid_source w (oid_count w)) (supplied_oid task) ∉ map _id (tasks w) ->
  sync_one now task w =
  (Return (synced_task now task),
   mk_World
     (tasks w ++ [synced_document now task
                    (default (oid_source w (oid_count w)) (supplied_oid task))])
     (S (S (store_calls w))) (clock w) (clock_reads w) (oid_source w)
     (match supplied_oid task with
      | Some _ => oid_count w
      | None => S (oid_count w)
      end)).
Proof.
  intros Hv Hfresh.
  rewrite <- (record_of_synced now task
                (default (oid_source w (oid_count w)) (supplied_oid task))).
  unfold sync_one, supplied_oid, synced_document in *.
  destruct (Task.id task) as [s|] eqn:Hid; cbn [default from_option id] in *.
  - destruct (str_truthy (Some s)) eqn:Ht; cbn [andb negb] in *.
    + destruct (is_valid s) eqn:Hs; cbn [negb] in *.
      * destruct (ObjectId_new_valid s Hs) as (o & Ho & _).
        rewrite Ho in *. cbn [default from_option id] in *.
        rewrite bind_Return with (a := (Some o, sync_task_dict now task)) (w' := w)
          by reflexivity.
        erewrite bind_Return; [| apply insert_one_supplied; exact Hfresh].
        rewrite bind_find_one. cbn [tasks].
        rewrite find_by_id_new by exact Hfresh.
        unfold Task_of_found, Task_init.
        replace (Task.valid (task_helper _)) with true by (symmetry; exact Hv).
        world_eq.
      * rewrite bind_mret.
        erewrite bind_Return; [| apply insert_one_generated; exact Hfresh].
        rewrite bind_find_one. cbn [tasks].
        rewrite find_by_id_new by exact Hfresh.
        unfold Task_of_found, Task_init.
        replace (Task.valid (task_helper _)) with true
          by (symmetry; destruct task; exact Hv).
        world_eq.
    + rewrite bind_mret.
      erewrite bind_Return; [| apply insert_one_generated; exact Hfresh].
      rewrite bind_find_one. cbn [tasks].
      rewrite find_by_id_new by exact Hfresh.
      unfold Task_of_found, Task_init.
      replace (Task.valid (task_helper _)) with true by (symmetry; exact Hv).
      world_eq.
  - cbn [str_truthy andb].
    rewrite bind_mret.
    erewrite bind_Return; [| apply insert_one_generated; exact Hfresh].
    rewrite bind_find_one. cbn [tasks].
    rewrite find_by_id_new by exact Hfresh.
    unfold Task_of_found, Task_init.
    replace (Task.valid (task_helper _)) with true by (symmetry; exact Hv).
    world_eq.
Qed.

(** The loop of Sync, when the identifiers to insert are pairwise distinct
    and none is in the collection. *)
Lemma mapM_sync_one_run now l : forall w,
  forallb Task.valid l = true ->
  NoDup (map _id (tasks w) ++ sync_oids (oid_source w) (oid_count w) l) ->
  exists w',
    mapM (sync_one now) l w =
    (Return (map (synced_task now) l), w')
    /\ tasks w' = tasks w ++ zip_with (synced_document now) l
                              (sync_oids (oid_source w) (oid_count w) l)
    /\ clock w' = clock w /\ clock_reads w' = clock_reads w
    /\ oid_source w' = oid_source w.
Proof.
  induction l as [|task l IH]; intros w Hv Hnd.
  - exists w. cbn. rewrite app_nil_r. done.
  - cbn [forallb] in Hv. apply andb_true_iff in Hv as [Hv Hvl].
    cbn [mapM sync_oids zip_with].
    set (oid := default (oid_source w (oid_count w)) (supplied_oid task)).
    set (w1 := mk_World (tasks w ++ [synced_document now task oid])
                 (S (S (store_calls w))) (clock w) (clock_reads w) (oid_source w)
                 (match supplied_oid task with
      | Some _ => oid_count w
      | None => S (oid_count w)
      end)).
    assert (Hoids : sync_oids (oid_source w) (oid_count w) (task :: l)
                    = oid :: sync_oids (oid_source w1) (oid_count w1) l).
    { unfold oid, w1. cbn [sync_oids oid_source oid_count].
      destruct (supplied_oid task); reflexivity. }
    rewrite Hoids in Hnd.
    assert (Hfresh : oid ∉ map _id (tasks w)).
    { apply NoDup_app in Hnd as (_ & Hdis & _).
      intros Hin. apply (Hdis _ Hin). left. }
    destruct (IH w1 Hvl) as (w' & Hrun & Ht & Hc & Hr & Hs).
    { unfold w1 at 1. cbn [tasks]. rewrite map_app. cbn [map _id synced_document].
      rewrite <- app_assoc. exact Hnd. }
    exists w'. split; [|split; [|split; [|split]]].
    + rewrite bind_Return with (a := synced_task now task) (w' := w1)
        by (apply sync_one_run; [exact Hv | exact Hfresh]).
      rewrite bind_Return with (1 := Hrun). rewrite mret_run. reflexivity.
    + rewrite Ht. unfold w1 at 1. cbn [tasks]. rewrite <- app_assoc.
      change (match (supplied_oid task) with
              | Some o => o :: sync_oids (oid_source w) (oid_count w) l
              | None => oid_source w (oid_count w)
                        :: sync_oids (oid_source w) (S (oid_count w)) l
              end) with (sync_oids (oid_source w) (oid_count w) (task :: l)).
      rewrite Hoids. reflexivity.
    + now rewrite Hc.
    + now rewrite Hr.
    + now rewrite Hs.
Qed.

(** C3 (as amended).  When the tasks of the request are valid and the
    identifiers under which they are inserted (the supplied one when
    [ObjectId] accepts it, a generated one otherwise) are pairwise distinct,
    Sync returns the tasks of the request in order, each with [updatedAt] set
    to the sync time, an empty list of conflicts and the sync time; the
    collection is then made of exactly the documents of these tasks, stored
    under these identifiers, whatever it held before. *)
Theorem sync_replaces_the_collection (sync_request : SyncRequest.t) (w : World) :
  SyncRequest.valid sync_request = true ->
  NoDup (sync_oids (oid_source w) (oid_count w) (SyncRequest.tasks sync_request)) ->
  exists w',
    sync_tasks sync_request w =
    (Return (SyncResponse.mk
               (map (synced_task (isoformat (clock w (clock_reads w))))
                  (SyncRequest.tasks sync_request))
               []
               (isoformat (clock w (clock_reads w)))),
     w')
    /\ tasks w' =
       zip_with (synced_document (isoformat (clock w (clock_reads w))))
         (SyncRequest.tasks sync_request)
         (sync_oids (oid_source w) (oid_count w) (SyncRequest.tasks sync_request))
    /\ map _id (tasks w')
       = sync_oids (oid_source w) (oid_count w) (SyncRequest.tasks sync_request)
    /\ map record_of (tasks w') =
       map (synced_task (isoformat (clock w (clock_reads w))))
         (SyncRequest.tasks sync_request).
Proof.
  intros Hv Hnd. unfold SyncRequest.valid in Hv.
  set (now := isoformat (clock w (clock_reads w))).
  set (w1 := with_tasks [] (advance 0 1 (advance 1 0 w))).
  destruct (mapM_sync_one_run now (SyncRequest.tasks sync_request) w1 Hv)
    as (w' & Hrun & Ht & _).
  { exact Hnd. }
  exists w'. split; [|split; [|split]].
  - unfold sync_tasks. apply except_Return.
    rewrite bind_datetime_now. fold now.
    erewrite bind_Return; [| apply delete_many_all_run].
    fold w1. rewrite bind_Return with (1 := Hrun). reflexivity.
  - rewrite Ht. reflexivity.
  - rewrite Ht. apply map_id_synced. apply sync_oids_length.
  - rewrite Ht. apply (map_record_of_synced now). apply sync_oids_length.
Qed.

(** ** The identifiers that Sync keeps *)

(** A supplied identifier is kept exactly when it is present and [ObjectId]
    reads it. *)
Lemma supplied_oid_Some task o :
  supplied_oid task = Some o <->
  exists s, Task.id task = Some s /\ ObjectId_new s = Return o.
Proof.
  unfold supplied_oid. split.
  - destruct (Task.id task) as [s|]; [|discriminate].
    destruct (str_truthy (Some s)); [|discriminate]. cbn [andb].
    destruct (is_valid s) eqn:Hs; [|discriminate].
    destruct (ObjectId_new_valid s Hs) as (o' & Ho & Hstr). rewrite Ho.
    intros [= <-]. eauto.
  - intros (s & -> & Ho).
    assert (Hs : is_valid s = true) by (unfold is_valid; now rewrite Ho).
    assert (Ht : str_truthy (Some s) = true).
    { unfold str_truthy. rewrite bool_decide_false; [done|].
      intros ->. discriminate Hs. }
    rewrite Ht, Hs. cbn [andb]. now rewrite Ho.
Qed.

(** Otherwise the driver generates the identifier. *)
Lemma supplied_oid_None task :
  supplied_oid task = None <->
  (forall s, Task.id task = Some s -> is_valid s = false).
Proof.
  unfold supplied_oid. split.
  - destruct (Task.id task) as [s|]; [|discriminate 2].
    intros H s' [= <-].
    destruct (is_valid s) eqn:Hs; [|reflexivity].
    assert (Ht : str_truthy (Some s) = true).
    { unfold str_truthy. rewrite bool_decide_false; [done|].
      intros ->. discriminate Hs. }
    rewrite Ht in H. cbn [andb] in H.
    destruct (ObjectId_new_valid s Hs) as (o' & Ho & _). rewrite Ho in H.
    discriminate H.
  - intros H. destruct (Task.id task) as [s|]; [|reflexivity].
    rewrite (H s eq_refl). now rewrite andb_false_r.
Qed.


(** ** Statistics *)

Lemma percentage_run a b w : percentage a b w = (Return (pct a b), w).
Proof.
  unfold percentage, pct. destruct (0 <? b) eqn:E; [|reflexivity].
  apply Z.ltb_lt in E. unfold py_truediv.
  destruct (b =? 0) eqn:Eb; [apply Z.eqb_eq in Eb; lia|].
  reflexivity.
Qed.

Lemma bind_percentage {B} a b (f : number -> M B) w :
  (percentage a b ≫= f) w = f (pct a b) w.
Proof. apply bind_Return, percentage_run. Qed.

#[local] Hint Rewrite @bind_percentage : run.

Lemma daily_stat_run i w :
  daily_stat i w =
  (Return (daily_entry (tasks w)
             (datetime_sub (clock w (clock_reads w)) (timedelta_of 0 i 0 0 0))),
   advance 1 2 w).
Proof.
  unfold daily_stat. autorewrite with run. unfold daily_entry, count, created_on.
  world_eq.
Qed.

Lemma mapM_daily_stat_run l : forall w,
  mapM daily_stat l w =
  (Return (daily_entries (tasks w) (clock w) (clock_reads w) l),
   advance (length l) (2 * length l) w).
Proof.
  induction l as [|i l IH]; intros w; cbn [mapM daily_entries].
  - rewrite mret_run. cbn [length Nat.mul]. now rewrite advance_0.
  - rewrite bind_Return with (1 := daily_stat_run i w).
    rewrite bind_Return with (1 := IH (advance 1 2 w)).
    rewrite mret_run. autorewrite with run.
    replace (clock_reads w + 1)%nat with (S (clock_reads w)) by lia.
    f_equal. unfold advance. f_equal; cbn [length]; lia.
Qed.

Lemma bucket_of_run item w : bucket_of item w = (Return (bucket_entry item), w).
Proof. unfold bucket_of. autorewrite with run. reflexivity. Qed.

Lemma mapM_bucket_of_run l w :
  mapM bucket_of l w = (Return (map bucket_entry l), w).
Proof.
  induction l as [|x l IH]; cbn [mapM map]; [reflexivity|].
  rewrite bind_Return with (1 := bucket_of_run x w).
  rewrite bind_Return with (1 := IH). reflexivity.
Qed.

(** [get_stats] never raises, and its report is [stats_report]. *)
Lemma get_stats_run w : get_stats w = (Return (stats_report w), advance 15 21 w).
Proof.
  unfold get_stats. apply except_Return. autorewrite with run.
  rewrite bind_Return with (1 := mapM_daily_stat_run (range 7) _).
  autorewrite with run.
  rewrite bind_Return with (1 := mapM_bucket_of_run _ _).
  rewrite bind_Return with (1 := mapM_bucket_of_run _ _).
  change (py_truediv (PyInt ?a) (PyInt 7))
    with (Return (A:=number) (PyFloat (round_double (inject_Z a / inject_Z 7)))).
  autorewrite with run. rewrite mret_run.
  unfold stats_report, count. cbn [Nat.add length range seq map Nat.mul].
  rewrite !Nat.add_0_r. world_eq.
Qed.

Lemma weekly_stat_run i w :
  weekly_stat i w =
  (Return (weekly_entry (tasks w) i (clock w (clock_reads w))
             (clock w (S (clock_reads w)))),
   advance 2 2 w).
Proof.
  unfold weekly_stat. autorewrite with run.
  replace (clock_reads w + 1)%nat with (S (clock_reads w)) by lia.
  unfold weekly_entry, week_start_of, count. world_eq.
Qed.

Lemma mapM_weekly_stat_run l : forall w,
  mapM weekly_stat l w =
  (Return (weekly_entries (tasks w) (clock w) (clock_reads w) l),
   advance (2 * length l) (2 * length l) w).
Proof.
  induction l as [|i l IH]; intros w; cbn [mapM weekly_entries].
  - rewrite mret_run. cbn [length Nat.mul]. now rewrite advance_0.
  - rewrite bind_Return with (1 := weekly_stat_run i w).
    rewrite bind_Return with (1 := IH (advance 2 2 w)).
    rewrite mret_run. autorewrite with run.
    replace (clock_reads w + 2)%nat with (S (S (clock_reads w))) by lia.
    f_equal. unfold advance. f_equal; cbn [length]; lia.
Qed.

(** [get_productivity_analytics] never raises. *)
Lemma get_productivity_analytics_run w :
  get_productivity_analytics w = (Return (productivity_report w), advance 9 8 w).
Proof.
  unfold get_productivity_analytics. apply except_Return.
  rewrite bind_Return with (1 := mapM_weekly_stat_run (range 4) _).
  autorewrite with run. rewrite mret_run.
  unfold productivity_report. cbn [Nat.add length range seq map Nat.mul].
  world_eq.
Qed.

(** ** Rounding *)

Lemma Qpow2_power e : (Qpow2 e == 2 ^ e)%Q.
Proof.
  unfold Qpow2. destruct (0 <=? e) eqn:E.
  - apply Z.leb_le in E. now rewrite Zpower_Qpower.
  - apply Z.leb_gt in E. destruct e as [|p|p]; try lia.
    change (- Z.neg p) with (Z.pos p).
    change ((2:Q) ^ Z.neg p)%Q with (/ (2 ^ Z.pos p))%Q.
    rewrite <- (Zpower_Qpower 2 (Z.pos p)) by lia.
    assert (H : 0 < 2 ^ Z.pos p) by (apply Z.pow_pos_nonneg; lia).
    destruct (2 ^ Z.pos p) as [|n|n]; try lia. reflexivity.
Qed.

Lemma Qpow2_pos e : (0 < Qpow2 e)%Q.
Proof. rewrite Qpow2_power. now apply Qpower_0_lt. Qed.

Lemma Qpow2_le a b : a <= b -> (Qpow2 a <= Qpow2 b)%Q.
Proof. intros H. rewrite !Qpow2_power. now apply Qpower_le_compat_l. Qed.

Lemma Qpow2_add a b : (Qpow2 (a + b) == Qpow2 a * Qpow2 b)%Q.
Proof. rewrite !Qpow2_power. now apply Qpower_plus. Qed.


Lemma inject_Z_minus a b : (inject_Z (a - b) == inject_Z a - inject_Z b)%Q.
Proof. unfold Z.sub. now rewrite inject_Z_plus, inject_Z_opp. Qed.

Lemma Qcompare_spec' (a b : Q) :
  match (a ?= b)%Q with Eq => (a == b)%Q | Lt => (a < b)%Q | Gt => (b < a)%Q end.
Proof.
  destruct (a ?= b)%Q eqn:E.
  - now apply Qeq_alt.
  - now apply Qlt_alt.
  - now apply Qgt_alt.
Qed.

Lemma Qabs_le_iff (x y : Q) : (Qabs x <= y <-> - y <= x /\ x <= y)%Q.
Proof. apply Qabs_Qle_condition. Qed.

Lemma Qabs_eq_cases (x y : Q) :
  (Qabs x == y)%Q -> (x == y)%Q \/ (x == - y)%Q.
Proof.
  apply (Qabs_case x (fun a => (a == y)%Q -> (x == y)%Q \/ (x == - y)%Q)).
  - intros _ H. now left.
  - intros _ H. right. lra.
Qed.

(** [round_half_even q] is an integer nearest to [q]. *)
Lemma round_half_even_near q :
  (Qabs (q - inject_Z (round_half_even q)) <= 1 # 2)%Q.
Proof.
  pose proof (Qfloor_le q) as H1. pose proof (Qlt_floor q) as H2.
  rewrite inject_Z_plus in H2. change (inject_Z 1) with 1%Q in H2.
  apply Qabs_le_iff. unfold round_half_even.
  pose proof (Qcompare_spec' (q - inject_Z (Qfloor q)) (1 # 2)) as E.
  destruct (q - inject_Z (Qfloor q) ?= 1 # 2)%Q.
  - destruct (Z.even (Qfloor q));
      [|rewrite inject_Z_plus; change (inject_Z 1) with 1%Q]; lra.
  - lra.
  - rewrite inject_Z_plus. change (inject_Z 1) with 1%Q. lra.
Qed.

(** When two integers are nearest, it is the even one. *)
Lemma round_half_even_tie q :
  (Qabs (q - inject_Z (round_half_even q)) == 1 # 2)%Q ->
  Z.even (round_half_even q) = true.
Proof.
  pose proof (Qfloor_le q) as H1. pose proof (Qlt_floor q) as H2.
  rewrite inject_Z_plus in H2. change (inject_Z 1) with 1%Q in H2.
  unfold round_half_even.
  pose proof (Qcompare_spec' (q - inject_Z (Qfloor q)) (1 # 2)) as E.
  destruct (q - inject_Z (Qfloor q) ?= 1 # 2)%Q.
  - destruct (Z.even (Qfloor q)) eqn:Ev; [easy|].
    intros _. rewrite Z.even_add, Ev. reflexivity.
  - intros [H|H]%Qabs_eq_cases; lra.
  - rewrite inject_Z_plus. change (inject_Z 1) with 1%Q.
    intros [H|H]%Qabs_eq_cases; lra.
Qed.

(** These two properties determine the integer. *)
Lemma round_half_even_unique q n :
  (Qabs (q - inject_Z n) <= 1 # 2)%Q ->
  ((Qabs (q - inject_Z n) == 1 # 2)%Q -> Z.even n = true) ->
  n = round_half_even q.
Proof.
  intros Hn Hev.
  pose proof (round_half_even_near q) as Hm.
  pose proof (round_half_even_tie q) as Hmev.
  set (m := round_half_even q) in *.
  apply Qabs_le_iff in Hn, Hm.
  assert (Hd : (- 1 <= inject_Z n - inject_Z m <= 1)%Q) by lra.
  rewrite <- inject_Z_minus in Hd. destruct Hd as [Hd1 Hd2].
  change (-1)%Q with (inject_Z (-1)) in Hd1. change 1%Q with (inject_Z 1) in Hd2.
  rewrite <- Zle_Qle in Hd1, Hd2.
  destruct (Z.eq_dec n m) as [E|E]; [exact E|exfalso].
  assert (Hc : n = m + 1 \/ n = m - 1) by lia.
  assert (En : Z.even n = true).
  { apply Hev. destruct Hc as [-> | ->].
    - rewrite inject_Z_plus in *. change (inject_Z 1) with 1%Q in *. rewrite Qabs_neg; lra.
    - rewrite inject_Z_minus in *. change (inject_Z 1) with 1%Q in *. rewrite Qabs_pos; lra. }
  assert (Em : Z.even m = true).
  { apply Hmev. destruct Hc as [-> | ->].
    - rewrite inject_Z_plus in *. change (inject_Z 1) with 1%Q in *. rewrite Qabs_pos; lra.
    - rewrite inject_Z_minus in *. change (inject_Z 1) with 1%Q in *. rewrite Qabs_neg; lra. }
  destruct Hc as [-> | ->].
  - rewrite Z.even_add, Em in En. discriminate.
  - rewrite Z.even_sub, Em in En. discriminate.
Qed.

Lemma round_half_even_comp q q' : q == q' -> round_half_even q = round_half_even q'.
Proof.
  intros H. apply round_half_even_unique.
  - rewrite <- H. apply round_half_even_near.
  - rewrite <- H. apply round_half_even_tie.
Qed.

Lemma round_half_even_Z k : round_half_even (inject_Z k) = k.
Proof.
  symmetry. apply round_half_even_unique.
  - setoid_replace (inject_Z k - inject_Z k)%Q with 0%Q using relation Qeq by ring. discriminate.
  - setoid_replace (inject_Z k - inject_Z k)%Q with 0%Q using relation Qeq by ring. discriminate.
Qed.

Lemma round_half_even_opp q : round_half_even (- q) = - round_half_even q.
Proof.
  symmetry. apply round_half_even_unique.
  - rewrite inject_Z_opp.
    setoid_replace (- q - - inject_Z (round_half_even q))%Q
      with (- (q - inject_Z (round_half_even q)))%Q using relation Qeq by ring.
    rewrite Qabs_opp. apply round_half_even_near.
  - rewrite inject_Z_opp.
    setoid_replace (- q - - inject_Z (round_half_even q))%Q
      with (- (q - inject_Z (round_half_even q)))%Q using relation Qeq by ring.
    rewrite Qabs_opp, Z.even_opp. apply round_half_even_tie.
Qed.

Lemma round_half_even_range lo hi q :
  (inject_Z lo <= q)%Q -> (q <= inject_Z hi)%Q ->
  lo <= round_half_even q <= hi.
Proof.
  intros Hlo Hhi.
  pose proof (round_half_even_near q) as Hm.
  apply Qabs_le_iff in Hm.
  assert (H1 : (inject_Z (lo - 1) < inject_Z (round_half_even q))%Q)
    by (rewrite inject_Z_minus; change (inject_Z 1) with 1%Q; lra).
  assert (H2 : (inject_Z (round_half_even q) < inject_Z (hi + 1))%Q)
    by (rewrite inject_Z_plus; change (inject_Z 1) with 1%Q; lra).
  rewrite <- Zlt_Qlt in H1, H2. lia.
Qed.

Lemma round_half_even_ge lo q : (inject_Z lo <= q)%Q -> lo <= round_half_even q.
Proof.
  intros Hlo. pose proof (round_half_even_near q) as Hm.
  apply Qabs_le_iff in Hm.
  assert (H1 : (inject_Z (lo - 1) < inject_Z (round_half_even q))%Q)
    by (rewrite inject_Z_minus; change (inject_Z 1) with 1%Q; lra).
  rewrite <- Zlt_Qlt in H1. lia.
Qed.

Lemma round_half_even_le hi q : (q <= inject_Z hi)%Q -> round_half_even q <= hi.
Proof.
  intros Hhi. pose proof (round_half_even_near q) as Hm.
  apply Qabs_le_iff in Hm.
  assert (H2 : (inject_Z (round_half_even q) < inject_Z (hi + 1))%Q)
    by (rewrite inject_Z_plus; change (inject_Z 1) with 1%Q; lra).
  rewrite <- Zlt_Qlt in H2. lia.
Qed.

Lemma Qpow2_opp e : (Qpow2 e * Qpow2 (- e) == 1)%Q.
Proof. rewrite <- Qpow2_add, Z.add_opp_diag_r. reflexivity. Qed.

Lemma Qpow2_nonneg e : 0 <= e -> Qpow2 e = inject_Z (2 ^ e).
Proof. intros H. unfold Qpow2. now rewrite (proj2 (Z.leb_le 0 e) H). Qed.

(** The power of two that [ilog2] names is not above the number. *)
Lemma ilog2_le q : ~ (q == 0)%Q -> (Qpow2 (ilog2 q) <= Qabs q)%Q.
Proof.
  intros Hq. unfold ilog2.
  set (ln := Z.log2 (Z.abs (Qnum q))). set (ld := Z.log2 (Z.pos (Qden q))).
  destruct (Qle_bool (Qpow2 (ln - ld)) (Qabs q)) eqn:E.
  - now apply Qle_bool_iff.
  - clear E. destruct q as [n d]. cbn [Qnum Qden] in *.
    assert (Hn : 0 < Z.abs n).
    { destruct n; try lia. exfalso. apply Hq. reflexivity. }
    assert (H1 : 2 ^ ln <= Z.abs n) by (apply Z.log2_spec; exact Hn).
    assert (H2 : Z.pos d < 2 ^ (ld + 1)).
    { unfold ld. replace (Z.log2 (Z.pos d) + 1) with (Z.succ (Z.log2 (Z.pos d))) by lia.
      apply Z.log2_spec. lia. }
    assert (Hln : 0 <= ln) by apply Z.log2_nonneg.
    assert (Hld : 0 <= ld) by apply Z.log2_nonneg.
    replace (ln - ld - 1) with (ln + - (ld + 1)) by lia.
    rewrite Qpow2_add.
    change (Qabs (n # d)) with (Z.abs n # d). rewrite (Qmake_Qdiv (Z.abs n) d).
    apply Qle_shift_div_l; [reflexivity|].
    pose proof (Qpow2_opp (ld + 1)) as Hinv.
    pose proof (Qpow2_pos ln) as P1. pose proof (Qpow2_pos (- (ld + 1))) as P2.
    rewrite (Qpow2_nonneg ln Hln) in *. rewrite (Qpow2_nonneg (ld + 1)) in Hinv by lia.
    rewrite Zle_Qle in H1. rewrite Zlt_Qlt in H2.
    set (a := inject_Z (2 ^ ln)) in *. set (b := Qpow2 (- (ld + 1))) in *.
    set (c := inject_Z (2 ^ (ld + 1))) in *.
    set (x := inject_Z (Z.abs n)) in *. set (y := inject_Z (Z.pos d)) in *.
    assert (Hy : (0 < y)%Q) by reflexivity.
    assert (H3 : (b * y <= 1)%Q).
    { rewrite <- Hinv. rewrite (Qmult_comm c b).
      apply Qmult_le_l; [exact P2|]. now apply Qlt_le_weak. }
    apply Qle_trans with (y := (a * 1)%Q).
    + rewrite <- Qmult_assoc. apply Qmult_le_l; [exact P1 | exact H3].
    + rewrite Qmult_1_r. exact H1.
Qed.

Lemma round_double_nonneg q : (0 <= q)%Q -> (0 <= round_double q)%Q.
Proof.
  intros H. unfold round_double. destruct (Qeq_bool q 0); [discriminate|].
  rewrite Qred_correct. set (e := Z.max _ _).
  apply Qmult_le_0_compat; [|apply Qlt_le_weak, Qpow2_pos].
  change 0%Q with (inject_Z 0). rewrite <- Zle_Qle.
  apply round_half_even_ge. apply Qle_shift_div_l; [apply Qpow2_pos|].
  change (inject_Z 0) with 0%Q. lra.
Qed.

Lemma round_double_nonpos q : (q <= 0)%Q -> (round_double q <= 0)%Q.
Proof.
  intros H. unfold round_double. destruct (Qeq_bool q 0); [discriminate|].
  rewrite Qred_correct. set (e := Z.max _ _).
  pose proof (Qpow2_pos e) as P.
  assert (Hr : round_half_even (q / Qpow2 e) <= 0).
  { apply round_half_even_le. apply Qle_shift_div_r; [exact P|].
    change (inject_Z 0) with 0%Q. lra. }
  rewrite Zle_Qle in Hr. change (inject_Z 0) with 0%Q in Hr.
  set (m := inject_Z _) in *. nra.
Qed.

(** Rounding to a double does not pass an integer of up to 53 bits. *)
Lemma round_double_le_Z q k :
  0 <= k < 2 ^ 53 -> (q <= inject_Z k)%Q -> (round_double q <= inject_Z k)%Q.
Proof.
  intros Hk Hq.
  destruct (Qlt_le_dec 0 q) as [Hpos|Hneg].
  2:{ apply Qle_trans with (y := 0%Q); [now apply round_double_nonpos|].
      change 0%Q with (inject_Z 0). rewrite <- Zle_Qle. lia. }
  unfold round_double. destruct (Qeq_bool q 0) eqn:E0.
  { change 0%Q with (inject_Z 0). rewrite <- Zle_Qle. lia. }
  assert (Hne : ~ (q == 0)%Q) by lra.
  pose proof (ilog2_le q Hne) as Hl. rewrite Qabs_pos in Hl by lra.
  assert (Hi : ilog2 q < 53).
  { apply (Qpower_lt_compat_l_inv 2); [|reflexivity].
    rewrite <- !Qpow2_power. eapply Qle_lt_trans; [exact Hl|].
    eapply Qle_lt_trans; [exact Hq|].
    rewrite Qpow2_nonneg by lia. rewrite <- Zlt_Qlt. lia. }
  set (e := Z.max (ilog2 q - 52) (-1074)).
  assert (He : e <= 0) by lia.
  rewrite Qred_correct.
  pose proof (Qpow2_pos e) as P. pose proof (Qpow2_opp e) as Hinv.
  rewrite (Qpow2_nonneg (- e)) in Hinv by lia.
  assert (Hr : round_half_even (q / Qpow2 e) <= k * 2 ^ (- e)).
  { apply round_half_even_le. apply Qle_shift_div_r; [exact P|].
    rewrite inject_Z_mult, <- Qmult_assoc, (Qmult_comm (inject_Z (2 ^ _))), Hinv.
    lra. }
  rewrite Zle_Qle, inject_Z_mult in Hr.
  apply Qle_trans with (y := (inject_Z k * inject_Z (2 ^ (- e)) * Qpow2 e)%Q).
  - apply Qmult_le_compat_r; [exact Hr | now apply Qlt_le_weak].
  - rewrite <- Qmult_assoc, (Qmult_comm (inject_Z (2 ^ _))), Hinv. lra.
Qed.

Lemma ilog2_opp q : ilog2 (- q) = ilog2 q.
Proof.
  destruct q as [n d]. unfold ilog2, Qabs, Qopp. cbn [Qnum Qden].
  now rewrite Z.abs_opp.
Qed.

Lemma round_double_opp q : round_double (- q) = (- round_double q)%Q.
Proof.
  unfold round_double. rewrite ilog2_opp.
  assert (E : Qeq_bool (- q) 0 = Qeq_bool q 0).
  { destruct q as [n d]. unfold Qeq_bool, Qopp. cbn [Qnum Qden].
    destruct n; reflexivity. }
  rewrite E. destruct (Qeq_bool q 0); [reflexivity|].
  set (e := Z.max _ _).
  rewrite (round_half_even_comp (- q / Qpow2 e) (- (q / Qpow2 e)))
    by (unfold Qdiv; ring).
  rewrite round_half_even_opp, <- Qred_opp.
  apply Qred_complete. rewrite inject_Z_opp. ring.
Qed.

Lemma length_filter_complement {A} (p : A -> bool) (l : list A) :
  length l = (length (List.filter p l) + length (List.filter (fun x => negb (p x)) l))%nat.
Proof.
  induction l as [|x l IH]; [done|]. cbn [List.filter].
  destruct (p x); cbn [negb length]; lia.
Qed.

(** The pending count of the overview is the number of tasks that are not
    completed. *)
Lemma stats_pending_counts w :
  Overview.pendingTasks (Stats.overview (stats_report w))
  = count [(K_completed, Is (VBool false))] (tasks w).
Proof.
  unfold stats_report, count. cbn [Stats.overview Overview.pendingTasks].
  assert (H1 : List.filter (matches []) (tasks w) = tasks w).
  { induction (tasks w) as [|d l IH]; [done|]. cbn. now rewrite IH. }
  rewrite H1.
  rewrite (length_filter_complement (matches [(K_completed, Is (VBool true))]) (tasks w)).
  assert (H2 : forall d, negb (matches [(K_completed, Is (VBool true))] d)
                         = matches [(K_completed, Is (VBool false))] d).
  { intros d. unfold matches; cbn. destruct (TaskDict.completed (data d)); reflexivity. }
  rewrite (List.filter_ext _ _ H2). lia.
Qed.

(** C1.  The report of Stats always exists; in its overview the total is
    the sum of the completed and the pending counts, and so it is in every
    bucket of the category and of the priority breakdown. *)
Theorem stats_totals_add_up (w : World) :
  exists r w',
    get_stats w = (Return r, w')
    /\ Overview.totalTasks (Stats.overview r)
       = Overview.completedTasks (Stats.overview r)
         + Overview.pendingTasks (Stats.overview r)
    /\ Forall (fun b => Bucket.total b.2 = Bucket.completed b.2 + Bucket.pending b.2)
         (Stats.categoryStats r)
    /\ Forall (fun b => Bucket.total b.2 = Bucket.completed b.2 + Bucket.pending b.2)
         (Stats.priorityStats r).
Proof.
  exists (stats_report w), (advance 15 21 w).
  split; [apply get_stats_run|]. unfold stats_report.
  cbn [Stats.overview Stats.categoryStats Stats.priorityStats
       Overview.totalTasks Overview.completedTasks Overview.pendingTasks].
  split; [lia|].
  split; apply Forall_map, Forall_forall; intros item _;
    unfold bucket_entry; cbn; lia.
Qed.

(** Adding a negated integer is subtracting it, also between doubles. *)
Lemma py_add_neg x n : py_add x (PyInt (- n * 2)) = py_sub x (PyInt (2 * n)).
Proof.
  destruct x as [a|q]; cbn [py_add py_sub to_float].
  - f_equal. lia.
  - replace (- n * 2) with (- (2 * n)) by lia.
    change (inject_Z (- (2 * n))) with (- inject_Z (2 * n))%Q.
    now rewrite round_double_opp.
Qed.

(** What [round(x, 1)] returns is [x] rounded to one decimal. *)
Lemma py_round1_rounded x : rounded_to_one_decimal x (py_round1 x).
Proof.
  destruct x as [z|q]; [reflexivity|]. cbn [rounded_to_one_decimal py_round1].
  exists (round_half_even (q * 10)). split; [reflexivity|].
  pose proof (round_half_even_near (q * 10)) as Hn.
  pose proof (round_half_even_tie (q * 10)) as Ht.
  set (n := round_half_even (q * 10)) in *.
  unfold Qdiv. change (/ 10)%Q with (1 # 10)%Q. split.
  - apply Qabs_le_iff in Hn. apply Qabs_le_iff. lra.
  - intros [H|H]%Qabs_eq_cases; apply Ht.
    + rewrite Qabs_pos; lra.
    + rewrite Qabs_neg; lra.
Qed.

(** The double that is [x] rounded to one decimal is unique. *)
Lemma rounded_to_one_decimal_unique x y y' :
  rounded_to_one_decimal x y -> rounded_to_one_decimal x y' -> y = y'.
Proof.
  destruct x as [z|q]; cbn [rounded_to_one_decimal]; [congruence|].
  intros (n & -> & Hn & Hev) (n' & -> & Hn' & Hev').
  assert (E : forall m,
             (Qabs (q - inject_Z m / 10) <= 1 # 20)%Q ->
             ((Qabs (q - inject_Z m / 10) == 1 # 20)%Q -> Z.even m = true) ->
             m = round_half_even (q * 10)).
  { unfold Qdiv. change (/ 10)%Q with (1 # 10)%Q.
    intros m H1 H2. apply round_half_even_unique.
    - apply Qabs_le_iff in H1. apply Qabs_le_iff. lra.
    - intros [H|H]%Qabs_eq_cases; apply H2.
      + rewrite Qabs_pos; lra.
      + rewrite Qabs_neg; lra. }
  now rewrite (E n Hn Hev), (E n' Hn' Hev').
Qed.

(** C5 (as amended).  The productivity score is the completion rate before
    its own rounding (the double [completed / total * 100], or the integer 0
    on an empty collection) plus 10 when no task is overdue, and that rate
    minus twice the overdue count otherwise, rounded to one decimal: it is
    the double nearest to the nearest tenth of that sum, whatever its size.
    The completion rate of the overview is the same rate rounded to one
    decimal. *)
Theorem productivity_score_formula (w : World) :
  exists r w',
    get_stats w = (Return r, w')
    /\ rounded_to_one_decimal
         (pct (Overview.completedTasks (Stats.overview r))
              (Overview.totalTasks (Stats.overview r)))
         (Overview.completionRate (Stats.overview r))
    /\ (Overview.overdueTask (Stats.overview r) = 0 ->
        rounded_to_one_decimal
          (py_add (pct (Overview.completedTasks (Stats.overview r))
                       (Overview.totalTasks (Stats.overview r)))
                  (PyInt 10))
          (Insights.productivityScore (Stats.insights r)))
    /\ (Overview.overdueTask (Stats.overview r) <> 0 ->
        rounded_to_one_decimal
          (py_sub (pct (Overview.completedTasks (Stats.overview r))
                       (Overview.totalTasks (Stats.overview r)))
                  (PyInt (2 * Overview.overdueTask (Stats.overview r))))
          (Insights.productivityScore (Stats.insights r))).
Proof.
  exists (stats_report w), (advance 15 21 w).
  split; [apply get_stats_run|]. unfold stats_report.
  cbn [Stats.overview Stats.insights Overview.totalTasks Overview.completedTasks
       Overview.overdueTask Overview.completionRate Insights.productivityScore].
  split; [apply py_round1_rounded|]. split.
  - intros ->. apply py_round1_rounded.
  - intros H. apply Z.eqb_neq in H. rewrite H, py_add_neg.
    apply py_round1_rounded.
Qed.

Lemma pct_zero a : pct a 0 = PyInt 0.
Proof. reflexivity. Qed.

Lemma daily_entries_rate coll clk l : forall n,
  Forall (fun e => DailyStat.created e = 0 -> DailyStat.completionRate e = PyInt 0)
         (daily_entries coll clk n l).
Proof.
  induction l as [|i l IH]; intros n; cbn [daily_entries]; constructor; [|apply IH].
  unfold daily_entry. cbn. intros ->. reflexivity.
Qed.

Lemma weekly_entries_rate coll clk l : forall n,
  Forall (fun e => WeeklyStat.created e = 0 -> WeeklyStat.completionRate e = PyInt 0)
         (weekly_entries coll clk n l).
Proof.
  induction l as [|i l IH]; intros n; cbn [weekly_entries]; constructor; [|apply IH].
  unfold weekly_entry. cbn. intros ->. reflexivity.
Qed.

(** C6.  Stats and the productivity analytics always return a report.  In
    these reports the overall rate, the rate of a bucket, of a day and of a
    week is the integer 0 whenever the count it divides by is 0; on an empty
    collection the overall completion rate is 0. *)
Theorem rates_are_zero_on_empty_denominators (w : World) :
  (exists r w',
     get_stats w = (Return r, w')
     /\ (Overview.totalTasks (Stats.overview r) = 0 ->
         Overview.completionRate (Stats.overview r) = PyInt 0)
     /\ Forall (fun b => Bucket.total b.2 = 0 -> Bucket.completionRate b.2 = PyInt 0)
          (Stats.categoryStats r)
     /\ Forall (fun b => Bucket.total b.2 = 0 -> Bucket.completionRate b.2 = PyInt 0)
          (Stats.priorityStats r)
     /\ Forall (fun e => DailyStat.created e = 0 ->
                         DailyStat.completionRate e = PyInt 0)
          (Stats.dailyTrends r)
     /\ (tasks w = [] -> Overview.completionRate (Stats.overview r) = PyInt 0))
  /\ (exists p w',
        get_productivity_analytics w = (Return p, w')
        /\ Forall (fun e => WeeklyStat.created e = 0 ->
                            WeeklyStat.completionRate e = PyInt 0)
             (Productivity.weeklyTrends p)).
Proof.
  split.
  - exists (stats_report w), (advance 15 21 w).
    split; [apply get_stats_run|]. unfold stats_report.
    cbn [Stats.overview Stats.categoryStats Stats.priorityStats Stats.dailyTrends
         Overview.totalTasks Overview.completionRate].
    split; [intros ->; reflexivity|].
    split; [apply Forall_map, Forall_forall; intros item _;
            unfold bucket_entry; cbn; intros ->; reflexivity|].
    split; [apply Forall_map, Forall_forall; intros item _;
            unfold bucket_entry; cbn; intros ->; reflexivity|].
    split; [apply Forall_reverse, daily_entries_rate|].
    intros ->. reflexivity.
  - exists (productivity_report w), (advance 9 8 w).
    split; [apply get_productivity_analytics_run|].
    unfold productivity_report. cbn [Productivity.weeklyTrends].
    apply Forall_reverse, weekly_entries_rate.
Qed.

(** ** The calendar *)

Lemma is_leap_split q a b c :
  0 <= a <= 3 -> 0 <= b <= 24 -> 0 <= c <= 3 ->
  is_leap (q * 400 + 1 + a * 100 + b * 4 + c)
  = (c =? 3) && (negb (b =? 24) || (a =? 3)).
Proof.
  intros Ha Hb Hc. unfold is_leap.
  set (y := q * 400 + 1 + a * 100 + b * 4 + c).
  assert (H4 : y mod 4 = (c + 1) mod 4).
  { unfold y. Z.div_mod_to_equations. lia. }
  assert (H100 : y mod 100 = (b * 4 + c + 1) mod 100).
  { unfold y. Z.div_mod_to_equations. lia. }
  assert (H400 : y mod 400 = (a * 100 + b * 4 + c + 1) mod 400).
  { unfold y. Z.div_mod_to_equations. lia. }
  rewrite H4, H100, H400.
  destruct (Z.eqb_spec c 3) as [->|Hc3].
  - change ((3 + 1) mod 4 =? 0) with true. cbn [andb].
    destruct (Z.eqb_spec b 24) as [->|Hb24].
    + change ((24 * 4 + 3 + 1) mod 100 =? 0) with true. cbn [negb orb].
      destruct (Z.eqb_spec a 3) as [->|Ha3]; [reflexivity|].
      apply Z.eqb_neq. Z.div_mod_to_equations. lia.
    + cbn [negb orb].
      assert (E : ((b * 4 + 3 + 1) mod 100 =? 0) = false).
      { apply Z.eqb_neq. Z.div_mod_to_equations. lia. }
      now rewrite E.
  - assert (E : ((c + 1) mod 4 =? 0) = false).
    { apply Z.eqb_neq. Z.div_mod_to_equations. lia. }
    now rewrite E.
Qed.

Lemma days_before_year_split q a b c :
  0 <= a <= 3 -> 0 <= b <= 24 -> 0 <= c <= 3 ->
  days_before_year (q * 400 + 1 + a * 100 + b * 4 + c)
  = 146097 * q + 36524 * a + 1461 * b + 365 * c.
Proof.
  intros Ha Hb Hc. unfold days_before_year.
  replace (q * 400 + 1 + a * 100 + b * 4 + c - 1)
    with (400 * q + 100 * a + 4 * b + c) by lia.
  Z.div_mod_to_equations. lia.
Qed.

(** The table of months, a month back. *)
Lemma days_before_previous_month m (leap : bool) :
  2 <= m <= 12 ->
  DAYS_BEFORE_MONTH m + (if (2 <? m) && leap then 1 else 0)
  - (DAYS_IN_MONTH (m - 1) + (if (m - 1 =? 2) && leap then 1 else 0))
  = DAYS_BEFORE_MONTH (m - 1) + (if (2 <? m - 1) && leap then 1 else 0).
Proof.
  intros Hm.
  assert (H : m = 2 \/ m = 3 \/ m = 4 \/ m = 5 \/ m = 6 \/ m = 7 \/ m = 8
              \/ m = 9 \/ m = 10 \/ m = 11 \/ m = 12) by lia.
  destruct leap;
    repeat (destruct H as [->|H]; [reflexivity|]); subst m; reflexivity.
Qed.

(** The day number of the date of a day number is that day number. *)
Lemma ymd2ord_ord2ymd n :
  (let '(y, m, d) := ord2ymd n in ymd2ord y m d) = n.
Proof.
  unfold ord2ymd.
  set (q := (n - 1) / 146097). set (r400 := (n - 1) mod 146097).
  set (n100 := r400 / 36524). set (r100 := r400 mod 36524).
  set (n4 := r100 / 1461). set (r4 := r100 mod 1461).
  set (n1 := r4 / 365). set (r1 := r4 mod 365).
  assert (H400 : n - 1 = 146097 * q + r400 /\ 0 <= r400 < 146097).
  { unfold q, r400. Z.div_mod_to_equations. lia. }
  assert (H100 : r400 = 36524 * n100 + r100 /\ 0 <= r100 < 36524 /\ 0 <= n100 <= 4).
  { unfold n100, r100. Z.div_mod_to_equations. lia. }
  assert (H4 : r100 = 1461 * n4 + r4 /\ 0 <= r4 < 1461 /\ 0 <= n4 <= 24).
  { unfold n4, r4. Z.div_mod_to_equations. lia. }
  assert (H1 : r4 = 365 * n1 + r1 /\ 0 <= r1 < 365 /\ 0 <= n1 <= 4).
  { unfold n1, r1. Z.div_mod_to_equations. lia. }
  clearbody q r400 n100 r100 n4 r4 n1 r1.
  destruct ((n1 =? 4) || (n100 =? 4)) eqn:E.
  - (* the last day of a leap year *)
    unfold ymd2ord, days_before_month.
    change (DAYS_BEFORE_MONTH 12) with 334. change (2 <? 12) with true. cbn [andb].
    apply orb_true_iff in E as [E|E]; apply Z.eqb_eq in E; subst.
    + assert (Hb : 0 <= n4 <= 23) by lia.
      replace (q * 400 + 1 + n100 * 100 + n4 * 4 + 4 - 1)
        with (q * 400 + 1 + n100 * 100 + n4 * 4 + 3) by lia.
      assert (Ha : 0 <= n100 <= 3) by lia.
      rewrite is_leap_split, days_before_year_split by lia.
      change (3 =? 3) with true. cbn [andb].
      replace (n4 =? 24) with false by (symmetry; apply Z.eqb_neq; lia).
      cbn [negb orb]. lia.
    + assert (n4 = 0 /\ n1 = 0) as [-> ->] by lia.
      replace (q * 400 + 1 + 4 * 100 + 0 * 4 + 0 - 1)
        with (q * 400 + 1 + 3 * 100 + 24 * 4 + 3) by lia.
      rewrite is_leap_split, days_before_year_split by lia.
      cbn. lia.
  - apply orb_false_iff in E as [E1 E2].
    apply Z.eqb_neq in E1, E2.
    assert (Ha : 0 <= n100 <= 3) by lia.
    assert (Hb : 0 <= n4 <= 24) by lia.
    assert (Hc : 0 <= n1 <= 3) by lia.
    set (leapyear := (n1 =? 3) && (negb (n4 =? 24) || (n100 =? 3))).
    set (y := q * 400 + 1 + n100 * 100 + n4 * 4 + n1).
    assert (Hleap : is_leap y = leapyear) by (now apply is_leap_split).
    assert (Hdby : days_before_year y + r1 + 1 = n).
    { unfold y. rewrite days_before_year_split by assumption. lia. }
    rewrite Z.shiftr_div_pow2 by lia. change (2 ^ 5) with 32.
    set (m := (r1 + 50) / 32).
    assert (Hm : 1 <= m <= 12).
    { unfold m. Z.div_mod_to_equations. lia. }
    clearbody m leapyear.
    destruct (r1 <? _) eqn:Hlt.
    + assert (Hm2 : 2 <= m <= 12).
      { destruct (Z.eq_dec m 1) as [->|]; [|lia].
        apply Z.ltb_lt in Hlt. cbn in Hlt. lia. }
      unfold ymd2ord, days_before_month. rewrite Hleap.
      rewrite days_before_previous_month by exact Hm2. lia.
    + unfold ymd2ord, days_before_month. rewrite Hleap. lia.
Qed.

Lemma toordinal_days_ago today i :
  toordinal (days_ago today i) = toordinal today - i.
Proof.
  unfold days_ago.
  pose proof (ymd2ord_ord2ymd (toordinal today - i)) as H.
  destruct (ord2ymd (toordinal today - i)) as [[y m] d]. exact H.
Qed.

Lemma same_date_toordinal a b : same_date a b -> toordinal a = toordinal b.
Proof. intros (Hy & Hm & Hd). unfold toordinal. now rewrite Hy, Hm, Hd. Qed.

(** The days before a day are pairwise distinct calendar days. *)
Lemma days_ago_inj today i j :
  same_date (days_ago today i) (days_ago today j) -> i = j.
Proof.
  intros H%same_date_toordinal. rewrite !toordinal_days_ago in H. lia.
Qed.

(** ** Timestamps as strings *)

Lemma ascii_compare_refl c : Ascii.compare c c = Eq.
Proof. unfold Ascii.compare. apply N.compare_refl. Qed.

(** Strings that start with fields of the same length compare field by
    field. *)
Lemma string_compare_app p p' a b :
  String.length p = String.length p' ->
  String.compare (p +:+ a) (p' +:+ b)
  = match String.compare p p' with
    | Eq => String.compare a b
    | c => c
    end.
Proof.
  revert p'. induction p as [|x p IH]; intros [|x' p'] Hl; try discriminate Hl.
  - reflexivity.
  - simpl. injection Hl as Hl.
    destruct (Ascii.compare x x'); [apply IH; exact Hl | reflexivity | reflexivity].
Qed.

Lemma string_compare_refl s : String.compare s s = Eq.
Proof.
  induction s as [|c s IH]; [reflexivity|].
  cbn [String.compare]. now rewrite ascii_compare_refl.
Qed.

Lemma digit_compare a b :
  0 <= a <= 9 -> 0 <= b <= 9 -> Ascii.compare (digit a) (digit b) = (a ?= b).
Proof.
  intros Ha Hb.
  assert (Ea : a = 0 \/ a = 1 \/ a = 2 \/ a = 3 \/ a = 4 \/ a = 5 \/ a = 6
               \/ a = 7 \/ a = 8 \/ a = 9) by lia.
  assert (Eb : b = 0 \/ b = 1 \/ b = 2 \/ b = 3 \/ b = 4 \/ b = 5 \/ b = 6
               \/ b = 7 \/ b = 8 \/ b = 9) by lia.
  clear Ha Hb.
  repeat (destruct Ea as [->|Ea]);
    repeat (destruct Eb as [->|Eb]); subst; reflexivity.
Qed.

(** Comparing two numbers by a leading and a trailing part. *)
Lemma compare_div_mod k x y :
  0 < k ->
  match x / k ?= y / k with
  | Eq => x mod k ?= y mod k
  | c => c
  end = (x ?= y).
Proof.
  intros Hk.
  pose proof (Z.div_mod x k) as Hx. pose proof (Z.div_mod y k) as Hy.
  pose proof (Z.mod_pos_bound x k Hk) as Bx.
  pose proof (Z.mod_pos_bound y k Hk) as By.
  destruct (Z.compare_spec (x / k) (y / k)) as [E|E|E].
  - destruct (Z.compare_spec (x mod k) (y mod k)) as [F|F|F]; symmetry.
    + apply Z.compare_eq_iff. rewrite Hx, Hy, E, F by lia. reflexivity.
    + apply Z.compare_lt_iff. rewrite Hx, Hy, E by lia. lia.
    + apply Z.compare_gt_iff. rewrite Hx, Hy, E by lia. lia.
  - symmetry. apply Z.compare_lt_iff. nia.
  - symmetry. apply Z.compare_gt_iff. nia.
Qed.

Lemma pad2_compare x y :
  0 <= x <= 99 -> 0 <= y <= 99 -> String.compare (pad2 x) (pad2 y) = (x ?= y).
Proof.
  intros Hx Hy. unfold pad2. cbn [String.compare].
  rewrite !digit_compare by (Z.div_mod_to_equations; lia).
  rewrite <- (compare_div_mod 10 x y) by lia.
  destruct (x / 10 ?= y / 10); [|reflexivity|reflexivity].
  now destruct (x mod 10 ?= y mod 10).
Qed.

Lemma pad2_length x : String.length (pad2 x) = 2%nat.
Proof. reflexivity. Qed.

Lemma pad4_length x : String.length (pad4 x) = 4%nat.
Proof. reflexivity. Qed.

Lemma pad4_compare x y :
  0 <= x <= 9999 -> 0 <= y <= 9999 -> String.compare (pad4 x) (pad4 y) = (x ?= y).
Proof.
  intros Hx Hy. unfold pad4.
  rewrite string_compare_app by reflexivity.
  rewrite !pad2_compare by (Z.div_mod_to_equations; lia).
  apply compare_div_mod. lia.
Qed.

Lemma pad6_compare x y :
  0 <= x <= 999999 -> 0 <= y <= 999999 ->
  String.compare (pad6 x) (pad6 y) = (x ?= y).
Proof.
  intros Hx Hy. unfold pad6.
  rewrite string_compare_app by reflexivity.
  rewrite pad2_compare, pad4_compare by (Z.div_mod_to_equations; lia).
  apply compare_div_mod. lia.
Qed.

Lemma date_compare_Eq a b : date_compare a b = Eq <-> same_date a b.
Proof.
  unfold date_compare, same_date. split.
  - destruct (Z.compare_spec (year a) (year b)); try discriminate.
    destruct (Z.compare_spec (month a) (month b)); try discriminate.
    intros ->%Z.compare_eq_iff. done.
  - intros (-> & -> & ->). now rewrite !Z.compare_refl.
Qed.

Lemma date_compare_antisym a b : date_compare b a = CompOpp (date_compare a b).
Proof.
  unfold date_compare.
  rewrite (Z.compare_antisym (year a) (year b)).
  rewrite (Z.compare_antisym (month a) (month b)).
  rewrite (Z.compare_antisym (day a) (day b)).
  destruct (year a ?= year b); cbn; try reflexivity.
  destruct (month a ?= month b); cbn; reflexivity.
Qed.

Lemma strftime_Ymd_length t : String.length (strftime_Ymd t) = 10%nat.
Proof. reflexivity. Qed.

Lemma strftime_Ymd_compare a b :
  valid_date a -> valid_date b ->
  String.compare (strftime_Ymd a) (strftime_Ymd b) = date_compare a b.
Proof.
  intros (Hy & Hm & Hd) (Hy' & Hm' & Hd'). unfold strftime_Ymd, date_compare.
  rewrite string_compare_app by reflexivity.
  rewrite pad4_compare by assumption.
  rewrite (string_compare_app "-" "-") by reflexivity.
  rewrite string_compare_refl.
  rewrite string_compare_app by reflexivity.
  rewrite pad2_compare by assumption.
  rewrite (string_compare_app "-" "-") by reflexivity.
  rewrite string_compare_refl.
  rewrite pad2_compare by assumption.
  reflexivity.
Qed.

Lemma isoformat_split t : isoformat t = strftime_Ymd t +:+ time_part t.
Proof. reflexivity. Qed.

Lemma compare_step_not_Gt (c1 c2 : comparison) :
  c1 <> Gt -> c2 <> Gt -> match c1 with Eq => c2 | Lt => Lt | Gt => Gt end <> Gt.
Proof. destruct c1, c2; congruence. Qed.

Lemma Z_compare_le_not_Gt x y : x <= y -> (x ?= y) <> Gt.
Proof. intros H. now apply Z.compare_le_iff. Qed.

Lemma string_compare_empty s : String.compare "" s <> Gt.
Proof. destruct s; discriminate. Qed.

Lemma same_prefix_not_Gt p a b :
  String.compare a b <> Gt -> String.compare (p +:+ a) (p +:+ b) <> Gt.
Proof.
  intros H. rewrite string_compare_app by reflexivity.
  now rewrite string_compare_refl.
Qed.

Lemma pad2_field_not_Gt x y a b :
  0 <= x <= 99 -> 0 <= y <= 99 -> x <= y ->
  String.compare a b <> Gt ->
  String.compare (pad2 x +:+ a) (pad2 y +:+ b) <> Gt.
Proof.
  intros Hx Hy Hxy H. rewrite string_compare_app by reflexivity.
  rewrite pad2_compare by assumption.
  apply (compare_step_not_Gt (x ?= y)); [|exact H].
  now apply Z_compare_le_not_Gt.
Qed.

(** Within a day, every time of day lies between the first and the last
    instant. *)
Lemma time_part_bounds t d :
  valid_time t ->
  String.compare (time_part (replace_time d 0 0 0 0)) (time_part t) <> Gt
  /\ String.compare (time_part t) (time_part (replace_time d 23 59 59 999999)) <> Gt.
Proof.
  intros (Hh & Hm & Hs & Hu). unfold time_part, replace_time.
  cbn [hour minute second microsecond].
  change (0 =? 0) with true. change (999999 =? 0) with false. cbv iota.
  split.
  - apply same_prefix_not_Gt.
    apply pad2_field_not_Gt; [lia..|]. apply same_prefix_not_Gt.
    apply pad2_field_not_Gt; [lia..|]. apply same_prefix_not_Gt.
    apply pad2_field_not_Gt; [lia..|]. apply string_compare_empty.
  - apply same_prefix_not_Gt.
    apply pad2_field_not_Gt; [lia..|]. apply same_prefix_not_Gt.
    apply pad2_field_not_Gt; [lia..|]. apply same_prefix_not_Gt.
    apply pad2_field_not_Gt; [lia..|].
    destruct (microsecond t =? 0).
    + discriminate.
    + apply same_prefix_not_Gt.
      rewrite pad6_compare by lia. apply Z_compare_le_not_Gt. lia.
Qed.

Lemma leb_not_Gt a b : String.leb a b = true <-> String.compare a b <> Gt.
Proof. unfold String.leb. destruct (String.compare a b); split; congruence. Qed.

(** A timestamp printed by [isoformat] lies in the window of a day exactly
    when it is a timestamp of that day. *)
Lemma in_day_isoformat d t :
  valid_date d -> valid_date t -> valid_time t ->
  in_day d (isoformat t) = true <-> same_date t d.
Proof.
  intros Hd Ht Hv. unfold in_day.
  rewrite andb_true_iff, !leb_not_Gt, !isoformat_split.
  change (strftime_Ymd (replace_time d 0 0 0 0)) with (strftime_Ymd d).
  change (strftime_Ymd (replace_time d 23 59 59 999999)) with (strftime_Ymd d).
  rewrite !string_compare_app by reflexivity.
  rewrite !strftime_Ymd_compare by assumption.
  rewrite (date_compare_antisym t d).
  destruct (time_part_bounds t d Hv) as [H1 H2].
  rewrite <- date_compare_Eq.
  destruct (date_compare t d) eqn:E; cbn [CompOpp]; split; try done.
  - intros [H _]. now contradict H.
  - intros [_ H]. now contradict H.
Qed.

(** ** The daily trend *)

(** Going back whole days touches the date only. *)
Lemma datetime_sub_days t i :
  valid_time t ->
  datetime_sub t (timedelta_of 0 i 0 0 0) =
  (let '(y, m, d) := ord2ymd (toordinal t - i) in
   mk_datetime y m d (hour t) (minute t) (second t) (microsecond t)).
Proof.
  intros (Hh & Hm & Hs & Hu).
  unfold datetime_sub, datetime_add, timedelta_of.
  cbn [td_days td_seconds td_microseconds].
  change (0 * 3600 + 0 * 60 + 0) with 0.
  change (0 mod 86400) with 0. change (0 / 86400) with 0. change (- 0) with 0.
  rewrite !Z.add_0_r.
  rewrite (Z.div_small (microsecond t)), (Z.mod_small (microsecond t)) by lia.
  rewrite !Z.add_0_r.
  set (s := hour t * 3600 + minute t * 60 + second t).
  assert (Hs0 : 0 <= s < 86400) by (unfold s; lia).
  rewrite (Z.div_small s), (Z.mod_small s) by lia.
  rewrite Z.add_0_r.
  replace (toordinal t + - (0 * 7 + i)) with (toordinal t - i) by lia.
  destruct (ord2ymd (toordinal t - i)) as [[y m] d].
  assert (H1 : s / 3600 = hour t).
  { symmetry. apply (Z.div_unique s 3600 (hour t) (minute t * 60 + second t)); [lia|].
    unfold s. lia. }
  assert (H2 : s mod 3600 = minute t * 60 + second t).
  { symmetry. apply (Z.mod_unique s 3600 (hour t)); [lia|]. unfold s. lia. }
  assert (H3 : (minute t * 60 + second t) / 60 = minute t).
  { symmetry. apply (Z.div_unique _ 60 (minute t) (second t)); lia. }
  assert (H4 : s mod 60 = second t).
  { symmetry. apply (Z.mod_unique s 60 (hour t * 60 + minute t)); [lia|].
    unfold s. lia. }
  now rewrite H1, H2, H3, H4.
Qed.

(** An entry of the trend depends on the calendar day only. *)
Lemma daily_entry_same_date coll a b :
  same_date a b -> daily_entry coll a = daily_entry coll b.
Proof.
  destruct a, b. unfold same_date. cbn. intros (-> & -> & ->). reflexivity.
Qed.

Lemma daily_entry_days_ago coll today t i :
  valid_time t -> same_date t today ->
  daily_entry coll (datetime_sub t (timedelta_of 0 i 0 0 0))
  = daily_entry coll (days_ago today i).
Proof.
  intros Hv (Hy & Hm & Hd). rewrite datetime_sub_days by exact Hv.
  unfold days_ago, toordinal. rewrite Hy, Hm, Hd.
  destruct (ord2ymd _) as [[y m] d].
  apply daily_entry_same_date. repeat split.
Qed.

Lemma daily_entries_same_day coll clk today l : forall n,
  (forall k, (n <= k < n + length l)%nat ->
             valid_time (clk k) /\ same_date (clk k) today) ->
  daily_entries coll clk n l
  = map (fun i => daily_entry coll (days_ago today i)) l.
Proof.
  induction l as [|i l IH]; intros n H; cbn [daily_entries map]; [done|].
  destruct (H n) as [Hv Hs]; [cbn [length]; lia|].
  rewrite (daily_entry_days_ago _ today) by assumption.
  f_equal. apply IH. intros k Hk. apply H. cbn [length]. lia.
Qed.

(** Membership in the window of a day, as the query states it. *)
Lemma matches_created_on date d :
  matches [created_on date] d = in_day date (TaskDict.createdAt (data d)).
Proof.
  unfold matches, created_on, between, in_day; cbn.
  now rewrite !andb_true_r.
Qed.

Lemma matches_created_on_completed date d :
  matches [created_on date; (K_completed, Is (VBool true))] d
  = in_day date (TaskDict.createdAt (data d)) && TaskDict.completed (data d).
Proof.
  unfold matches, created_on, between, in_day; cbn.
  rewrite !andb_true_r. destruct (TaskDict.completed (data d)); reflexivity.
Qed.

(** X25.  When the seven readings of the clock taken by the loop over the
    days are readings of one calendar day, the daily trend has seven entries,
    for the days six days before that day up to that day, in this order;
    these are seven consecutive calendar days.  The entry of a day holds its
    date, the number of documents whose [createdAt] lies, as a string, within
    the window of that day, the number of those that are completed, and the
    rate of the two. *)
Theorem daily_trend_covers_the_last_seven_days (w : World) (today : datetime) :
  (forall k, (7 <= k < 14)%nat ->
             valid_time (clock w (clock_reads w + k))
             /\ same_date (clock w (clock_reads w + k)) today) ->
  exists r w',
    get_stats w = (Return r, w')
    /\ Stats.dailyTrends r
       = map (fun i => daily_entry (tasks w) (days_ago today i)) [6; 5; 4; 3; 2; 1; 0]
    /\ Forall (fun e => exists i, 0 <= i <= 6
         /\ DailyStat.date e = strftime_Ymd (days_ago today i)
         /\ DailyStat.created e
            = Z.of_nat (length (List.filter
                 (fun d => in_day (days_ago today i) (TaskDict.createdAt (data d)))
                 (tasks w)))
         /\ DailyStat.completed e
            = Z.of_nat (length (List.filter
                 (fun d => in_day (days_ago today i) (TaskDict.createdAt (data d))
                           && TaskDict.completed (data d))
                 (tasks w)))
         /\ DailyStat.completionRate e
            = pct (DailyStat.completed e) (DailyStat.created e))
       (Stats.dailyTrends r)
    /\ (forall i, toordinal (days_ago today i) = toordinal today - i).
Proof.
  intros H.
  exists (stats_report w), (advance 15 21 w).
  split; [apply get_stats_run|].
  assert (E : Stats.dailyTrends (stats_report w)
              = map (fun i => daily_entry (tasks w) (days_ago today i))
                    [6; 5; 4; 3; 2; 1; 0]).
  { unfold stats_report. cbn [Stats.dailyTrends].
    rewrite (daily_entries_same_day _ _ today).
    - reflexivity.
    - intros k Hk. cbn in Hk.
      replace k with (clock_reads w + (k - clock_reads w))%nat by lia.
      apply H. lia. }
  split; [exact E|]. split; [|intros i; apply toordinal_days_ago]. rewrite E.
  apply Forall_map, Forall_forall. intros i Hi.
  exists i. split.
  { repeat (apply elem_of_cons in Hi as [->|Hi]; [lia|]). now apply elem_of_nil in Hi. }
  unfold daily_entry, count.
  cbn [DailyStat.date DailyStat.created DailyStat.completed DailyStat.completionRate].
  rewrite (List.filter_ext _ _ (matches_created_on (days_ago today i))).
  rewrite (List.filter_ext _ _ (matches_created_on_completed (days_ago today i))).
  repeat split.
Qed.

(** ** The invariant of the store *)

Section Preservation.

Context (I : World -> Prop).

Lemma preserves_mret {A} (a : A) : preserves I (mret a).
Proof. intros w o w' H [= _ <-]. exact H. Qed.

Lemma preserves_raise {A} e : preserves I (raise (A:=A) e).
Proof. intros w o w' H [= _ <-]. exact H. Qed.

Lemma preserves_lift {A} (x : Outcome A) : preserves I (lift x).
Proof. intros w o w' H [= _ <-]. exact H. Qed.

Lemma preserves_bind {A B} (m : M A) (f : A -> M B) :
  preserves I m -> (forall a, preserves I (f a)) -> preserves I (m ≫= f).
Proof.
  intros Hm Hf w o w' H. unfold mbind, M_bind.
  destruct (m w) as [[a|e] w1] eqn:E.
  - apply (Hf a). eapply Hm; eauto.
  - intros [= _ <-]. eapply Hm; eauto.
Qed.

Lemma preserves_mapM_Forall {A B} (f : A -> M B) l :
  Forall (fun a => preserves I (f a)) l -> preserves I (mapM f l).
Proof.
  induction 1 as [|x l Hx Hl IH]; cbn [mapM].
  - apply preserves_mret.
  - apply preserves_bind; [apply Hx|]. intros y.
    apply preserves_bind; [apply IH|]. intros ys. apply preserves_mret.
Qed.

Lemma preserves_mapM {A B} (f : A -> M B) l :
  (forall a, preserves I (f a)) -> preserves I (mapM f l).
Proof. intros Hf. apply preserves_mapM_Forall, Forall_forall. auto. Qed.

Lemma preserves_except_Exception {A} p (m : M A) :
  preserves I m -> preserves I (except_Exception p m).
Proof.
  intros Hm w o w' H. unfold except_Exception.
  destruct (m w) as [[a|e] w1] eqn:E; intros [= _ <-]; eapply Hm; eauto.
Qed.

Lemma preserves_except_reraise {A} p (m : M A) :
  preserves I m -> preserves I (except_HTTPException_reraise p m).
Proof.
  intros Hm w o w' H. unfold except_HTTPException_reraise.
  destruct (m w) as [[a|[]] w1] eqn:E; intros [= _ <-]; eapply Hm; eauto.
Qed.

Lemma preserves_bind_mret {A B} (a : A) (f : A -> M B) :
  preserves I (f a) -> preserves I (mret a ≫= f).
Proof. intros H w o w' Hi. rewrite bind_mret. now apply H. Qed.

End Preservation.

(** What does not touch the collection keeps every invariant of it. *)
Lemma preserves_datetime_now : preserves store_ok datetime_now.
Proof. intros w o w' H [= _ <-]. exact H. Qed.

Lemma preserves_find_one q : preserves store_ok (find_one q).
Proof. intros w o w' H. rewrite find_one_run. intros [= _ <-]. exact H. Qed.

Lemma preserves_count_documents q : preserves store_ok (count_documents q).
Proof. intros w o w' H. rewrite count_documents_run. intros [= _ <-]. exact H. Qed.

Lemma preserves_aggregate_group f : preserves store_ok (aggregate_group f).
Proof. intros w o w' H. rewrite aggregate_group_run. intros [= _ <-]. exact H. Qed.

Lemma preserves_percentage a b : preserves store_ok (percentage a b).
Proof. intros w o w' H. rewrite percentage_run. intros [= _ <-]. exact H. Qed.

Lemma preserves_find_sort_limit q n : preserves store_ok (find_sort_limit q n).
Proof.
  intros w o w' H. unfold find_sort_limit.
  destruct (n <? 0); [intros [= _ <-]; exact H|].
  run_monad. intros [= _ <-]. exact H.
Qed.

Lemma preserves_insert_one oid x :
  Task.valid (task_helper (mk_Document (default (exist _ "000000000000000000000000" I) oid) x)) = true ->
  preserves store_ok (insert_one oid x).
Proof.
  intros Hx w o w' [Hu Hv]. unfold insert_one.
  assert (Hins : forall i, i ∉ map _id (tasks w) ->
            NoDup (map _id (tasks w ++ [mk_Document i x]))
            /\ Forall (fun d => Is_true (Task.valid (task_helper d)))
                 (tasks w ++ [mk_Document i x])).
  { intros i Hi. split.
    - rewrite map_app. apply NoDup_app. split; [exact Hu|].
      split; [|apply NoDup_singleton].
      intros y Hy [->|Hn]%elem_of_cons; [done | now apply elem_of_nil in Hn].
    - apply Forall_app. split; [exact Hv|].
      constructor; [|constructor]. apply Is_true_true. exact Hx. }
  destruct oid as [i|]; run_monad; case_bool_decide as E; intros [= _ <-];
    first [ exact (conj Hu Hv) | exact (Hins _ E) ].
Qed.

Lemma delete_first_Forall {P : Document -> Prop} q coll :
  Forall P coll -> Forall P (fst (delete_first q coll)).
Proof.
  induction 1 as [|d coll Hd Hc IH]; cbn [delete_first]; [constructor|].
  destruct (matches q d); [exact Hc|].
  destruct (delete_first q coll); cbn in *. now constructor.
Qed.

Lemma delete_first_NoDup q coll :
  NoDup (map _id coll) -> NoDup (map _id (fst (delete_first q coll))).
Proof.
  induction coll as [|d coll IH]; cbn [delete_first map]; [done|].
  intros [Hd Hnd]%NoDup_cons.
  destruct (matches q d); [assumption|].
  pose proof (delete_first_subset q coll) as Hsub.
  destruct (delete_first q coll) as [r n]; cbn in *.
  apply NoDup_cons. split; [|auto]. intros Hin. apply Hd. auto.
Qed.

Lemma preserves_delete_one q : preserves store_ok (delete_one q).
Proof.
  intros w o w' [Hu Hv]. rewrite delete_one_run. intros [= _ <-].
  split.
  - apply delete_first_NoDup. exact Hu.
  - apply (delete_first_Forall q _ Hv).
Qed.

Lemma filter_NoDup_ids (p : Document -> bool) coll :
  NoDup (map _id coll) -> NoDup (map _id (List.filter p coll)).
Proof.
  induction coll as [|d coll IH]; cbn [List.filter map]; [done|].
  intros [Hd Hnd]%NoDup_cons.
  destruct (p d); [|auto].
  cbn [map]. apply NoDup_cons. split; [|auto].
  intros Hin%list_elem_of_fmap. destruct Hin as (y & Hy & Hin).
  apply list_elem_of_In, filter_In in Hin as [Hin _].
  apply Hd. rewrite Hy. apply list_elem_of_fmap. exists y.
  split; [done | now apply list_elem_of_In].
Qed.

Lemma preserves_delete_many q : preserves store_ok (delete_many q).
Proof.
  intros w o w' [Hu Hv]. unfold delete_many. run_monad. intros [= _ <-].
  split.
  - apply filter_NoDup_ids. exact Hu.
  - unfold stored_valid in *. cbn [tasks].
    apply Forall_forall. intros d Hd.
    apply list_elem_of_In, filter_In in Hd as [Hd _].
    rewrite Forall_forall in Hv. apply Hv. now apply list_elem_of_In.
Qed.

Lemma apply_sets_valid l x :
  forallb set_entry_valid l = true ->
  priority_pattern (TaskDict.priority x) && category_pattern (TaskDict.category x) = true ->
  priority_pattern (TaskDict.priority (apply_sets l x))
  && category_pattern (TaskDict.category (apply_sets l x)) = true.
Proof.
  unfold apply_sets. revert x. induction l as [|e l IH]; intros x Hl Hx; [exact Hx|].
  cbn [forallb] in Hl. apply andb_true_iff in Hl as [He Hl].
  cbn [foldl]. apply IH; [exact Hl|].
  apply andb_true_iff in Hx as [Hp Hc].
  destruct x, e; cbn in *; rewrite ?Hp, ?Hc, ?He; reflexivity.
Qed.

Lemma update_first_ids q l coll :
  map _id (fst (update_first q l coll)) = map _id coll.
Proof.
  induction coll as [|d coll IH]; cbn [update_first]; [done|].
  destruct (matches q d); [reflexivity|].
  destruct (update_first q l coll); cbn in *. now rewrite IH.
Qed.

Lemma preserves_update_one q l :
  forallb set_entry_valid l = true -> preserves store_ok (update_one q l).
Proof.
  intros Hl w o w' [Hu Hv]. rewrite update_one_run. intros [= _ <-].
  split.
  - unfold unique_ids in *. cbn [tasks]. now rewrite update_first_ids.
  - unfold stored_valid in *. cbn [tasks].
    induction Hv as [|d coll Hd Hc IH]; cbn [update_first]; [constructor|].
    destruct (matches q d).
    + constructor; [|exact Hc]. apply Is_true_true.
      apply Is_true_true in Hd. unfold Task.valid in *. cbn in *.
      now apply apply_sets_valid.
    + destruct (update_first q l coll); cbn in *. now constructor.
Qed.

Create HintDb preserves.

#[local] Hint Resolve preserves_mret preserves_raise preserves_lift
  preserves_datetime_now preserves_find_one preserves_count_documents
  preserves_aggregate_group preserves_percentage preserves_find_sort_limit
  preserves_delete_one preserves_delete_many : preserves.

(** Decompose a computation along its binds and branches. *)
Ltac preserves_tac :=
  repeat match goal with
    | |- forall _, _ => intro
    | |- preserves _ (except_Exception _ _) => apply preserves_except_Exception
    | |- preserves _ (except_HTTPException_reraise _ _) =>
        apply preserves_except_reraise
    | |- preserves _ (_ ≫= _) => apply preserves_bind
    | |- preserves _ (mapM _ _) => apply preserves_mapM
    | |- preserves _ (if ?b then _ else _) => destruct b eqn:?
    | |- preserves _ (match ?x with _ => _ end) => destruct x eqn:?
    | |- preserves _ _ => solve [auto with preserves]
    end.

Lemma update_data_valid tu :
  TaskUpdate.valid tu = true -> forallb set_entry_valid (update_data_of tu) = true.
Proof.
  destruct tu as [[?|] [?|] [p|] [c|] [?|] [?|]]; unfold TaskUpdate.valid; cbn;
    rewrite ?andb_true_r; intros H; try reflexivity;
    try (apply andb_true_iff in H as [H1 H2]; now rewrite ?H1, ?H2); assumption.
Qed.

(** Every handler keeps the invariant of the store, on validated input. *)
Theorem handlers_preserve_store_ok :
  (forall task_data, TaskCreate.valid task_data = true ->
                     preserves store_ok (create_task task_data))
  /\ (forall c p done limit, preserves store_ok (get_tasks c p done limit))
  /\ (forall task_id, preserves store_ok (get_task task_id))
  /\ (forall task_id tu, TaskUpdate.valid tu = true ->
                         preserves store_ok (update_task task_id tu))
  /\ (forall task_id, preserves store_ok (delete_task task_id))
  /\ (forall req, SyncRequest.valid req = true ->
                  preserves store_ok (sync_tasks req))
  /\ preserves store_ok get_stats
  /\ preserves store_ok get_productivity_analytics.
Proof.
  split; [|split; [|split; [|split; [|split; [|split; [|split]]]]]].
  - intros td Hv. unfold create_task. preserves_tac.
    + apply preserves_insert_one. exact Hv.
    + unfold Task_of_found. preserves_tac.
  - intros. unfold get_tasks. preserves_tac.
  - intros. unfold get_task. preserves_tac.
  - intros task_id tu Hv. unfold update_task. preserves_tac.
    + apply preserves_update_one.
      match goal with E : update_data_of tu = _ |- _ => rewrite <- E end.
      rewrite forallb_app, update_data_valid by exact Hv. reflexivity.
    + unfold Task_of_found. preserves_tac.
  - intros. unfold delete_task. preserves_tac.
  - intros req Hv. unfold sync_tasks.
    apply preserves_except_Exception.
    apply preserves_bind; [auto with preserves|]. intros now.
    apply preserves_bind; [auto with preserves|]. intros _.
    apply preserves_bind; [|preserves_tac].
    apply preserves_mapM_Forall. unfold SyncRequest.valid in Hv.
    apply Is_true_true, forallb_True in Hv. eapply Forall_impl; [exact Hv|].
    intros task Ht%Is_true_true. unfold sync_one.
    assert (Hins : forall oid, preserves store_ok
              (insert_one oid (sync_task_dict (isoformat now) task))).
    { intros oid. apply preserves_insert_one. exact Ht. }
    assert (Hpop : forall oid, preserves store_ok
              (insert_one oid (pop_id (sync_task_dict (isoformat now) task)))).
    { intros oid. apply preserves_insert_one. destruct task; exact Ht. }
    destruct (str_truthy (Task.id task)); [destruct (is_valid _)|].
    + destruct (ObjectId_new _) as [o|e].
      * apply (preserves_bind_mret store_ok (Some o, _)).
        apply preserves_bind; [apply Hins|]. unfold Task_of_found. preserves_tac.
      * intros w o w' Hw [= _ <-]. exact Hw.
    + apply preserves_bind_mret.
      apply preserves_bind; [apply Hpop|]. unfold Task_of_found. preserves_tac.
    + apply preserves_bind_mret.
      apply preserves_bind; [apply Hins|]. unfold Task_of_found. preserves_tac.
  - intros w o w' H. rewrite get_stats_run. intros [= _ <-]. exact H.
  - intros w o w' H. rewrite get_productivity_analytics_run.
    intros [= _ <-]. exact H.
Qed.

(** ** List: order and limit *)

Lemma ascii_compare_N a b :
  Ascii.compare a b = (N_of_ascii a ?= N_of_ascii b)%N.
Proof. reflexivity. Qed.

Lemma string_compare_le_trans a : forall b c,
  String.compare a b <> Gt -> String.compare b c <> Gt -> String.compare a c <> Gt.
Proof.
  induction a as [|x a IH]; intros [|y b] [|z c]; simpl; try congruence.
  rewrite !ascii_compare_N.
  destruct (N.compare_spec (N_of_ascii x) (N_of_ascii y)) as [E1|E1|E1];
    destruct (N.compare_spec (N_of_ascii y) (N_of_ascii z)) as [E2|E2|E2];
    destruct (N.compare_spec (N_of_ascii x) (N_of_ascii z)) as [E3|E3|E3];
    intros H1 H2; try congruence; try (exfalso; lia); eauto.
Qed.

Lemma createdAt_desc_total : Total createdAt_desc.
Proof.
  intros a b. unfold createdAt_desc.
  destruct (String.leb_total (TaskDict.createdAt (data b)) (TaskDict.createdAt (data a)))
    as [H|H]; rewrite H; [left|right]; exact I.
Qed.

Lemma createdAt_desc_trans : Transitive createdAt_desc.
Proof.
  intros a b c. unfold createdAt_desc. rewrite !Is_true_true, !leb_not_Gt.
  intros H1 H2. eapply string_compare_le_trans; eauto.
Qed.

Lemma StronglySorted_take {A} (R : relation A) n l :
  StronglySorted R l -> StronglySorted R (take n l).
Proof.
  intros H. revert n. induction H as [|x l H IH Hx]; intros [|n]; simpl;
    try constructor; auto.
  apply Forall_forall. intros y Hy. rewrite Forall_forall in Hx. apply Hx.
  eapply elem_of_take in Hy as (i & Hy & _). eapply list_elem_of_lookup_2; eauto.
Qed.

(** The documents that [find(q).limit(n).sort(..).to_list(n)] returns are
    the first [n] of an arrangement of the matching ones by [createdAt],
    the largest first. *)
Lemma sorted_matching q coll :
  StronglySorted createdAt_desc (merge_sort createdAt_desc (List.filter (matches q) coll))
  /\ merge_sort createdAt_desc (List.filter (matches q) coll) ≡ₚ List.filter (matches q) coll.
Proof.
  split.
  - apply StronglySorted_merge_sort;
      [apply createdAt_desc_trans | apply createdAt_desc_total].
  - apply merge_sort_Permutation.
Qed.

Lemma stored_valid_matching q w :
  stored_valid w ->
  Forall (fun d => Is_true (Task.valid (task_helper d)))
         (merge_sort createdAt_desc (List.filter (matches q) (tasks w))).
Proof.
  intros Hv. apply Forall_forall. intros d Hd.
  rewrite merge_sort_Permutation in Hd.
  apply list_elem_of_In, filter_In in Hd as [Hd _].
  unfold stored_valid in Hv. rewrite Forall_forall in Hv.
  apply Hv. now apply list_elem_of_In.
Qed.

Lemma get_tasks_run category priority completed limit w :
  0 <= limit -> stored_valid w ->
  get_tasks category priority completed limit w
  = (Return (map record_of
       (take (Z.to_nat limit)
          (merge_sort createdAt_desc
             (List.filter (matches (list_query category priority completed))
                          (tasks w))))),
     advance 0 1 w).
Proof.
  intros Hl Hv. unfold get_tasks. apply except_Return.
  fold (list_query category priority completed).
  unfold mbind, M_bind. rewrite (find_sort_limit_run _ _ _ Hl).
  apply mapM_Task_init_valid.
  apply Forall_take. now apply stored_valid_matching.
Qed.

(** X3.  With a limit that is not negative and valid stored documents, List
    returns the first [limit] records of an arrangement of all the records
    that match its filters by [createdAt], the most recent first: what it
    returns, followed by what the limit cuts off, is a permutation of the
    records of the matching documents (their fields, without an identifier)
    and is sorted; nothing is cut off while the limit is not reached. *)
Theorem list_returns_the_most_recent_first
  (category priority : option string) (completed : option bool)
  (limit : Z) (w : World) :
  0 <= limit -> stored_valid w ->
  exists r rest,
    get_tasks category priority completed limit w = (Return r, advance 0 1 w)
    /\ r ++ rest ≡ₚ
       map record_of
         (List.filter (matches (list_query category priority completed)) (tasks w))
    /\ StronglySorted not_older (r ++ rest)
    /\ length r = Nat.min (Z.to_nat limit) (length (r ++ rest))
    /\ (count (list_query category priority completed) (tasks w) <= limit ->
        rest = []).
Proof.
  intros Hl Hv.
  set (q := list_query category priority completed).
  set (s := merge_sort createdAt_desc (List.filter (matches q) (tasks w))).
  destruct (sorted_matching q (tasks w)) as [Hs Hp]. fold s in Hs, Hp.
  exists (map record_of (take (Z.to_nat limit) s)),
         (map record_of (drop (Z.to_nat limit) s)).
  split; [now apply get_tasks_run|].
  rewrite <- map_app, take_drop.
  split; [now rewrite Hp|].
  split.
  { apply (StronglySorted_fmap record_of createdAt_desc not_older); [|exact Hs].
    intros x y. unfold createdAt_desc, not_older. simpl. now rewrite Is_true_true. }
  split.
  { rewrite !length_map, length_take. reflexivity. }
  intros Hc. unfold count in Hc. fold q in Hc. rewrite <- Hp in Hc.
  rewrite drop_ge; [reflexivity | lia].
Qed.

Lemma matches_completed b d :
  matches [(K_completed, Is (VBool b))] d = bool_decide (TaskDict.completed (data d) = b).
Proof. unfold matches; simpl. now rewrite andb_true_r. Qed.

(** X4.  With the [completed] filter, every record that List returns has
    that completion state, and the call leaves the collection as it was. *)
Theorem list_filters_by_completed
  (category priority : option string) (b : bool) (limit : Z)
  (w w' : World) (r : list Task.t) :
  get_tasks category priority (Some b) limit w = (Return r, w') ->
  Forall (fun t => Task.completed t = b) r /\ tasks w' = tasks w.
Proof.
  intros H. split.
  - destruct (get_tasks_Return _ _ _ _ _ _ _ H) as (ds & -> & Hds).
    apply Forall_fmap. eapply Forall_impl; [exact Hds|].
    intros d [_ Hm]. rewrite !matches_app in Hm.
    apply andb_prop in Hm as [_ Hm]. apply andb_prop in Hm as [_ Hm].
    unfold completed_filter in Hm. rewrite matches_completed in Hm.
    simpl. now apply bool_decide_eq_true in Hm.
  - unfold get_tasks, except_Exception in H.
    destruct (_ ≫= _) as [[x|e] w1] eqn:E in H; [|discriminate].
    injection H as _ <-.
    unfold mbind, M_bind in E.
    destruct (find_sort_limit _ _ w) as [[ds|e] w2] eqn:E2; [|discriminate].
    apply mapM_Task_init_Return in E as [_ ->].
    unfold find_sort_limit in E2. destruct (limit <? 0); [discriminate|].
    revert E2. run_monad. now intros [= _ <-].
Qed.

(** ** Update and Delete on a record that exists *)

(** The first document with a given identifier splits the collection. *)
Lemma find_by_id_split o coll d :
  List.find (matches (by_id o)) coll = Some d ->
  exists l1 l2, coll = l1 ++ d :: l2 /\ (o ∉ map _id l1) /\ _id d = o.
Proof.
  induction coll as [|x coll IH]; simpl; [done|].
  rewrite matches_by_id. case_bool_decide as E.
  - intros [= <-]. exists [], coll. split; [done|]. split; [|done].
    simpl. apply not_elem_of_nil.
  - intros H. destruct (IH H) as (l1 & l2 & -> & Hn & Hd).
    exists (x :: l1), l2. split; [done|]. split; [|done].
    simpl. apply not_elem_of_cons. split; [congruence | done].
Qed.

Lemma find_by_id_middle o l1 d l2 :
  o ∉ map _id l1 -> _id d = o ->
  List.find (matches (by_id o)) (l1 ++ d :: l2) = Some d.
Proof.
  intros Hn Hd. induction l1 as [|x l1 IH]; simpl.
  - now rewrite matches_by_id, bool_decide_true.
  - simpl in Hn. apply not_elem_of_cons in Hn as [Hx Hn].
    rewrite matches_by_id, bool_decide_false by congruence. auto.
Qed.

Lemma update_first_middle o l l1 d l2 :
  o ∉ map _id l1 -> _id d = o ->
  update_first (by_id o) l (l1 ++ d :: l2)
  = (l1 ++ mk_Document (_id d) (apply_sets l (data d)) :: l2, 1).
Proof.
  intros Hn Hd. induction l1 as [|x l1 IH]; simpl.
  - now rewrite matches_by_id, bool_decide_true.
  - simpl in Hn. apply not_elem_of_cons in Hn as [Hx Hn].
    rewrite matches_by_id, bool_decide_false by congruence.
    now rewrite (IH Hn).
Qed.

Lemma delete_first_middle o l1 d l2 :
  o ∉ map _id l1 -> _id d = o ->
  delete_first (by_id o) (l1 ++ d :: l2) = (l1 ++ l2, 1).
Proof.
  intros Hn Hd. induction l1 as [|x l1 IH]; simpl.
  - now rewrite matches_by_id, bool_decide_true.
  - simpl in Hn. apply not_elem_of_cons in Hn as [Hx Hn].
    rewrite matches_by_id, bool_decide_false by congruence.
    now rewrite (IH Hn).
Qed.

(** An operation that matched nothing changed nothing. *)
Lemma delete_first_unmatched q coll :
  snd (delete_first q coll) = 0 -> fst (delete_first q coll) = coll.
Proof.
  induction coll as [|d coll IH]; simpl; [done|].
  destruct (matches q d); simpl; [discriminate|].
  destruct (delete_first q coll) as [r n]. simpl in *. intros H. now rewrite IH.
Qed.

Lemma update_first_unmatched q l coll :
  snd (update_first q l coll) = 0 -> fst (update_first q l coll) = coll.
Proof.
  induction coll as [|d coll IH]; simpl; [done|].
  destruct (matches q d); simpl; [discriminate|].
  destruct (update_first q l coll) as [r n]. simpl in *. intros H. now rewrite IH.
Qed.

(** The [$set] that Update sends, in closed form. *)
Lemma apply_sets_update_data tu now x :
  apply_sets (update_data_of tu ++ [set_updatedAt now]) x = updated_data tu now x.
Proof.
  destruct x as [i t d p c done cr up us n].
  destruct tu as [[?|] [?|] [?|] [?|] [?|] [?|]]; reflexivity.
Qed.

Lemma updated_data_valid tu now d :
  TaskUpdate.valid tu = true ->
  Task.valid (task_helper d) = true ->
  Task.valid (task_helper (mk_Document (_id d) (updated_data tu now (data d)))) = true.
Proof.
  unfold TaskUpdate.valid, Task.valid. destruct d as [i x]. simpl.
  intros H1 H2. apply andb_prop in H1 as [Hp Hc]. apply andb_prop in H2 as [Hp' Hc'].
  destruct (TaskUpdate.priority tu), (TaskUpdate.category tu); simpl in *;
    apply andb_true_intro; split; assumption.
Qed.

(** Update of a record that exists, in closed form. *)
Lemma update_task_found task_id oid l1 d l2 tu w :
  ObjectId_new task_id = Return oid ->
  tasks w = l1 ++ d :: l2 -> oid ∉ map _id l1 -> _id d = oid ->
  update_data_of tu <> [] ->
  TaskUpdate.valid tu = true ->
  Task.valid (task_helper d) = true ->
  update_task task_id tu w =
  (Return (record_of
             (mk_Document (_id d)
                (updated_data tu (isoformat (clock w (clock_reads w))) (data d)))),
   with_tasks
     (l1 ++ mk_Document (_id d)
              (updated_data tu (isoformat (clock w (clock_reads w))) (data d)) :: l2)
     (advance 1 2 w)).
Proof.
  intros Hoid Hw Hn Hd Hne Hvu Hv. unfold update_task.
  rewrite (ObjectId_new_is_valid _ _ Hoid), Hoid. simpl negb. cbv iota.
  destruct (update_data_of tu) as [|e l] eqn:E; [done|]. rewrite <- E.
  apply except_reraise_Return. step. rewrite Hw.
  rewrite (update_first_middle _ _ _ _ _ Hn Hd). cbn [fst snd].
  change (1 =? 0) with false. cbv iota. step.
  rewrite (find_by_id_middle oid l1 (mk_Document (_id d) _) l2 Hn Hd).
  rewrite apply_sets_update_data.
  unfold Task_of_found, Task_init. rewrite (updated_data_valid _ _ _ Hvu Hv).
  world_eq.
Qed.

(** X5.  Update of a record that exists, with a validated body that supplies
    at least one field: the record returned has the supplied fields, the
    other fields of the stored record, [updatedAt] set to the reading of the
    clock, and no identifier; a notification id can be replaced but not
    removed.  In the collection the updated document takes the place of the
    old one under the same identifier, every other document and the order
    being as before; the record returned is the record of that document, and
    a Get that follows returns it too. *)
Theorem update_changes_the_supplied_fields_only
  (task_id : string) (oid : ObjectId) (d : Document) (tu : TaskUpdate.t)
  (w : World) :
  ObjectId_new task_id = Return oid ->
  List.find (matches (by_id oid)) (tasks w) = Some d ->
  Is_true (Task.valid (task_helper d)) ->
  TaskUpdate.valid tu = true ->
  tu <> empty_update ->
  exists t d' w' l1 l2,
    update_task task_id tu w = (Return t, w')
    /\ Task.id t = None
    /\ Task.title t = default (TaskDict.title (data d)) (TaskUpdate.title tu)
    /\ Task.dueDate t = default (TaskDict.dueDate (data d)) (TaskUpdate.dueDate tu)
    /\ Task.priority t = default (TaskDict.priority (data d)) (TaskUpdate.priority tu)
    /\ Task.category t = default (TaskDict.category (data d)) (TaskUpdate.category tu)
    /\ Task.completed t = default (TaskDict.completed (data d)) (TaskUpdate.completed tu)
    /\ Task.notificationId t
       = match TaskUpdate.notificationId tu with
         | Some n => Some n
         | None => TaskDict.notificationId (data d)
         end
    /\ Task.createdAt t = TaskDict.createdAt (data d)
    /\ Task.userId t = TaskDict.userId (data d)
    /\ Task.updatedAt t = Some (isoformat (clock w (clock_reads w)))
    /\ tasks w = l1 ++ d :: l2
    /\ tasks w' = l1 ++ d' :: l2
    /\ _id d' = _id d
    /\ record_of d' = t
    /\ get_task task_id w' = (Return t, advance 0 1 w').
Proof.
  intros Hoid Hd Hv Hvu Hne. apply Is_true_true in Hv.
  destruct (find_by_id_split _ _ _ Hd) as (l1 & l2 & Hw & Hn & Hid).
  assert (Hne' : update_data_of tu <> []) by now rewrite update_data_empty_iff.
  set (now := isoformat (clock w (clock_reads w))).
  set (d' := mk_Document (_id d) (updated_data tu now (data d))).
  exists (record_of d'), d',
         (with_tasks (l1 ++ d' :: l2) (advance 1 2 w)), l1, l2.
  split; [now apply (update_task_found task_id oid l1 d l2)|].
  repeat match goal with |- _ /\ _ => split end;
    try reflexivity; try assumption.
  - apply get_task_found with (oid := oid); [exact Hoid| |].
    + rewrite tasks_with_tasks. apply find_by_id_middle; [exact Hn | exact Hid].
    + now apply updated_data_valid.
Qed.

(** X6.  Delete of a record that exists removes that document and no other,
    the order of the others being kept, and answers with the identifier as
    it was given; when identifiers are unique, a Get or an Update of that
    identifier then answers 404. *)
Theorem delete_removes_that_record_only
  (task_id : string) (oid : ObjectId) (d : Document) (w : World) :
  ObjectId_new task_id = Return oid ->
  List.find (matches (by_id oid)) (tasks w) = Some d ->
  exists w' l1 l2,
    delete_task task_id w
    = (Return (DeleteResponse.mk "Task deleted successfully" task_id), w')
    /\ tasks w = l1 ++ d :: l2
    /\ tasks w' = l1 ++ l2
    /\ (unique_ids w ->
        get_task task_id w'
        = (Raise (HTTPException 404 "Task not found"), advance 0 1 w')
        /\ forall tu, tu <> empty_update ->
             update_task task_id tu w'
             = (Raise (HTTPException 404 "Task not found"), advance 1 1 w')).
Proof.
  intros Hoid Hd.
  destruct (find_by_id_split _ _ _ Hd) as (l1 & l2 & Hw & Hn & Hid).
  exists (with_tasks (l1 ++ l2) (advance 0 1 w)), l1, l2.
  split.
  { rewrite (delete_task_run _ _ _ Hoid), Hw.
    rewrite (delete_first_middle _ _ _ _ Hn Hid). cbn [fst snd].
    change (1 =? 0) with false. cbv iota. world_eq. }
  split; [exact Hw|]. split; [apply tasks_with_tasks|].
  intros Hu.
  assert (Hgone : oid ∉ map _id (tasks (with_tasks (l1 ++ l2) (advance 0 1 w)))).
  { rewrite tasks_with_tasks. unfold unique_ids in Hu. rewrite Hw in Hu.
    rewrite map_app in Hu. simpl in Hu. apply NoDup_app in Hu as (_ & Hx & Hu).
    apply NoDup_cons in Hu as [Hu _]. rewrite Hid in Hu.
    rewrite map_app, elem_of_app. intros [H|H]; [now apply Hn | now apply Hu]. }
  split.
  - now apply get_task_missing with (oid := oid).
  - intros tu Hne. apply update_task_missing with (oid := oid); [done|done|].
    now rewrite update_data_empty_iff.
Qed.

(** ** What the handlers never do *)

(** *** Handlers that only read *)

Lemma untouched_datetime_now l : preserves (collection_is l) datetime_now.
Proof. intros w o w' H [= _ <-]. exact H. Qed.

Lemma untouched_find_one l q : preserves (collection_is l) (find_one q).
Proof. intros w o w' H. rewrite find_one_run. intros [= _ <-]. exact H. Qed.

Lemma untouched_find_sort_limit l q n :
  preserves (collection_is l) (find_sort_limit q n).
Proof.
  intros w o w' H. unfold find_sort_limit.
  destruct (n <? 0); [intros [= _ <-]; exact H|].
  run_monad. intros [= _ <-]. exact H.
Qed.

#[local] Hint Resolve untouched_datetime_now untouched_find_one
  untouched_find_sort_limit : preserves.

Lemma preserves_except_Exception_503 {A} (I : World -> Prop) p (m : M A) :
  preserves I m -> preserves I (except_Exception_503 p m).
Proof.
  intros Hm w o w' H. unfold except_Exception_503.
  destruct (m w) as [[a|e] w1] eqn:E; intros [= _ <-]; eapply Hm; eauto.
Qed.

Lemma untouched_snd {A} (m : M A) w :
  (forall l, preserves (collection_is l) m) -> tasks (snd (m w)) = tasks w.
Proof.
  intros H. destruct (m w) as [o w'] eqn:E.
  exact (H (tasks w) w o w' eq_refl E).
Qed.

(** [GET /health] answers with the reading of the clock. *)
Lemma health_check_run w :
  health_check w
  = (Return (HealthResponse.mk "healthy" "connected"
               (isoformat (clock w (clock_reads w)))),
     advance 1 1 w).
Proof.
  unfold health_check, except_Exception_503.
  rewrite bind_find_one, bind_datetime_now, mret_run. world_eq.
  now rewrite Nat.add_0_r.
Qed.

(** X7.  The liveness message, the health check, List, Get, Stats and the
    productivity analytics never change the collection, whether they return
    or raise. *)
Theorem reads_never_change_the_collection (w : World) :
  tasks (snd (root w)) = tasks w
  /\ tasks (snd (health_check w)) = tasks w
  /\ (forall category priority completed limit,
        tasks (snd (get_tasks category priority completed limit w)) = tasks w)
  /\ (forall task_id, tasks (snd (get_task task_id w)) = tasks w)
  /\ tasks (snd (get_stats w)) = tasks w
  /\ tasks (snd (get_productivity_analytics w)) = tasks w.
Proof.
  split; [reflexivity|].
  split; [now rewrite health_check_run|].
  split.
  { intros. apply untouched_snd. intros l. unfold get_tasks. preserves_tac. }
  split.
  { intros. apply untouched_snd. intros l. unfold get_task. preserves_tac. }
  split; [now rewrite get_stats_run|].
  now rewrite get_productivity_analytics_run.
Qed.

(** *** Requests that are refused *)

Lemma insert_one_generated_duplicate x w :
  oid_source w (oid_count w) ∈ map _id (tasks w) ->
  insert_one None x w =
  (Raise DuplicateKeyError,
   mk_World (tasks w) (S (store_calls w)) (clock w) (clock_reads w)
            (oid_source w) (S (oid_count w))).
Proof.
  intros H. unfold insert_one. run_monad.
  now rewrite bool_decide_true.
Qed.

Lemma find_by_id_cases o coll :
  ((o ∉ map _id coll) /\ List.find (matches (by_id o)) coll = None)
  \/ exists d, List.find (matches (by_id o)) coll = Some d.
Proof.
  destruct (List.find (matches (by_id o)) coll) as [d|] eqn:E; [right; eauto|].
  left. split; [|done]. intros Hin.
  apply list_elem_of_fmap in Hin as (d & -> & Hd).
  apply list_elem_of_In in Hd.
  eapply find_none in E; [|exact Hd].
  rewrite matches_by_id in E. now apply bool_decide_eq_false in E.
Qed.

(** Update of a document that exists, whatever it holds: the document is
    rewritten, and the answer is its record, or 500 when the rewritten
    document does not validate. *)
Lemma update_task_applied task_id oid l1 d l2 tu w :
  ObjectId_new task_id = Return oid ->
  tasks w = l1 ++ d :: l2 -> oid ∉ map _id l1 -> _id d = oid ->
  update_data_of tu <> [] ->
  update_task task_id tu w =
  (match Task_init
           (task_helper
              (mk_Document (_id d)
                 (updated_data tu (isoformat (clock w (clock_reads w))) (data d))))
   with
   | Return t => Return t
   | Raise e => Raise (HTTPException 500 ("Failed to update task: " +:+ exn_str e))
   end,
   with_tasks
     (l1 ++ mk_Document (_id d)
              (updated_data tu (isoformat (clock w (clock_reads w))) (data d)) :: l2)
     (advance 1 2 w)).
Proof.
  intros Hoid Hw Hn Hd Hne. unfold update_task.
  rewrite (ObjectId_new_is_valid _ _ Hoid), Hoid. simpl negb. cbv iota.
  destruct (update_data_of tu) as [|e l] eqn:E; [done|]. rewrite <- E.
  set (d' := mk_Document (_id d) _).
  assert (Hbody :
    forall o, Task_init (task_helper d') = o ->
    (now ← datetime_now;
     oid0 ← lift (Return oid);
     matched_count ← update_one (by_id oid0)
                       (update_data_of tu ++ [set_updatedAt (isoformat now)]);
     if matched_count =? 0
     then raise (HTTPException 404 "Task not found")
     else oid1 ← lift (Return oid);
          updated_task ← find_one (by_id oid1);
          Task_of_found updated_task) w
    = (o, with_tasks (l1 ++ d' :: l2) (advance 1 2 w))).
  { intros o Ho. step. rewrite Hw.
    rewrite (update_first_middle _ _ _ _ _ Hn Hd). cbn [fst snd].
    change (1 =? 0) with false. cbv iota. step.
    rewrite (find_by_id_middle oid l1 (mk_Document (_id d) _) l2 Hn Hd).
    rewrite apply_sets_update_data. fold d'.
    unfold Task_of_found. rewrite lift_run, Ho. world_eq. }
  unfold except_HTTPException_reraise. rewrite (Hbody _ eq_refl).
  unfold Task_init. destruct (Task.valid (task_helper d')); reflexivity.
Qed.

(** X8.  An Update or a Delete that is answered 400 or 404 has not changed
    the collection, whatever the collection and the body hold: these answers
    are given before a write, or after a write that matched no document. *)
Theorem refused_writes_change_nothing
  (w w' : World) (status_code : Z) (detail : string) :
  status_code = 400 \/ status_code = 404 ->
  (forall task_id tu,
     update_task task_id tu w = (Raise (HTTPException status_code detail), w') ->
     tasks w' = tasks w)
  /\ (forall task_id,
        delete_task task_id w = (Raise (HTTPException status_code detail), w') ->
        tasks w' = tasks w).
Proof.
  intros Hc. split.
  - intros task_id tu H.
    destruct (is_valid task_id) eqn:Hid.
    2:{ rewrite update_task_malformed in H by done. now injection H as _ _ <-. }
    destruct (ObjectId_new_valid _ Hid) as (oid & Hoid & _).
    destruct (update_data_of tu) as [|x l] eqn:Hne'.
    { unfold update_task in H. rewrite Hid, Hne' in H. now injection H as _ _ <-. }
    assert (Hne : update_data_of tu <> []) by now rewrite Hne'.
    destruct (find_by_id_cases oid (tasks w)) as [[Hno _]|[d Hd]].
    { rewrite (update_task_missing _ _ _ _ Hoid Hno Hne) in H.
      now injection H as _ _ <-. }
    destruct (find_by_id_split _ _ _ Hd) as (l1 & l2 & Hw & Hn & Hdi).
    rewrite (update_task_applied _ _ _ _ _ _ _ Hoid Hw Hn Hdi Hne) in H.
    destruct (Task_init _) in H; [discriminate|].
    injection H as <- _ _. lia.
  - intros task_id H.
    destruct (is_valid task_id) eqn:Hid.
    2:{ rewrite delete_task_malformed in H by done. now injection H as _ _ <-. }
    destruct (ObjectId_new_valid _ Hid) as (oid & Hoid & _).
    rewrite (delete_task_run _ _ _ Hoid) in H.
    destruct (snd (delete_first (by_id oid) (tasks w)) =? 0) eqn:E; [|discriminate].
    apply Z.eqb_eq in E. injection H as _ _ <-. simpl.
    now apply delete_first_unmatched.
Qed.

(** ** Create, then List and Stats *)

Lemma filter_matches_all coll : List.filter (matches []) coll = coll.
Proof. induction coll as [|d l IH]; [done|]. simpl. now rewrite IH. Qed.

Lemma count_all coll : count [] coll = Z.of_nat (length coll).
Proof. unfold count. now rewrite filter_matches_all. Qed.

Lemma count_app q l1 l2 : count q (l1 ++ l2) = count q l1 + count q l2.
Proof. unfold count. rewrite List.filter_app, length_app. lia. Qed.

Lemma created_document_valid task_data w :
  TaskCreate.valid task_data = true ->
  Task.valid (task_helper (created_document task_data w)) = true.
Proof. intros H. exact H. Qed.

(** X11.  After a Create on validated input, the collection is the old one
    followed by one document, and the record returned holds the fields of
    that document (without an identifier); a List without filter whose limit
    exceeds the size of the collection contains this record and one record
    more than there were documents; and in the report of Stats the total and
    the pending count are one more than before, the completed count being the
    same. *)
Theorem create_adds_one_record
  (task_data : TaskCreate.t) (limit : Z) (w : World) :
  TaskCreate.valid task_data = true ->
  oid_source w (oid_count w) ∉ map _id (tasks w) ->
  stored_valid w ->
  Z.of_nat (length (tasks w)) < limit ->
  exists t d w1 r w2 s0 w3 s1 w4,
    create_task task_data w = (Return t, w1)
    /\ tasks w1 = tasks w ++ [d]
    /\ record_of d = t
    /\ get_tasks None None None limit w1 = (Return r, w2)
    /\ t ∈ r
    /\ length r = S (length (tasks w))
    /\ get_stats w = (Return s0, w3)
    /\ get_stats w1 = (Return s1, w4)
    /\ Overview.totalTasks (Stats.overview s1)
       = Overview.totalTasks (Stats.overview s0) + 1
    /\ Overview.completedTasks (Stats.overview s1)
       = Overview.completedTasks (Stats.overview s0)
    /\ Overview.pendingTasks (Stats.overview s1)
       = Overview.pendingTasks (Stats.overview s0) + 1.
Proof.
  intros Hv Hfresh Hsv Hlim.
  set (d := created_document task_data w).
  set (w1 := mk_World (tasks w ++ [d]) (S (S (store_calls w))) (clock w)
               (S (S (clock_reads w))) (oid_source w) (S (oid_count w))).
  assert (Hsv1 : stored_valid w1).
  { unfold stored_valid, w1. cbn [tasks]. apply Forall_app. split; [exact Hsv|].
    constructor; [|constructor]. apply Is_true_true.
    now apply created_document_valid. }
  assert (Hl : 0 <= limit) by lia.
  set (s := merge_sort createdAt_desc
              (List.filter (matches (list_query None None None)) (tasks w1))).
  assert (Hp : s ≡ₚ tasks w ++ [d]).
  { unfold s. rewrite merge_sort_Permutation.
    change (list_query None None None) with (@nil (key * condition)).
    now rewrite filter_matches_all. }
  assert (Hlen : length s = S (length (tasks w))).
  { rewrite Hp, length_app. simpl. lia. }
  exists (record_of d), d, w1,
         (map record_of (take (Z.to_nat limit) s)), (advance 0 1 w1),
         (stats_report w), (advance 15 21 w),
         (stats_report w1), (advance 15 21 w1).
  split; [now apply create_task_run|].
  split; [reflexivity|]. split; [reflexivity|].
  split; [now apply get_tasks_run|].
  rewrite take_ge by lia.
  split.
  { apply list_elem_of_fmap. exists d. split; [reflexivity|].
    rewrite Hp. apply elem_of_app. right. left. }
  split; [now rewrite length_map|].
  split; [apply get_stats_run|]. split; [apply get_stats_run|].
  unfold stats_report. cbn [Stats.overview Overview.totalTasks
    Overview.completedTasks Overview.pendingTasks].
  change (tasks w1) with (tasks w ++ [d]). rewrite !count_app.
  assert (H1 : count [] [d] = 1) by reflexivity.
  assert (H2 : count [(K_completed, Is (VBool true))] [d] = 0) by reflexivity.
  rewrite H1, H2. lia.
Qed.

(** ** Sync: failure, round trip and identifiers *)

(** One turn of the loop of Sync, when the identifier to insert is in the
    collection already: the insertion is refused and nothing is stored. *)
Lemma sync_one_duplicate now task w :
  default (oid_source w (oid_count w)) (supplied_oid task) ∈ map _id (tasks w) ->
  exists w',
    sync_one now task w = (Raise DuplicateKeyError, w') /\ tasks w' = tasks w.
Proof.
  intros Hdup.
  unfold sync_one, supplied_oid in *.
  destruct (Task.id task) as [s|] eqn:Hid; cbn [default from_option id] in *.
  - destruct (str_truthy (Some s)) eqn:Ht; cbn [andb negb] in *.
    + destruct (is_valid s) eqn:Hs; cbn [negb] in *.
      * destruct (ObjectId_new_valid s Hs) as (o & Ho & _).
        rewrite Ho in *. cbn [default from_option id] in *.
        rewrite bind_Return with (a := (Some o, sync_task_dict now task)) (w' := w)
          by reflexivity.
        erewrite bind_Raise; [| apply insert_one_duplicate; exact Hdup].
        eexists. split; reflexivity.
      * rewrite bind_mret.
        erewrite bind_Raise; [| apply insert_one_generated_duplicate; exact Hdup].
        eexists. split; reflexivity.
    + rewrite bind_mret.
      erewrite bind_Raise; [| apply insert_one_generated_duplicate; exact Hdup].
      eexists. split; reflexivity.
  - cbn [str_truthy andb].
    rewrite bind_mret.
    erewrite bind_Raise; [| apply insert_one_generated_duplicate; exact Hdup].
    eexists. split; reflexivity.
Qed.

Lemma app_singleton_eq {A} (os : list A) o x :
  os ++ [o] = [x] -> os = [] /\ o = x.
Proof.
  destruct os as [|a os]; simpl.
  - now intros [= ->].
  - intros [= _ H]. now destruct os.
Qed.

(** The loop of Sync, when the identifier of the task after [l1] repeats an
    earlier one or one of the collection: the tasks of [l1] are stored, then
    the loop is left. *)
Lemma mapM_sync_one_fails now l1 t l2 : forall w os o,
  forallb Task.valid l1 = true ->
  sync_oids (oid_source w) (oid_count w) (l1 ++ [t]) = os ++ [o] ->
  NoDup (map _id (tasks w) ++ os) ->
  o ∈ map _id (tasks w) ++ os ->
  exists w',
    mapM (sync_one now) (l1 ++ t :: l2) w = (Raise DuplicateKeyError, w')
    /\ tasks w' = tasks w ++ zip_with (synced_document now) l1 os.
Proof.
  induction l1 as [|a l1 IH]; intros w os o Hv Hos Hnd Hin.
  - cbn [app sync_oids] in Hos.
    assert (Ho : os = [] /\ o = default (oid_source w (oid_count w)) (supplied_oid t)).
    { destruct (supplied_oid t); symmetry in Hos;
        apply app_singleton_eq in Hos as [-> ->]; done. }
    destruct Ho as [-> ->]. rewrite app_nil_r in Hin.
    destruct (sync_one_duplicate now t w Hin) as (w' & Hrun & Ht).
    exists w'. split.
    + cbn [app mapM]. now rewrite bind_Raise with (1 := Hrun).
    + rewrite Ht. cbn. now rewrite app_nil_r.
  - cbn [forallb] in Hv. apply andb_true_iff in Hv as [Hva Hvl].
    set (oid := default (oid_source w (oid_count w)) (supplied_oid a)).
    set (w1 := mk_World (tasks w ++ [synced_document now a oid])
                 (S (S (store_calls w))) (clock w) (clock_reads w) (oid_source w)
                 (match supplied_oid a with
                  | Some _ => oid_count w
                  | None => S (oid_count w)
                  end)).
    assert (Hoids : sync_oids (oid_source w) (oid_count w) ((a :: l1) ++ [t])
                    = oid :: sync_oids (oid_source w1) (oid_count w1) (l1 ++ [t])).
    { unfold oid, w1. cbn [app sync_oids oid_source oid_count].
      destruct (supplied_oid a); reflexivity. }
    rewrite Hoids in Hos.
    destruct os as [|o1 os].
    { simpl in Hos. injection Hos as _ Hos.
      apply (f_equal length) in Hos.
      rewrite sync_oids_length, length_app in Hos. simpl in Hos. lia. }
    simpl in Hos. injection Hos as <- Hos.
    assert (Hfresh : oid ∉ map _id (tasks w)).
    { apply NoDup_app in Hnd as (_ & Hdis & _).
      intros Hi. apply (Hdis _ Hi). left. }
    destruct (IH w1 os o Hvl Hos) as (w' & Hrun & Ht).
    { unfold w1 at 1. cbn [tasks]. rewrite map_app. cbn [map _id synced_document].
      rewrite <- app_assoc. exact Hnd. }
    { unfold w1 at 1. cbn [tasks]. rewrite map_app. cbn [map _id synced_document].
      rewrite <- app_assoc. exact Hin. }
    exists w'. split.
    + cbn [app mapM].
      rewrite bind_Return with (a := synced_task now a) (w' := w1)
        by (apply sync_one_run; [exact Hva | exact Hfresh]).
      now rewrite bind_Raise with (1 := Hrun).
    + rewrite Ht. unfold w1 at 1. cbn [tasks zip_with]. now rewrite <- app_assoc.
Qed.

(** X12.  Sync is not atomic.  When the identifier under which a task of the
    request is to be inserted repeats that of an earlier task of the request,
    the tasks before it being valid and inserted under distinct identifiers,
    Sync answers 500; the collection it leaves holds the documents of those
    earlier tasks and nothing else: neither what it held before nor the rest
    of the request. *)
Theorem sync_stops_at_a_repeated_identifier
  (sync_request : SyncRequest.t) (w : World)
  (l1 l2 : list Task.t) (t : Task.t) (os : list ObjectId) (o : ObjectId) :
  SyncRequest.tasks sync_request = l1 ++ t :: l2 ->
  forallb Task.valid l1 = true ->
  sync_oids (oid_source w) (oid_count w) (l1 ++ [t]) = os ++ [o] ->
  NoDup os ->
  o ∈ os ->
  exists detail w',
    sync_tasks sync_request w = (Raise (HTTPException 500 detail), w')
    /\ tasks w'
       = zip_with (synced_document (isoformat (clock w (clock_reads w)))) l1 os.
Proof.
  intros Hreq Hv Hos Hnd Hin.
  set (now := isoformat (clock w (clock_reads w))).
  set (w1 := with_tasks [] (advance 0 1 (advance 1 0 w))).
  destruct (mapM_sync_one_fails now l1 t l2 w1 os o Hv Hos) as (w' & Hrun & Ht);
    [exact Hnd | exact Hin |].
  exists ("Failed to sync tasks: " +:+ exn_str DuplicateKeyError), w'.
  split; [|exact Ht].
  unfold sync_tasks. apply except_Raise.
  rewrite bind_datetime_now. fold now.
  erewrite bind_Return; [| apply delete_many_all_run].
  fold w1. rewrite Hreq. now rewrite bind_Raise with (1 := Hrun).
Qed.

(** Sync on distinct identifiers, in closed form. *)
Lemma sync_tasks_run sync_request w :
  SyncRequest.valid sync_request = true ->
  NoDup (sync_oids (oid_source w) (oid_count w) (SyncRequest.tasks sync_request)) ->
  exists w',
    sync_tasks sync_request w =
    (Return (SyncResponse.mk
               (map (synced_task (isoformat (clock w (clock_reads w))))
                  (SyncRequest.tasks sync_request))
               []
               (isoformat (clock w (clock_reads w)))),
     w')
    /\ tasks w' =
       zip_with (synced_document (isoformat (clock w (clock_reads w))))
         (SyncRequest.tasks sync_request)
         (sync_oids (oid_source w) (oid_count w) (SyncRequest.tasks sync_request)).
Proof.
  intros Hv Hnd. unfold SyncRequest.valid in Hv.
  set (now := isoformat (clock w (clock_reads w))).
  set (w1 := with_tasks [] (advance 0 1 (advance 1 0 w))).
  destruct (mapM_sync_one_run now (SyncRequest.tasks sync_request) w1 Hv)
    as (w' & Hrun & Ht & _).
  { exact Hnd. }
  exists w'. split.
  - unfold sync_tasks. apply except_Return.
    rewrite bind_datetime_now. fold now.
    erewrite bind_Return; [| apply delete_many_all_run].
    fold w1. rewrite bind_Return with (1 := Hrun). reflexivity.
  - rewrite Ht. reflexivity.
Qed.

(** The document of the [k]-th task is the one found under the [k]-th
    identifier. *)
Lemma find_synced now : forall l os k task oid,
  NoDup os ->
  l !! k = Some task -> os !! k = Some oid ->
  List.find (matches (by_id oid)) (zip_with (synced_document now) l os)
  = Some (synced_document now task oid).
Proof.
  induction l as [|a l IH]; intros [|o os] k task oid Hnd Hl Ho;
    try (destruct k; discriminate).
  apply NoDup_cons in Hnd as [Hfresh Hnd].
  destruct k as [|k]; simpl in *.
  - injection Hl as ->. injection Ho as ->.
    now rewrite matches_by_id, bool_decide_true.
  - rewrite matches_by_id, bool_decide_false.
    + eapply IH; eauto.
    + simpl. intros ->. apply Hfresh. eapply list_elem_of_lookup_2; eauto.
Qed.

(** X13.  After a Sync that succeeds, a Get by the text of the identifier
    under which a task of the request was stored, this identifier being one
    of twelve bytes, returns the record that Sync returned for that task: the
    task of the request with [updatedAt] set to the sync time and without an
    identifier. *)
Theorem sync_then_get
  (sync_request : SyncRequest.t) (w : World)
  (k : nat) (task : Task.t) (oid : ObjectId) :
  SyncRequest.valid sync_request = true ->
  NoDup (sync_oids (oid_source w) (oid_count w) (SyncRequest.tasks sync_request)) ->
  SyncRequest.tasks sync_request !! k = Some task ->
  sync_oids (oid_source w) (oid_count w) (SyncRequest.tasks sync_request) !! k
  = Some oid ->
  oid_full oid ->
  exists r w' t,
    sync_tasks sync_request w = (Return r, w')
    /\ SyncResponse.tasks r !! k = Some t
    /\ t = synced_task (SyncResponse.syncTime r) task
    /\ Task.id t = None
    /\ get_task (oid_str oid) w' = (Return t, advance 0 1 w').
Proof.
  intros Hv Hnd Hk Ho Hfull.
  destruct (sync_tasks_run _ _ Hv Hnd) as (w' & Hrun & Ht).
  set (now := isoformat (clock w (clock_reads w))) in *.
  eexists _, w', (synced_task now task).
  split; [exact Hrun|].
  split.
  { cbn [SyncResponse.tasks]. now rewrite list_lookup_fmap, Hk. }
  split; [reflexivity|]. split; [reflexivity|].
  rewrite <- (record_of_synced now task oid).
  apply get_task_found with (oid := oid).
  - now apply ObjectId_new_oid_str.
  - rewrite Ht. now apply find_synced with (k := k).
  - rewrite task_valid_synced.
    unfold SyncRequest.valid in Hv. rewrite forallb_forall in Hv.
    apply Hv. apply list_elem_of_In. eapply list_elem_of_lookup_2; eauto.
Qed.

(** The identifiers of tasks that each carry a text that [ObjectId] reads. *)
Lemma sync_oids_supplied gen l : forall n os,
  Forall2 (fun t o => exists s, Task.id t = Some s /\ ObjectId_new s = Return o)
          l os ->
  sync_oids gen n l = os.
Proof.
  induction l as [|t l IH]; intros n os H; inversion H as [|? o ? os' Ht Hl]; subst;
    [done|].
  simpl. rewrite (proj2 (supplied_oid_Some t o) Ht). f_equal. now apply IH.
Qed.

(** The identifiers of tasks that carry none are the next ones that the
    driver generates. *)
Lemma sync_oids_generated gen l : forall n,
  Forall (fun t => Task.id t = None) l ->
  sync_oids gen n l = map gen (seq n (length l)).
Proof.
  induction l as [|t l IH]; intros n H; [done|].
  apply Forall_cons in H as [Ht Hl].
  simpl. unfold supplied_oid. rewrite Ht. cbn [str_truthy andb].
  f_equal. now apply IH.
Qed.

(** X14.  Sync keeps the identifiers it is given: when each task of a valid
    request carries a text that [ObjectId] reads, and the identifiers read
    are pairwise distinct, Sync stores the tasks under these identifiers, in
    order, and returns them with [updatedAt] set to the sync time and without
    an identifier; the records of the stored documents are the records
    returned. *)
Theorem sync_keeps_the_identifiers_it_is_given
  (sync_request : SyncRequest.t) (os : list ObjectId) (w : World) :
  SyncRequest.valid sync_request = true ->
  Forall2 (fun t o => exists s, Task.id t = Some s /\ ObjectId_new s = Return o)
          (SyncRequest.tasks sync_request) os ->
  NoDup os ->
  exists r w',
    sync_tasks sync_request w = (Return r, w')
    /\ SyncResponse.tasks r
       = map (synced_task (SyncResponse.syncTime r)) (SyncRequest.tasks sync_request)
    /\ SyncResponse.conflicts r = []
    /\ SyncResponse.syncTime r = isoformat (clock w (clock_reads w))
    /\ map _id (tasks w') = os
    /\ map record_of (tasks w') = SyncResponse.tasks r.
Proof.
  intros Hv Hids Hnd.
  pose proof (sync_oids_supplied (oid_source w) _ (oid_count w) _ Hids) as Hos.
  destruct (sync_tasks_run sync_request w Hv) as (w' & Hrun & Ht).
  { now rewrite Hos. }
  rewrite Hos in Ht.
  assert (Hlen : length os = length (SyncRequest.tasks sync_request)).
  { rewrite <- Hos. apply sync_oids_length. }
  eexists _, w'. split; [exact Hrun|]. cbn [SyncResponse.tasks
    SyncResponse.conflicts SyncResponse.syncTime].
  split; [reflexivity|]. split; [reflexivity|]. split; [reflexivity|].
  rewrite Ht. split.
  - now apply map_id_synced.
  - now apply map_record_of_synced.
Qed.

(** X15.  What List returns cannot restore the identifiers: a Sync of the
    records that an unfiltered List with a large enough limit returned, over
    valid stored documents, answers with the same records, in the same
    order, only [updatedAt] being set to the sync time; the collection then
    holds the documents of exactly these records, stored under the next
    identifiers that the driver generates, not under those they had. *)
Theorem list_then_sync_assigns_new_identifiers
  (limit : Z) (lastSyncTime : option string) (w w0 : World) :
  stored_valid w ->
  Z.of_nat (length (tasks w)) <= limit ->
  NoDup (map (oid_source w0) (seq (oid_count w0) (length (tasks w)))) ->
  exists listed w1 r w2,
    get_tasks None None None limit w = (Return listed, w1)
    /\ listed ≡ₚ map record_of (tasks w)
    /\ sync_tasks (SyncRequest.mk listed lastSyncTime) w0 = (Return r, w2)
    /\ SyncResponse.tasks r = map (synced_task (SyncResponse.syncTime r)) listed
    /\ map record_of (tasks w2) = SyncResponse.tasks r
    /\ map _id (tasks w2)
       = map (oid_source w0) (seq (oid_count w0) (length (tasks w))).
Proof.
  intros Hsv Hlim Hgen.
  assert (Hl : 0 <= limit) by lia.
  set (s := merge_sort createdAt_desc
              (List.filter (matches (list_query None None None)) (tasks w))).
  assert (Hp : s ≡ₚ tasks w).
  { unfold s. rewrite merge_sort_Permutation.
    change (list_query None None None) with (@nil (key * condition)).
    now rewrite filter_matches_all. }
  assert (Hrun : get_tasks None None None limit w
                 = (Return (map record_of s), advance 0 1 w)).
  { rewrite (get_tasks_run _ _ _ _ _ Hl Hsv). fold s.
    rewrite take_ge; [reflexivity|]. rewrite Hp. lia. }
  assert (Hv : SyncRequest.valid (SyncRequest.mk (map record_of s) lastSyncTime) = true).
  { unfold SyncRequest.valid. cbn [SyncRequest.tasks].
    apply forallb_forall. intros t Ht. apply in_map_iff in Ht as (d & <- & Hd).
    apply Is_true_true. unfold stored_valid in Hsv. rewrite Forall_forall in Hsv.
    apply (Hsv d). rewrite <- Hp. now apply list_elem_of_In. }
  assert (Hlen : length (map record_of s) = length (tasks w)).
  { now rewrite length_map, Hp. }
  assert (Hos : sync_oids (oid_source w0) (oid_count w0) (map record_of s)
                = map (oid_source w0) (seq (oid_count w0) (length (tasks w)))).
  { rewrite sync_oids_generated, Hlen; [reflexivity|].
    apply Forall_fmap, Forall_forall. reflexivity. }
  destruct (sync_tasks_run (SyncRequest.mk (map record_of s) lastSyncTime) w0 Hv)
    as (w2 & Hsync & Ht).
  { cbn [SyncRequest.tasks]. now rewrite Hos. }
  cbn [SyncRequest.tasks] in *. rewrite Hos in Ht.
  eexists _, _, _, w2. split; [exact Hrun|].
  split; [now rewrite Hp|].
  split; [exact Hsync|].
  cbn [SyncResponse.tasks SyncResponse.syncTime].
  split; [reflexivity|]. rewrite Ht. split.
  - apply map_record_of_synced. now rewrite length_map, length_seq.
  - apply map_id_synced. now rewrite length_map, length_seq.
Qed.

(** ** Stats: what the counts and the rates satisfy *)

(** *** The buckets of a breakdown partition the collection *)

Lemma sum_indicator (keys : list string) k :
  NoDup keys -> k ∈ keys ->
  sum_Z (map (fun x => if bool_decide (k = x) then 1 else 0) keys) = 1.
Proof.
  induction 1 as [|x keys Hx Hnd IH]; intros Hin.
  - now apply elem_of_nil in Hin.
  - simpl. case_bool_decide as E.
    + subst x.
      assert (H0 : sum_Z (map (fun x => if bool_decide (k = x) then 1 else 0) keys) = 0).
      { clear -Hx. induction keys as [|y keys IH]; [done|]. simpl.
        apply not_elem_of_cons in Hx as [Hy Hx].
        rewrite bool_decide_false by done. now rewrite IH. }
      unfold sum_Z in *. lia.
    + apply elem_of_cons in Hin as [->|Hin]; [done|].
      unfold sum_Z in *. rewrite IH by done. lia.
Qed.

Lemma sum_Z_add {A} (f g : A -> Z) l :
  sum_Z (map (fun x => f x + g x) l) = sum_Z (map f l) + sum_Z (map g l).
Proof. induction l as [|x l IH]; simpl; [done|]. unfold sum_Z in *. lia. Qed.

(** Counting the documents key by key counts each of them once. *)
Lemma sum_by_key (g : Document -> string) keys coll :
  NoDup keys -> (forall d, d ∈ coll -> g d ∈ keys) ->
  sum_Z (map (fun k => Z.of_nat (length (List.filter
                          (fun d => bool_decide (g d = k)) coll))) keys)
  = Z.of_nat (length coll).
Proof.
  intros Hnd. induction coll as [|d coll IH]; intros Hin.
  - simpl. induction keys as [|k keys IHk]; [done|].
    simpl. apply NoDup_cons in Hnd as [_ Hnd]. now rewrite IHk.
  - assert (E : forall k,
        Z.of_nat (length (List.filter (fun d => bool_decide (g d = k)) (d :: coll)))
        = (if bool_decide (g d = k) then 1 else 0)
          + Z.of_nat (length (List.filter (fun d => bool_decide (g d = k)) coll))).
    { intros k. simpl. destruct (bool_decide (g d = k)); simpl; lia. }
    rewrite (map_ext _ _ E), sum_Z_add.
    rewrite sum_indicator; [|exact Hnd|apply Hin; left].
    rewrite IH; [simpl length; lia|].
    intros x Hx. apply Hin. now right.
Qed.

Lemma filter_comm {A} (p q : A -> bool) l :
  List.filter p (List.filter q l) = List.filter q (List.filter p l).
Proof.
  induction l as [|x l IH]; [done|]. simpl.
  destruct (p x) eqn:Ep, (q x) eqn:Eq; simpl; rewrite ?Ep, ?Eq, IH; reflexivity.
Qed.

Lemma group_rows_keys f coll :
  map GroupRow._id (group_rows f coll)
  = remove_dups (map (fun d => f (data d)) coll).
Proof. unfold group_rows. rewrite map_map. simpl. apply map_id. Qed.

Lemma group_rows_total f coll :
  sum_Z (map GroupRow.total (group_rows f coll)) = count [] coll.
Proof.
  unfold group_rows. rewrite map_map. cbn [GroupRow.total]. rewrite count_all.
  apply (sum_by_key (fun d => f (data d))); [apply NoDup_remove_dups|].
  intros d Hd. apply elem_of_remove_dups, list_elem_of_fmap. eauto.
Qed.

Lemma filter_completed coll :
  List.filter (matches [(K_completed, Is (VBool true))]) coll
  = List.filter (fun d => TaskDict.completed (data d)) coll.
Proof.
  apply List.filter_ext. intros d. rewrite matches_completed.
  destruct (TaskDict.completed (data d)); reflexivity.
Qed.

Lemma group_rows_completed f coll :
  sum_Z (map GroupRow.completed (group_rows f coll))
  = count [(K_completed, Is (VBool true))] coll.
Proof.
  unfold group_rows, count. rewrite map_map. cbn [GroupRow.completed].
  rewrite filter_completed.
  erewrite map_ext; [|intros k; rewrite filter_comm; reflexivity].
  apply (sum_by_key (fun d => f (data d))); [apply NoDup_remove_dups|].
  intros d Hd. apply list_elem_of_In, filter_In in Hd as [Hd _].
  apply elem_of_remove_dups, list_elem_of_fmap. exists d.
  split; [reflexivity | now apply list_elem_of_In].
Qed.

(** No bucket is empty, and none holds more completed tasks than tasks. *)
Lemma group_rows_bounds f coll :
  Forall (fun r => 0 <= GroupRow.completed r <= GroupRow.total r
                   /\ 1 <= GroupRow.total r) (group_rows f coll).
Proof.
  unfold group_rows. apply Forall_fmap, Forall_forall. intros k Hk. simpl.
  split.
  - split; [lia|]. apply inj_le, filter_length_le.
  - apply elem_of_remove_dups, list_elem_of_fmap in Hk as (d & -> & Hd).
    assert (Hin : In d (List.filter (fun d0 => bool_decide (f (data d0) = f (data d))) coll)).
    { apply filter_In. split; [now apply list_elem_of_In|]. now apply bool_decide_eq_true. }
    destruct (List.filter _ coll); [destruct Hin | simpl; lia].
Qed.

Lemma map_fst_bucket_entry rows :
  map fst (map bucket_entry rows) = map GroupRow._id rows.
Proof. rewrite map_map. reflexivity. Qed.

Lemma map_total_bucket_entry rows :
  map (fun b => Bucket.total b.2) (map bucket_entry rows) = map GroupRow.total rows.
Proof. rewrite map_map. reflexivity. Qed.

Lemma map_completed_bucket_entry rows :
  map (fun b => Bucket.completed b.2) (map bucket_entry rows)
  = map GroupRow.completed rows.
Proof. rewrite map_map. reflexivity. Qed.

(** X16.  In the report of Stats, the buckets of the category breakdown
    have pairwise distinct keys, none is empty, every stored category is a
    key, and their totals and completed counts add up to the total and the
    completed count of the overview; the same holds of the priority
    breakdown. *)
Theorem breakdowns_partition_the_collection (w : World) :
  exists r w',
    get_stats w = (Return r, w')
    /\ NoDup (map fst (Stats.categoryStats r))
    /\ NoDup (map fst (Stats.priorityStats r))
    /\ (forall d, d ∈ tasks w ->
          TaskDict.category (data d) ∈ map fst (Stats.categoryStats r)
          /\ TaskDict.priority (data d) ∈ map fst (Stats.priorityStats r))
    /\ Forall (fun b => 1 <= Bucket.total b.2) (Stats.categoryStats r)
    /\ Forall (fun b => 1 <= Bucket.total b.2) (Stats.priorityStats r)
    /\ sum_Z (map (fun b => Bucket.total b.2) (Stats.categoryStats r))
       = Overview.totalTasks (Stats.overview r)
    /\ sum_Z (map (fun b => Bucket.completed b.2) (Stats.categoryStats r))
       = Overview.completedTasks (Stats.overview r)
    /\ sum_Z (map (fun b => Bucket.total b.2) (Stats.priorityStats r))
       = Overview.totalTasks (Stats.overview r)
    /\ sum_Z (map (fun b => Bucket.completed b.2) (Stats.priorityStats r))
       = Overview.completedTasks (Stats.overview r).
Proof.
  exists (stats_report w), (advance 15 21 w).
  split; [apply get_stats_run|].
  unfold stats_report. cbn [Stats.categoryStats Stats.priorityStats Stats.overview
    Overview.totalTasks Overview.completedTasks].
  rewrite !map_fst_bucket_entry, !map_total_bucket_entry,
    !map_completed_bucket_entry, !group_rows_keys, !group_rows_total,
    !group_rows_completed.
  split; [apply NoDup_remove_dups|]. split; [apply NoDup_remove_dups|].
  split.
  { intros d Hd. split; apply elem_of_remove_dups, list_elem_of_fmap; eauto. }
  split.
  { apply Forall_fmap. eapply Forall_impl; [apply group_rows_bounds|].
    intros r [_ H]. exact H. }
  split.
  { apply Forall_fmap. eapply Forall_impl; [apply group_rows_bounds|].
    intros r [_ H]. exact H. }
  repeat split; reflexivity.
Qed.

(** *** Ranges *)

Lemma py_round1_nonneg x : (0 <= number_Q x)%Q -> (0 <= number_Q (py_round1 x))%Q.
Proof.
  destruct x as [z|q]; [done|]. cbn [py_round1 number_Q]. intros H.
  apply round_double_nonneg.
  assert (Hr : 0 <= round_half_even (q * 10)).
  { apply round_half_even_ge. change (inject_Z 0) with 0%Q. lra. }
  rewrite Zle_Qle in Hr. change (inject_Z 0) with 0%Q in Hr.
  unfold Qdiv. change (/ 10)%Q with (1 # 10)%Q. lra.
Qed.

Lemma py_round1_le hi x :
  0 <= hi < 2 ^ 53 ->
  (number_Q x <= inject_Z hi)%Q -> (number_Q (py_round1 x) <= inject_Z hi)%Q.
Proof.
  intros Hhi. destruct x as [z|q]; [done|]. cbn [py_round1 number_Q]. intros H.
  apply round_double_le_Z; [exact Hhi|].
  assert (Hr : round_half_even (q * 10) <= hi * 10).
  { apply round_half_even_le. rewrite inject_Z_mult.
    change (inject_Z 10) with 10%Q. lra. }
  rewrite Zle_Qle, inject_Z_mult in Hr. change (inject_Z 10) with 10%Q in Hr.
  unfold Qdiv. change (/ 10)%Q with (1 # 10)%Q. lra.
Qed.

Lemma py_round1_range x : in_range 0 100 x -> in_range 0 100 (py_round1 x).
Proof.
  intros [Hlo Hhi]. split.
  - now apply py_round1_nonneg.
  - apply py_round1_le; [lia | exact Hhi].
Qed.

Lemma round_double_100 : round_double (inject_Z 100) = 100%Q.
Proof. vm_compute. reflexivity. Qed.

Lemma pct_range a b : 0 <= a <= b -> in_range 0 100 (pct a b).
Proof.
  intros H. unfold pct, in_range.
  destruct (0 <? b) eqn:E; [|split; discriminate].
  apply Z.ltb_lt in E. cbn [py_mul number_Q to_float].
  rewrite round_double_100.
  assert (Hq : (0 <= inject_Z a / inject_Z b <= inject_Z 1)%Q).
  { split.
    - apply Qle_shift_div_l; [now rewrite <- (Zlt_Qlt 0)|].
      rewrite Qmult_0_l. rewrite <- (Zle_Qle 0). lia.
    - apply Qle_shift_div_r; [now rewrite <- (Zlt_Qlt 0)|].
      rewrite <- inject_Z_mult, <- Zle_Qle. lia. }
  destruct Hq as [Hq0 Hq1].
  pose proof (round_double_nonneg _ Hq0) as H0.
  pose proof (round_double_le_Z _ 1 ltac:(lia) Hq1) as H1.
  change (inject_Z 1) with 1%Q in H1.
  set (r := round_double (inject_Z a / inject_Z b)) in *. split.
  - apply round_double_nonneg. lra.
  - apply round_double_le_Z; [lia|]. change (inject_Z 100) with 100%Q. lra.
Qed.

Lemma count_nonneg q coll : 0 <= count q coll.
Proof. unfold count. lia. Qed.

Lemma count_mono q1 q2 coll :
  (forall d, matches q1 d = true -> matches q2 d = true) ->
  count q1 coll <= count q2 coll.
Proof.
  intros H. unfold count. apply inj_le.
  induction coll as [|d coll IH]; [done|]. simpl.
  destruct (matches q1 d) eqn:E1.
  - rewrite (H d E1). simpl. lia.
  - destruct (matches q2 d); simpl; lia.
Qed.

Lemma count_cons_le c q coll : count (c :: q) coll <= count [c] coll.
Proof.
  apply count_mono. intros d. change (c :: q) with ([c] ++ q)%list.
  rewrite matches_app. now intros [H _]%andb_prop.
Qed.

Lemma count_cons_le_tail c q coll : count (c :: q) coll <= count q coll.
Proof.
  apply count_mono. intros d. change (c :: q) with ([c] ++ q)%list.
  rewrite matches_app. now intros [_ H]%andb_prop.
Qed.

Lemma daily_entries_range coll clk l : forall n,
  Forall (fun e => 0 <= DailyStat.completed e <= DailyStat.created e
                   /\ in_range 0 100 (DailyStat.completionRate e))
         (daily_entries coll clk n l).
Proof.
  induction l as [|i l IH]; intros n; cbn [daily_entries]; constructor; [|apply IH].
  unfold daily_entry. cbn [DailyStat.completed DailyStat.created
    DailyStat.completionRate].
  assert (H : 0 <= count [created_on (datetime_sub (clk n) (timedelta_of 0 i 0 0 0));
                         (K_completed, Is (VBool true))] coll
              <= count [created_on (datetime_sub (clk n) (timedelta_of 0 i 0 0 0))] coll).
  { split; [apply count_nonneg | apply count_cons_le]. }
  split; [exact H | now apply pct_range].
Qed.

Lemma weekly_entries_range coll clk l : forall n,
  Forall (fun e => 0 <= WeeklyStat.completed e <= WeeklyStat.created e
                   /\ in_range 0 100 (WeeklyStat.completionRate e))
         (weekly_entries coll clk n l).
Proof.
  induction l as [|i l IH]; intros n; cbn [weekly_entries]; constructor; [|apply IH].
  unfold weekly_entry. cbn [WeeklyStat.completed WeeklyStat.created
    WeeklyStat.completionRate].
  set (q := between K_createdAt _ _).
  assert (H : 0 <= count [q; (K_completed, Is (VBool true))] coll <= count [q] coll).
  { split; [apply count_nonneg | apply count_cons_le]. }
  split; [exact H | now apply py_round1_range, pct_range].
Qed.

Lemma bucket_entries_range f coll :
  Forall (fun b => 0 <= Bucket.completed b.2 <= Bucket.total b.2
                   /\ 0 <= Bucket.pending b.2
                   /\ in_range 0 100 (Bucket.completionRate b.2))
         (map bucket_entry (group_rows f coll)).
Proof.
  apply Forall_fmap. eapply Forall_impl; [apply group_rows_bounds|].
  intros r [H _]. unfold bucket_entry. simpl.
  split; [exact H|]. split; [lia|]. now apply py_round1_range, pct_range.
Qed.

(** The sum of a number not above [hx] and of an integer not above [hn]. *)
Lemma number_Q_py_add_le x n hx hn :
  0 <= hn < 2 ^ 53 -> 0 <= hx + hn < 2 ^ 53 ->
  (number_Q x <= inject_Z hx)%Q -> n <= hn ->
  (number_Q (py_add x (PyInt n)) <= inject_Z (hx + hn))%Q.
Proof.
  intros Hn Hs Hx Hle. rewrite inject_Z_plus.
  destruct x as [z|q]; cbn [py_add number_Q to_float] in *.
  - rewrite inject_Z_plus. rewrite Zle_Qle in Hle. lra.
  - rewrite <- inject_Z_plus. apply round_double_le_Z; [exact Hs|].
    rewrite inject_Z_plus.
    assert (H1 : (round_double (inject_Z n) <= inject_Z hn)%Q).
    { apply round_double_le_Z; [exact Hn|]. now rewrite <- Zle_Qle. }
    lra.
Qed.

(** X17.  In the reports of Stats and of the productivity analytics, every
    count is non-negative, a completed count does not exceed the count it is
    a part of, the overdue count does not exceed the pending one, every
    completion rate lies between 0 and 100, and the productivity score does
    not exceed 110. *)
Theorem counts_and_rates_are_in_range (w : World) :
  (exists r w',
     get_stats w = (Return r, w')
     /\ 0 <= Overview.completedTasks (Stats.overview r)
          <= Overview.totalTasks (Stats.overview r)
     /\ 0 <= Overview.overdueTask (Stats.overview r)
          <= Overview.pendingTasks (Stats.overview r)
     /\ Overview.pendingTasks (Stats.overview r)
        <= Overview.totalTasks (Stats.overview r)
     /\ 0 <= Overview.todayTasks (Stats.overview r)
          <= Overview.totalTasks (Stats.overview r)
     /\ 0 <= Overview.weekTasks (Stats.overview r)
          <= Overview.totalTasks (Stats.overview r)
     /\ in_range 0 100 (Overview.completionRate (Stats.overview r))
     /\ Forall (fun b => 0 <= Bucket.completed b.2 <= Bucket.total b.2
                         /\ 0 <= Bucket.pending b.2
                         /\ in_range 0 100 (Bucket.completionRate b.2))
          (Stats.categoryStats r ++ Stats.priorityStats r)
     /\ Forall (fun e => 0 <= DailyStat.completed e <= DailyStat.created e
                         /\ in_range 0 100 (DailyStat.completionRate e))
          (Stats.dailyTrends r)
     /\ (number_Q (Insights.productivityScore (Stats.insights r)) <= 110)%Q)
  /\ (exists p w',
        get_productivity_analytics w = (Return p, w')
        /\ Forall (fun e => 0 <= WeeklyStat.completed e <= WeeklyStat.created e
                            /\ in_range 0 100 (WeeklyStat.completionRate e))
             (Productivity.weeklyTrends p)).
Proof.
  split.
  - exists (stats_report w), (advance 15 21 w).
    split; [apply get_stats_run|].
    pose proof (stats_pending_counts w) as Hpend.
    unfold stats_report in *. cbn [Stats.overview Stats.categoryStats
      Stats.priorityStats Stats.dailyTrends Stats.insights
      Overview.totalTasks Overview.completedTasks Overview.pendingTasks
      Overview.overdueTask Overview.todayTasks Overview.weekTasks
      Overview.completionRate Insights.productivityScore] in *.
    set (total := count [] (tasks w)) in *.
    set (done := count [(K_completed, Is (VBool true))] (tasks w)) in *.
    set (overdue := count [(K_completed, Is (VBool false)); _] (tasks w)).
    assert (Hdone : 0 <= done <= total).
    { split; [apply count_nonneg | apply count_cons_le_tail]. }
    assert (Hover : 0 <= overdue <= total - done).
    { split; [apply count_nonneg|]. rewrite Hpend. apply count_cons_le. }
    split; [exact Hdone|]. split; [exact Hover|]. split; [lia|].
    split; [split; [apply count_nonneg | apply count_cons_le_tail]|].
    split; [split; [apply count_nonneg | apply count_cons_le_tail]|].
    split; [now apply py_round1_range, pct_range|].
    split; [apply Forall_app; split; apply bucket_entries_range|].
    split; [apply Forall_reverse, daily_entries_range|].
    apply (py_round1_le 110); [lia|].
    apply (number_Q_py_add_le _ _ 100 10); [lia | lia | |].
    + now apply pct_range.
    + destruct (overdue =? 0) eqn:E; [lia|]. apply Z.eqb_neq in E. lia.
  - exists (productivity_report w), (advance 9 8 w).
    split; [apply get_productivity_analytics_run|].
    unfold productivity_report. cbn [Productivity.weeklyTrends].
    apply Forall_reverse, weekly_entries_range.
Qed.

(** *** The most and the least productive category *)

Lemma py_max_spec {A} (f : A -> Z) l : forall x,
  py_max f x l ∈ x :: l
  /\ Forall (fun y => f y <= f (py_max f x l)) (x :: l).
Proof.
  unfold py_max. induction l as [|y l IH]; intros x; simpl.
  - split; [left|]. constructor; [lia | constructor].
  - destruct (IH (if f x <? f y then y else x)) as [Hin Hall].
    apply Forall_cons in Hall as [H1 H2].
    split.
    + apply elem_of_cons in Hin as [Hin|Hin].
      * rewrite Hin. destruct (f x <? f y); [right; left | left].
      * right. now right.
    + destruct (f x <? f y) eqn:E.
      * apply Z.ltb_lt in E. constructor; [lia|]. constructor; [exact H1 | exact H2].
      * apply Z.ltb_ge in E. constructor; [exact H1|]. constructor; [lia | exact H2].
Qed.

Lemma py_min_spec {A} (f : A -> Z) l : forall x,
  py_min f x l ∈ x :: l
  /\ Forall (fun y => f (py_min f x l) <= f y) (x :: l).
Proof.
  unfold py_min. induction l as [|y l IH]; intros x; simpl.
  - split; [left|]. constructor; [lia | constructor].
  - destruct (IH (if f y <? f x then y else x)) as [Hin Hall].
    apply Forall_cons in Hall as [H1 H2].
    split.
    + apply elem_of_cons in Hin as [Hin|Hin].
      * rewrite Hin. destruct (f y <? f x); [right; left | left].
      * right. now right.
    + destruct (f y <? f x) eqn:E.
      * apply Z.ltb_lt in E. constructor; [lia|]. constructor; [exact H1 | exact H2].
      * apply Z.ltb_ge in E. constructor; [exact H1|]. constructor; [lia | exact H2].
Qed.

Lemma group_rows_nil f coll : group_rows f coll = [] <-> coll = [].
Proof.
  split; [|now intros ->].
  destruct coll as [|d coll]; [done|]. intros H.
  assert (Hin : f (data d) ∈ map GroupRow._id (group_rows f (d :: coll))).
  { rewrite group_rows_keys. apply elem_of_remove_dups. left. }
  rewrite H in Hin. now apply elem_of_nil in Hin.
Qed.

(** X18.  The insights name a most and a least productive category exactly
    when the collection is not empty; the one is then the key of a bucket of
    the category breakdown whose completed count no bucket exceeds, the
    other the key of a bucket whose completed count is exceeded by none. *)
Theorem most_and_least_productive_category (w : World) :
  exists r w',
    get_stats w = (Return r, w')
    /\ (tasks w = [] <->
        Insights.mostProductiveCategory (Stats.insights r) = None)
    /\ (tasks w = [] <->
        Insights.leastProductiveCategory (Stats.insights r) = None)
    /\ (forall c, Insights.mostProductiveCategory (Stats.insights r) = Some c ->
          exists b, (c, b) ∈ Stats.categoryStats r
                    /\ Forall (fun x => Bucket.completed x.2 <= Bucket.completed b)
                         (Stats.categoryStats r))
    /\ (forall c, Insights.leastProductiveCategory (Stats.insights r) = Some c ->
          exists b, (c, b) ∈ Stats.categoryStats r
                    /\ Forall (fun x => Bucket.completed b <= Bucket.completed x.2)
                         (Stats.categoryStats r)).
Proof.
  exists (stats_report w), (advance 15 21 w).
  split; [apply get_stats_run|].
  unfold stats_report. cbn [Stats.insights Stats.categoryStats
    Insights.mostProductiveCategory Insights.leastProductiveCategory].
  pose proof (group_rows_nil TaskDict.category (tasks w)) as Hnil.
  destruct (group_rows TaskDict.category (tasks w)) as [|x l] eqn:E.
  - repeat split; try done; intros; now apply Hnil.
  - split; [split; [intros H; apply Hnil in H; discriminate | discriminate]|].
    split; [split; [intros H; apply Hnil in H; discriminate | discriminate]|].
    split.
    + intros c [= <-].
      destruct (py_max_spec GroupRow.completed l x) as [Hin Hall].
      exists (bucket_entry (py_max GroupRow.completed x l)).2. split.
      * apply list_elem_of_fmap. exists (py_max GroupRow.completed x l).
        split; [reflexivity | exact Hin].
      * apply Forall_fmap. eapply Forall_impl; [exact Hall|]. intros y Hy. exact Hy.
    + intros c [= <-].
      destruct (py_min_spec GroupRow.completed l x) as [Hin Hall].
      exists (bucket_entry (py_min GroupRow.completed x l)).2. split.
      * apply list_elem_of_fmap. exists (py_min GroupRow.completed x l).
        split; [reflexivity | exact Hin].
      * apply Forall_fmap. eapply Forall_impl; [exact Hall|]. intros y Hy. exact Hy.
Qed.

(** ** Timestamps in order *)

Lemma fraction_compare a b :
  0 <= a <= 999999 -> 0 <= b <= 999999 ->
  String.compare (if a =? 0 then "" else "." +:+ pad6 a)
                 (if b =? 0 then "" else "." +:+ pad6 b)
  = (a ?= b).
Proof.
  intros Ha Hb.
  destruct (a =? 0) eqn:Ea, (b =? 0) eqn:Eb;
    rewrite ?Z.eqb_eq, ?Z.eqb_neq in Ea, Eb.
  - subst. reflexivity.
  - subst. symmetry. apply Z.compare_lt_iff. lia.
  - subst. symmetry. apply Z.compare_gt_iff. lia.
  - change (String.compare ("." +:+ pad6 a) ("." +:+ pad6 b))
      with (String.compare (pad6 a) (pad6 b)).
    now apply pad6_compare.
Qed.

Lemma time_part_compare a b :
  valid_time a -> valid_time b ->
  String.compare (time_part a) (time_part b)
  = match hour a ?= hour b with
    | Eq => match minute a ?= minute b with
            | Eq => match second a ?= second b with
                    | Eq => microsecond a ?= microsecond b
                    | c => c
                    end
            | c => c
            end
    | c => c
    end.
Proof.
  intros (Hh & Hm & Hs & Hu) (Hh' & Hm' & Hs' & Hu'). unfold time_part.
  change (String.compare ("T" +:+ ?x) ("T" +:+ ?y)) with (String.compare x y).
  rewrite string_compare_app, pad2_compare by (reflexivity || lia).
  destruct (hour a ?= hour b); try reflexivity.
  change (String.compare (":" +:+ ?x) (":" +:+ ?y)) with (String.compare x y).
  rewrite string_compare_app, pad2_compare by (reflexivity || lia).
  destruct (minute a ?= minute b); try reflexivity.
  change (String.compare (":" +:+ ?x) (":" +:+ ?y)) with (String.compare x y).
  rewrite string_compare_app, pad2_compare by (reflexivity || lia).
  destruct (second a ?= second b); try reflexivity.
  apply fraction_compare; lia.
Qed.

(** The strings that [isoformat] prints are in the order of the readings
    they print. *)
Lemma isoformat_compare a b :
  valid_date a -> valid_date b -> valid_time a -> valid_time b ->
  String.compare (isoformat a) (isoformat b) = datetime_compare a b.
Proof.
  intros Ha Hb Hta Htb. rewrite !isoformat_split.
  rewrite string_compare_app by (now rewrite !strftime_Ymd_length).
  rewrite strftime_Ymd_compare by assumption.
  unfold datetime_compare. destruct (date_compare a b); try reflexivity.
  now apply time_part_compare.
Qed.

Lemma ltb_isoformat a b :
  valid_date a -> valid_date b -> valid_time a -> valid_time b ->
  String.ltb (isoformat a) (isoformat b) = before a b.
Proof.
  intros Ha Hb Hta Htb. unfold String.ltb, before.
  now rewrite isoformat_compare.
Qed.

(** X19.  When the due dates of the stored tasks and the reading of the
    clock are printed by [isoformat] from fields in range, the overdue count
    of Stats, which compares strings, is the number of tasks that are not
    completed and whose due date is strictly before that reading. *)
Theorem overdue_counts_pending_tasks_due_before_now
  (w : World) (due : Document -> datetime) :
  valid_date (clock w (clock_reads w)) ->
  valid_time (clock w (clock_reads w)) ->
  Forall (fun d => TaskDict.dueDate (data d) = isoformat (due d)
                   /\ valid_date (due d) /\ valid_time (due d)) (tasks w) ->
  exists r w',
    get_stats w = (Return r, w')
    /\ Overview.overdueTask (Stats.overview r)
       = Z.of_nat (length (List.filter
           (fun d => negb (TaskDict.completed (data d))
                     && before (due d) (clock w (clock_reads w)))
           (tasks w))).
Proof.
  intros Hd Ht Hall.
  exists (stats_report w), (advance 15 21 w).
  split; [apply get_stats_run|].
  unfold stats_report. cbn [Stats.overview Overview.overdueTask].
  rewrite Nat.add_0_r. unfold count. do 2 f_equal.
  induction Hall as [|d l (Hdue & Hvd & Hvt) Hl IH]; [done|].
  cbn [List.filter]. rewrite IH.
  assert (E : matches [(K_completed, Is (VBool false));
                       (K_dueDate, Ops [(op_lt, isoformat (clock w (clock_reads w)))])] d
              = negb (TaskDict.completed (data d))
                && before (due d) (clock w (clock_reads w))).
  { unfold matches. cbn [forallb condition_holds get_key value_eqb operator_holds].
    rewrite Hdue, ltb_isoformat by assumption.
    rewrite !andb_true_r. f_equal.
    destruct (TaskDict.completed (data d)); reflexivity. }
  now rewrite E.
Qed.

(** ** The weekly trend *)

Lemma timedelta_of_weeks week days :
  timedelta_of week days 0 0 0 = timedelta_of 0 (7 * week + days) 0 0 0.
Proof. unfold timedelta_of. f_equal. lia. Qed.

(** The start of a week, when the two readings it is computed from are of
    the day of [today]. *)
Lemma week_start_of_same_day today a b week :
  valid_time a -> same_date a today -> same_date b today ->
  week_start_of week a b = monday_of today week.
Proof.
  intros Hv Ha Hb. unfold week_start_of, monday_of.
  assert (Hw : weekday b = weekday today).
  { unfold weekday. now rewrite (same_date_toordinal _ _ Hb). }
  rewrite Hw, timedelta_of_weeks, datetime_sub_days by exact Hv.
  unfold days_ago. rewrite (same_date_toordinal _ _ Ha).
  now destruct (ord2ymd _) as [[y m] d].
Qed.

Lemma weekly_entry_from_eq coll week a b :
  weekly_entry coll week a b = weekly_entry_from coll week (week_start_of week a b).
Proof. reflexivity. Qed.

Lemma weekly_entries_same_day coll clk today l : forall n,
  (forall k, (n <= k < n + 2 * length l)%nat ->
             valid_time (clk k) /\ same_date (clk k) today) ->
  weekly_entries coll clk n l
  = map (fun week => weekly_entry_from coll week (monday_of today week)) l.
Proof.
  induction l as [|i l IH]; intros n H; [done|].
  cbn [weekly_entries map]. f_equal.
  - rewrite weekly_entry_from_eq.
    destruct (H n) as [Hv Ha]; [simpl; lia|].
    destruct (H (S n)) as [_ Hb]; [simpl; lia|].
    now rewrite (week_start_of_same_day today).
  - apply IH. intros k Hk. apply H. simpl in *. lia.
Qed.

Lemma toordinal_monday_of today week :
  toordinal (monday_of today week) = toordinal today - weekday today - 7 * week.
Proof. unfold monday_of. rewrite toordinal_days_ago. lia. Qed.

Lemma weekday_monday_of today week : weekday (monday_of today week) = 0.
Proof.
  unfold weekday at 1. rewrite toordinal_monday_of. unfold weekday.
  Z.div_mod_to_equations. lia.
Qed.

(** The end of the window of a week: the sixth day after its start, at
    23:59:59 and no microsecond. *)
Lemma week_end_of_midnight ws :
  hour ws = 0 -> minute ws = 0 -> second ws = 0 -> microsecond ws = 0 ->
  datetime_add ws (timedelta_of 0 6 23 59 59)
  = (let '(y, m, d) := ord2ymd (toordinal ws + 6) in
     mk_datetime y m d 23 59 59 0).
Proof.
  intros Hh Hm Hs Hu. unfold datetime_add, timedelta_of.
  cbn [td_days td_seconds td_microseconds]. rewrite Hh, Hm, Hs, Hu.
  change (0 * 3600 + 0 * 60 + 0 + (23 * 3600 + 59 * 60 + 59) mod 86400
          + (0 + 0) / 1000000) with 86399.
  change ((0 + 0) mod 1000000) with 0.
  change (0 * 7 + 6 + (23 * 3600 + 59 * 60 + 59) / 86400) with 6.
  change (86399 / 86400) with 0. change (86399 mod 86400) with 86399.
  rewrite Z.add_0_r.
  change (86399 / 3600) with 23. change (86399 mod 3600 / 60) with 59.
  change (86399 mod 60) with 59. reflexivity.
Qed.

Lemma monday_of_midnight today week :
  hour (monday_of today week) = 0 /\ minute (monday_of today week) = 0
  /\ second (monday_of today week) = 0 /\ microsecond (monday_of today week) = 0.
Proof.
  unfold monday_of, days_ago. now destruct (ord2ymd _) as [[y m] d].
Qed.

(** X20.  When the eight readings of the clock taken by the loop over the
    weeks are readings of one calendar day, the weekly trend has four
    entries, labelled Week 1 to Week 4 in this order, for the weeks that
    start three, two, one and no week before the Monday of the week of that
    day.  The entry of a week holds the date of its Monday and the numbers
    of tasks, and of completed tasks, whose [createdAt] lies, as a string,
    between that Monday at 00:00:00 and the Sunday that follows at 23:59:59,
    printed without microseconds. *)
Theorem weekly_trend_covers_the_last_four_weeks (w : World) (today : datetime) :
  (forall k, (k < 8)%nat ->
             valid_time (clock w (clock_reads w + k))
             /\ same_date (clock w (clock_reads w + k)) today) ->
  exists p w',
    get_productivity_analytics w = (Return p, w')
    /\ Productivity.weeklyTrends p
       = map (fun week => weekly_entry_from (tasks w) week (monday_of today week))
             [3; 2; 1; 0]
    /\ map WeeklyStat.week (Productivity.weeklyTrends p)
       = ["Week 1"; "Week 2"; "Week 3"; "Week 4"]
    /\ (forall week,
          weekday (monday_of today week) = 0
          /\ toordinal (monday_of today week)
             = toordinal today - weekday today - 7 * week
          /\ datetime_add (monday_of today week) (timedelta_of 0 6 23 59 59)
             = replace_time (days_ago today (7 * week + weekday today - 6))
                            23 59 59 0).
Proof.
  intros Hclk.
  exists (productivity_report w), (advance 9 8 w).
  split; [apply get_productivity_analytics_run|].
  assert (E : Productivity.weeklyTrends (productivity_report w)
              = map (fun week => weekly_entry_from (tasks w) week (monday_of today week))
                    [3; 2; 1; 0]).
  { unfold productivity_report. cbn [Productivity.weeklyTrends].
    rewrite (weekly_entries_same_day _ _ today).
    - reflexivity.
    - intros k Hk. simpl in Hk.
      destruct (Hclk (k - clock_reads w)%nat) as [H1 H2]; [lia|].
      replace (clock_reads w + (k - clock_reads w))%nat with k in * by lia.
      done. }
  split; [exact E|]. split; [rewrite E; reflexivity|].
  intros week. split; [apply weekday_monday_of|].
  split; [apply toordinal_monday_of|].
  destruct (monday_of_midnight today week) as (Hh & Hm & Hs & Hu).
  rewrite (week_end_of_midnight _ Hh Hm Hs Hu), toordinal_monday_of.
  unfold days_ago, replace_time.
  replace (toordinal today - (7 * week + weekday today - 6))
    with (toordinal today - weekday today - 7 * week + 6) by lia.
  now destruct (ord2ymd _) as [[y m] d].
Qed.

Lemma strftime_Ymd_same_date a b : same_date a b -> strftime_Ymd a = strftime_Ymd b.
Proof. intros (Hy & Hm & Hd). unfold strftime_Ymd. now rewrite Hy, Hm, Hd. Qed.

(** X21.  The window of a week ends at 23:59:59 without microseconds: a task
    whose [createdAt] was printed from a reading in the last second of the
    seventh day of the week, with a fraction of a second, is not matched by
    the query of that week, although the window of that day, which ends at
    23:59:59.999999, holds it. *)
Theorem last_second_of_a_week_is_left_out
  (week_start t : datetime) (d : Document) :
  hour week_start = 0 -> minute week_start = 0 ->
  second week_start = 0 -> microsecond week_start = 0 ->
  same_date t (datetime_add week_start (timedelta_of 0 6 23 59 59)) ->
  hour t = 23 -> minute t = 59 -> second t = 59 ->
  0 < microsecond t < 1000000 ->
  TaskDict.createdAt (data d) = isoformat t ->
  matches [week_window week_start] d = false
  /\ matches [created_on t] d = true.
Proof.
  intros Hh Hm Hs Hu Hsame Hth Htm Hts Htu Hcr.
  split.
  - unfold matches, week_window, between.
    cbn [forallb condition_holds get_key operator_holds]. rewrite Hcr.
    assert (E : String.leb (isoformat t)
                  (isoformat (datetime_add week_start (timedelta_of 0 6 23 59 59)))
                = false).
    { unfold String.leb. rewrite !isoformat_split.
      rewrite (strftime_Ymd_same_date _ _ Hsame).
      rewrite string_compare_app, string_compare_refl by reflexivity.
      rewrite (week_end_of_midnight _ Hh Hm Hs Hu).
      destruct (ord2ymd _) as [[y m] dd]. unfold time_part.
      cbn [hour minute second microsecond]. rewrite Hth, Htm, Hts.
      destruct (microsecond t =? 0) eqn:E0; [apply Z.eqb_eq in E0; lia|].
      reflexivity. }
    rewrite E. now rewrite !andb_false_r.
  - rewrite matches_created_on, Hcr. unfold in_day.
    rewrite andb_true_iff, !leb_not_Gt, !isoformat_split.
    change (strftime_Ymd (replace_time t 0 0 0 0)) with (strftime_Ymd t).
    change (strftime_Ymd (replace_time t 23 59 59 999999)) with (strftime_Ymd t).
    rewrite !string_compare_app, !string_compare_refl by reflexivity.
    apply time_part_bounds. unfold valid_time. lia.
Qed.

(** ** Create, then Get *)

Lemma datetime_compare_Eq a b : datetime_compare a b = Eq -> a = b.
Proof.
  unfold datetime_compare.
  destruct (date_compare a b) eqn:Ed; try discriminate.
  apply date_compare_Eq in Ed as (Hy & Hm & Hd).
  destruct (Z.compare_spec (hour a) (hour b)) as [Hh| |]; try discriminate.
  destruct (Z.compare_spec (minute a) (minute b)) as [Hmi| |]; try discriminate.
  destruct (Z.compare_spec (second a) (second b)) as [Hs| |]; try discriminate.
  intros Hu%Z.compare_eq_iff.
  destruct a, b; simpl in *. congruence.
Qed.

(** Two readings that [isoformat] prints alike are the same reading. *)
Lemma isoformat_inj a b :
  valid_date a -> valid_date b -> valid_time a -> valid_time b ->
  isoformat a = isoformat b -> a = b.
Proof.
  intros Ha Hb Hta Htb E. apply datetime_compare_Eq.
  rewrite <- isoformat_compare by assumption.
  rewrite E. apply string_compare_refl.
Qed.

(** C2 (as amended).  For a valid input and a generated identifier that the
    store does not hold yet, Create stores one document under that
    identifier, and a Get by the text of that identifier returns the record
    that Create returned: the title, due date, priority, category and
    notification id of the input, [completed] false, [createdAt] the first
    reading of the clock and [updatedAt] the second one.  The two are equal
    when the two readings are the same and, for readings with a date and a
    time in range, only then. *)
Theorem create_then_get (task_data : TaskCreate.t) (w : World) :
  TaskCreate.valid task_data = true ->
  oid_source w (oid_count w) ∉ map _id (tasks w) ->
  oid_full (oid_source w (oid_count w)) ->
  exists t w1 d t' w2,
    create_task task_data w = (Return t, w1)
    /\ tasks w1 = tasks w ++ [d]
    /\ _id d = oid_source w (oid_count w)
    /\ get_task (oid_str (_id d)) w1 = (Return t', w2)
    /\ t' = t
    /\ Task.title t' = TaskCreate.title task_data
    /\ Task.dueDate t' = TaskCreate.dueDate task_data
    /\ Task.priority t' = TaskCreate.priority task_data
    /\ Task.category t' = TaskCreate.category task_data
    /\ Task.notificationId t' = TaskCreate.notificationId task_data
    /\ Task.completed t' = false
    /\ Task.createdAt t' = isoformat (clock w (clock_reads w))
    /\ Task.updatedAt t' = Some (isoformat (clock w (S (clock_reads w))))
    /\ (clock w (S (clock_reads w)) = clock w (clock_reads w) ->
        Task.updatedAt t' = Some (Task.createdAt t'))
    /\ (valid_date (clock w (clock_reads w)) ->
        valid_time (clock w (clock_reads w)) ->
        valid_date (clock w (S (clock_reads w))) ->
        valid_time (clock w (S (clock_reads w))) ->
        Task.updatedAt t' = Some (Task.createdAt t') ->
        clock w (S (clock_reads w)) = clock w (clock_reads w)).
Proof.
  intros Hv Hfresh Hfull.
  set (d := created_document task_data w).
  set (w1 := mk_World (tasks w ++ [d]) (S (S (store_calls w))) (clock w)
               (S (S (clock_reads w))) (oid_source w) (S (oid_count w))).
  exists (record_of d), w1, d, (record_of d), (advance 0 1 w1).
  split; [now apply create_task_run|].
  split; [reflexivity|]. split; [reflexivity|].
  split.
  { apply get_task_found with (oid := oid_source w (oid_count w)).
    - now apply ObjectId_new_oid_str.
    - unfold w1. cbn [tasks]. now apply find_by_id_new.
    - exact Hv. }
  repeat match goal with |- _ /\ _ => split end; try reflexivity.
  - simpl. now intros ->.
  - intros Hd0 Ht0 Hd1 Ht1 E. apply isoformat_inj; try assumption.
    unfold record_of, d, created_document in E.
    cbn [Task.updatedAt Task.createdAt data TaskDict.updatedAt TaskDict.createdAt] in E.
    congruence.
Qed.

(** ** A record from its creation to its deletion *)

(** X22.  A record is created from validated input, updated with a
    validated body that supplies a field, deleted, and looked up, the
    requests after Create naming the record by the text of the identifier
    under which Create stored it: Update returns the record with the
    [createdAt] of its creation and [updatedAt] set to the reading of the
    clock that Update takes; Delete confirms with that identifier; Get then
    answers 404; and the collection is again what it was before the
    creation. *)
Theorem created_updated_deleted_then_absent
  (task_data : TaskCreate.t) (task_update : TaskUpdate.t) (w : World) :
  TaskCreate.valid task_data = true ->
  oid_source w (oid_count w) ∉ map _id (tasks w) ->
  oid_full (oid_source w (oid_count w)) ->
  TaskUpdate.valid task_update = true ->
  task_update <> empty_update ->
  exists t d w1 t' w2 w3 w4,
    create_task task_data w = (Return t, w1)
    /\ tasks w1 = tasks w ++ [d]
    /\ _id d = oid_source w (oid_count w)
    /\ update_task (oid_str (_id d)) task_update w1 = (Return t', w2)
    /\ Task.createdAt t' = Task.createdAt t
    /\ Task.completed t' = default false (TaskUpdate.completed task_update)
    /\ Task.updatedAt t' = Some (isoformat (clock w (clock_reads w + 2)))
    /\ delete_task (oid_str (_id d)) w2
       = (Return (DeleteResponse.mk "Task deleted successfully" (oid_str (_id d))),
          w3)
    /\ get_task (oid_str (_id d)) w3
       = (Raise (HTTPException 404 "Task not found"), w4)
    /\ tasks w3 = tasks w.
Proof.
  intros Hv Hfresh Hfull Hvu Hne.
  set (oid := oid_source w (oid_count w)) in *.
  set (d := created_document task_data w).
  set (w1 := mk_World (tasks w ++ [d]) (S (S (store_calls w))) (clock w)
               (S (S (clock_reads w))) (oid_source w) (S (oid_count w))).
  set (now := isoformat (clock w1 (clock_reads w1))).
  set (d' := mk_Document (_id d) (updated_data task_update now (data d))).
  set (w2 := with_tasks (tasks w ++ [d']) (advance 1 2 w1)).
  set (w3 := with_tasks (tasks w ++ []) (advance 0 1 w2)).
  assert (Hoid : ObjectId_new (oid_str oid) = Return oid)
    by now apply ObjectId_new_oid_str.
  assert (Hne' : update_data_of task_update <> [])
    by now rewrite update_data_empty_iff.
  exists (record_of d), d, w1, (record_of d'), w2, w3, (advance 0 1 w3).
  split; [now apply create_task_run|].
  split; [reflexivity|]. split; [reflexivity|].
  change (_id d) with oid.
  split.
  { apply (update_task_found (oid_str oid) oid (tasks w) d []); done. }
  split; [reflexivity|]. split; [reflexivity|].
  split.
  { unfold now, w1. cbn [clock clock_reads Task.updatedAt record_of d' data
      updated_data TaskDict.updatedAt].
    now replace (clock_reads w + 2)%nat with (S (S (clock_reads w))) by lia. }
  split.
  { rewrite (delete_task_run _ _ _ Hoid).
    change (tasks w2) with (tasks w ++ [d']).
    rewrite (delete_first_middle oid (tasks w) d' [] Hfresh eq_refl).
    cbn [fst snd]. change (1 =? 0) with false. cbv iota.
    f_equal. unfold w3. world_eq. }
  split.
  { apply get_task_missing with (oid := oid); [exact Hoid|].
    change (tasks w3) with (tasks w ++ []). now rewrite app_nil_r. }
  change (tasks w3) with (tasks w ++ []). apply app_nil_r.
Qed.

(** ** The records of the responses *)

Lemma returns_only_bind {A B} (P : B -> Prop) (m : M A) (f : A -> M B) :
  (forall a, returns_only P (f a)) -> returns_only P (m ≫= f).
Proof.
  intros Hf w b w'. unfold mbind, M_bind.
  destruct (m w) as [[a|e] w1]; [apply Hf | discriminate].
Qed.

Lemma returns_only_raise {A} (P : A -> Prop) e : returns_only P (raise e).
Proof. intros w a w'. discriminate. Qed.

Lemma returns_only_except_Exception {A} (P : A -> Prop) p (m : M A) :
  returns_only P m -> returns_only P (except_Exception p m).
Proof.
  intros Hm w a w'. unfold except_Exception.
  destruct (m w) as [[x|e] w1] eqn:E; [|discriminate].
  intros [= <- _]. eapply Hm; eauto.
Qed.

Lemma returns_only_except_reraise {A} (P : A -> Prop) p (m : M A) :
  returns_only P m -> returns_only P (except_HTTPException_reraise p m).
Proof.
  intros Hm w a w'. unfold except_HTTPException_reraise.
  destruct (m w) as [[x|e] w1] eqn:E.
  - intros [= <- _]. eapply Hm; eauto.
  - destruct e; discriminate.
Qed.

(** The model [Task] does not read the key [id]. *)
Lemma returns_only_Task_init x :
  returns_only (fun t => Task.id t = None) (lift (Task_init x)).
Proof.
  intros w t w'. rewrite lift_run. unfold Task_init.
  destruct (Task.valid x); [|discriminate]. now intros [= <- _].
Qed.

Lemma returns_only_Task_of_found x :
  returns_only (fun t => Task.id t = None) (Task_of_found x).
Proof.
  destruct x as [d|]; [apply returns_only_Task_init | apply returns_only_raise].
Qed.

Lemma returns_only_mapM {A B} (P : B -> Prop) (f : A -> M B) l :
  (forall x, returns_only P (f x)) -> returns_only (Forall P) (mapM f l).
Proof.
  intros Hf. induction l as [|x l IH]; intros w r w'; cbn [mapM].
  - rewrite mret_run. intros [= <- _]. constructor.
  - unfold mbind, M_bind.
    destruct (f x w) as [[b|e] w1] eqn:E1; [|discriminate].
    destruct (mapM f l w1) as [[bs|e] w2] eqn:E2; [|discriminate].
    rewrite mret_run. intros [= <- _].
    constructor; [eapply Hf | eapply IH]; eauto.
Qed.

Lemma returns_only_sync_one now task :
  returns_only (fun t => Task.id t = None) (sync_one now task).
Proof.
  unfold sync_one. apply returns_only_bind. intros [oid task_dict].
  do 2 (apply returns_only_bind; intros ?).
  apply returns_only_Task_of_found.
Qed.

(** X24.  No record of a response carries an identifier: in every record
    that Create, Get or Update returns, and in every record of the lists that
    List and Sync return, the field [id] is empty. *)
Theorem responses_carry_no_identifier (w w' : World) :
  (forall task_data t,
     create_task task_data w = (Return t, w') -> Task.id t = None)
  /\ (forall category priority completed limit r,
        get_tasks category priority completed limit w = (Return r, w') ->
        Forall (fun t => Task.id t = None) r)
  /\ (forall task_id t, get_task task_id w = (Return t, w') -> Task.id t = None)
  /\ (forall task_id task_update t,
        update_task task_id task_update w = (Return t, w') -> Task.id t = None)
  /\ (forall sync_request r,
        sync_tasks sync_request w = (Return r, w') ->
        Forall (fun t => Task.id t = None) (SyncResponse.tasks r)).
Proof.
  split; [|split; [|split; [|split]]].
  - intros task_data t. revert w t w'.
    apply returns_only_except_Exception.
    do 4 (apply returns_only_bind; intros ?).
    apply returns_only_Task_of_found.
  - intros category priority completed limit r. revert w r w'.
    apply returns_only_except_Exception.
    apply returns_only_bind. intros ds.
    apply returns_only_mapM. intros d. apply returns_only_Task_init.
  - intros task_id t. revert w t w'.
    apply returns_only_except_reraise.
    destruct (negb (is_valid task_id)); [apply returns_only_raise|].
    do 2 (apply returns_only_bind; intros ?).
    match goal with |- returns_only _ (match ?x with _ => _ end) => destruct x end;
      [apply returns_only_Task_init | apply returns_only_raise].
  - intros task_id task_update t. revert w t w'.
    apply returns_only_except_reraise.
    destruct (negb (is_valid task_id)); [apply returns_only_raise|].
    cbv zeta. destruct (update_data_of task_update); [apply returns_only_raise|].
    do 3 (apply returns_only_bind; intros ?).
    match goal with |- returns_only _ (if ?b then _ else _) => destruct b end;
      [apply returns_only_raise|].
    do 2 (apply returns_only_bind; intros ?).
    apply returns_only_Task_of_found.
  - intros sync_request r H.
    unfold sync_tasks, except_Exception in H.
    destruct (_ ≫= _) as [[x|e] w1] eqn:E in H; [|discriminate].
    injection H as -> _.
    unfold mbind, M_bind in E. rewrite datetime_now_run in E.
    destruct (delete_many _ _) as [[n|e] w2] in E; [|discriminate].
    destruct (mapM _ _ w2) as [[ts|e] w3] eqn:E3 in E; [|discriminate].
    rewrite mret_run in E. injection E as <- _. cbn [SyncResponse.tasks].
    eapply (returns_only_mapM _ _ _ (returns_only_sync_one _)); exact E3.
Qed.

(** ** Stats: the tasks due today and this week *)

Lemma leb_compare a b :
  String.leb a b = match String.compare a b with Gt => false | _ => true end.
Proof. reflexivity. Qed.

(** A timestamp printed by [isoformat] lies, as a string, between the first
    instant of the day of [a] and the last instant of the day of [b] exactly
    when its day is neither before that of [a] nor after that of [b]. *)
Lemma window_isoformat a b t :
  valid_date a -> valid_date b -> valid_date t -> valid_time t ->
  String.leb (isoformat (replace_time a 0 0 0 0)) (isoformat t)
  && String.leb (isoformat t) (isoformat (replace_time b 23 59 59 999999))
  = date_leb a t && date_leb t b.
Proof.
  intros Ha Hb Ht Hv. rewrite !leb_compare, !isoformat_split.
  change (strftime_Ymd (replace_time a 0 0 0 0)) with (strftime_Ymd a).
  change (strftime_Ymd (replace_time b 23 59 59 999999)) with (strftime_Ymd b).
  rewrite !string_compare_app by (now rewrite !strftime_Ymd_length).
  rewrite !strftime_Ymd_compare by assumption.
  destruct (time_part_bounds t a Hv) as [H1 _].
  destruct (time_part_bounds t b Hv) as [_ H2].
  unfold date_leb. f_equal.
  - destruct (date_compare a t); try reflexivity.
    destruct (String.compare _ (time_part t)); try reflexivity. now contradict H1.
  - destruct (date_compare t b); try reflexivity.
    destruct (String.compare (time_part t) _); try reflexivity. now contradict H2.
Qed.

Lemma matches_between_dueDate lo hi d :
  matches [between K_dueDate lo hi] d
  = String.leb lo (TaskDict.dueDate (data d))
    && String.leb (TaskDict.dueDate (data d)) hi.
Proof.
  unfold matches, between. cbn [forallb condition_holds get_key operator_holds].
  now rewrite !andb_true_r.
Qed.

Lemma replace_time_same_date a b h m s us :
  same_date a b -> replace_time a h m s us = replace_time b h m s us.
Proof. intros (Hy & Hm & Hd). unfold replace_time. now rewrite Hy, Hm, Hd. Qed.

(** Going forward whole days touches the date only. *)
Lemma datetime_add_days t i :
  valid_time t ->
  datetime_add t (timedelta_of 0 i 0 0 0) =
  (let '(y, m, d) := ord2ymd (toordinal t + i) in
   mk_datetime y m d (hour t) (minute t) (second t) (microsecond t)).
Proof.
  intros Hv.
  assert (E : datetime_add t (timedelta_of 0 i 0 0 0)
              = datetime_sub t (timedelta_of 0 (- i) 0 0 0)).
  { unfold datetime_sub, timedelta_of. cbn [td_days td_seconds td_microseconds].
    change (0 * 3600 + 0 * 60 + 0) with 0.
    change (0 mod 86400) with 0. change (0 / 86400) with 0.
    f_equal. f_equal; lia. }
  rewrite E, datetime_sub_days by exact Hv.
  now replace (toordinal t - - i) with (toordinal t + i) by lia.
Qed.

Lemma date_eqb_leb a b : date_leb a b && date_leb b a = date_eqb b a.
Proof.
  unfold date_leb, date_eqb. rewrite (date_compare_antisym b a).
  now destruct (date_compare b a).
Qed.

(** The counts of a window of days over due dates printed by [isoformat]. *)
Lemma count_window a b (due : Document -> datetime) coll :
  valid_date a -> valid_date b ->
  Forall (fun d => TaskDict.dueDate (data d) = isoformat (due d)
                   /\ valid_date (due d) /\ valid_time (due d)) coll ->
  count [between K_dueDate (isoformat (replace_time a 0 0 0 0))
                           (isoformat (replace_time b 23 59 59 999999))] coll
  = Z.of_nat (length (List.filter
      (fun d => date_leb a (due d) && date_leb (due d) b) coll)).
Proof.
  intros Ha Hb Hall. unfold count. do 2 f_equal.
  induction Hall as [|d l (Hdue & Hvd & Hvt) Hl IH]; [done|].
  cbn [List.filter]. rewrite IH, matches_between_dueDate, Hdue.
  now rewrite window_isoformat.
Qed.

(** X23.  When the readings of the clock from which Stats computes the
    windows of today and of this week are readings of one calendar day, and
    the due dates of the stored tasks are printed by [isoformat] from fields
    in range, the count of today is the number of tasks due on that day, and
    the count of the week is the number of tasks due from the Monday on or
    before that day to the Sunday six days later. *)
Theorem today_and_week_counts
  (w : World) (today : datetime) (due : Document -> datetime) :
  (forall k, (1 <= k <= 6)%nat ->
             valid_time (clock w (clock_reads w + k))
             /\ same_date (clock w (clock_reads w + k)) today) ->
  valid_date today ->
  valid_date (days_ago today (weekday today)) ->
  valid_date (days_ago today (weekday today - 6)) ->
  Forall (fun d => TaskDict.dueDate (data d) = isoformat (due d)
                   /\ valid_date (due d) /\ valid_time (due d)) (tasks w) ->
  exists r w',
    get_stats w = (Return r, w')
    /\ Overview.todayTasks (Stats.overview r)
       = Z.of_nat (length (List.filter (fun d => date_eqb (due d) today) (tasks w)))
    /\ Overview.weekTasks (Stats.overview r)
       = Z.of_nat (length (List.filter
           (fun d => date_leb (days_ago today (weekday today)) (due d)
                     && date_leb (due d) (days_ago today (weekday today - 6)))
           (tasks w)))
    /\ weekday (days_ago today (weekday today)) = 0
    /\ toordinal (days_ago today (weekday today)) <= toordinal today
    /\ toordinal today <= toordinal (days_ago today (weekday today - 6))
    /\ toordinal (days_ago today (weekday today - 6))
       = toordinal (days_ago today (weekday today)) + 6.
Proof.
  intros Hclk Hd Hmon Hsun Hall.
  exists (stats_report w), (advance 15 21 w).
  split; [apply get_stats_run|].
  unfold stats_report. cbn [Stats.overview Overview.todayTasks Overview.weekTasks].
  destruct (Hclk 1%nat) as [_ H1]; [lia|].
  destruct (Hclk 2%nat) as [_ H2]; [lia|].
  destruct (Hclk 3%nat) as [Hv3 H3]; [lia|].
  destruct (Hclk 4%nat) as [_ H4]; [lia|].
  destruct (Hclk 5%nat) as [Hv5 H5]; [lia|].
  destruct (Hclk 6%nat) as [_ H6]; [lia|].
  split.
  { rewrite (replace_time_same_date _ _ 0 0 0 0 H1),
      (replace_time_same_date _ _ 23 59 59 999999 H2).
    rewrite (count_window today today due) by assumption.
    do 2 f_equal. apply List.filter_ext. intros d. apply date_eqb_leb. }
  split.
  { assert (Es : replace_time
                   (datetime_sub (clock w (clock_reads w + 3))
                      (timedelta_of 0 (weekday (clock w (clock_reads w + 4))) 0 0 0))
                   0 0 0 0
                 = replace_time (days_ago today (weekday today)) 0 0 0 0).
    { change (replace_time (datetime_sub ?a (timedelta_of 0 (weekday ?b) 0 0 0)) 0 0 0 0)
        with (week_start_of 0 a b).
      rewrite (week_start_of_same_day today _ _ 0 Hv3 H3 H4).
      unfold monday_of. change (7 * 0 + weekday today) with (weekday today).
      unfold days_ago. now destruct (ord2ymd _) as [[y m] d]. }
    assert (Ee : replace_time
                   (datetime_add (clock w (clock_reads w + 5))
                      (timedelta_of 0 (6 - weekday (clock w (clock_reads w + 6))) 0 0 0))
                   23 59 59 999999
                 = replace_time (days_ago today (weekday today - 6)) 23 59 59 999999).
    { rewrite datetime_add_days by exact Hv5.
      assert (Hw : weekday (clock w (clock_reads w + 6)) = weekday today).
      { unfold weekday. now rewrite (same_date_toordinal _ _ H6). }
      rewrite Hw, (same_date_toordinal _ _ H5). unfold days_ago.
      replace (toordinal today - (weekday today - 6))
        with (toordinal today + (6 - weekday today)) by lia.
      now destruct (ord2ymd _) as [[y m] d]. }
    rewrite Es, Ee. now apply count_window. }
  rewrite !toordinal_days_ago. unfold weekday at 1. rewrite toordinal_days_ago.
  unfold weekday. repeat split; Z.div_mod_to_equations; lia.
Qed.

(** ** Concrete runs *)

Lemma run_outcome {A} (m : M A) w o : fst (m w) = o -> m w = (o, snd (m w)).
Proof. intros <-. now destruct (m w). Qed.

(** The score is not bounded by 100: one completed task, none overdue. *)
Example productivity_score_above_100 :
  exists r w', get_stats Ex.w_done = (Return r, w')
    /\ Overview.completionRate (Stats.overview r) = PyFloat 100
    /\ Insights.productivityScore (Stats.insights r) = PyFloat 110.
Proof.
  exists (stats_report Ex.w_done), (advance 15 21 Ex.w_done).
  split; [apply get_stats_run|]. split; vm_compute; reflexivity.
Qed.

(** The score is not bounded by 0: two pending tasks, one of them overdue. *)
Example productivity_score_below_0 :
  exists r w', get_stats Ex.w2 = (Return r, w')
    /\ Overview.overdueTask (Stats.overview r) = 1
    /\ Insights.productivityScore (Stats.insights r) = PyFloat (-2).
Proof.
  exists (stats_report Ex.w2), (advance 15 21 Ex.w2).
  split; [apply get_stats_run|]. split; vm_compute; reflexivity.
Qed.

(** C5, counterexample.  Eighty tasks, twenty-three of them completed, none
    overdue: the overview reports the completion rate 28.7 (the double
    [23 / 80 * 100] is just below 28.75) and the insights the score 38.8 (the
    sum of that double and 10 is 38.75); the reported rate plus 10, rounded
    to one decimal, is 38.7. *)
Lemma productivity_score_not_from_the_reported_rate :
  exists r w',
    get_stats Ex.w_80 = (Return r, w')
    /\ Overview.totalTasks (Stats.overview r) = 80
    /\ Overview.completedTasks (Stats.overview r) = 23
    /\ Overview.overdueTask (Stats.overview r) = 0
    /\ Overview.completionRate (Stats.overview r) = PyFloat (round_double (287 # 10))
    /\ Insights.productivityScore (Stats.insights r)
       = PyFloat (round_double (388 # 10))
    /\ py_round1 (py_add (Overview.completionRate (Stats.overview r)) (PyInt 10))
       = PyFloat (round_double (387 # 10))
    /\ ~ rounded_to_one_decimal
           (py_add (Overview.completionRate (Stats.overview r)) (PyInt 10))
           (Insights.productivityScore (Stats.insights r)).
Proof.
  exists (stats_report Ex.w_80), (advance 15 21 Ex.w_80).
  split; [apply get_stats_run|].
  assert (Hrate : Overview.completionRate (Stats.overview (stats_report Ex.w_80))
                  = PyFloat (round_double (287 # 10)))
    by (vm_compute; reflexivity).
  assert (Hscore : Insights.productivityScore (Stats.insights (stats_report Ex.w_80))
                   = PyFloat (round_double (388 # 10)))
    by (vm_compute; reflexivity).
  assert (Hsum : py_round1 (py_add (PyFloat (round_double (287 # 10))) (PyInt 10))
                 = PyFloat (round_double (387 # 10)))
    by (vm_compute; reflexivity).
  rewrite Hrate, Hscore, Hsum.
  do 3 (split; [vm_compute; reflexivity|]).
  do 3 (split; [reflexivity|]).
  intros H.
  pose proof (rounded_to_one_decimal_unique _ _ _ H (py_round1_rounded _)) as E.
  rewrite Hsum in E. vm_compute in E. discriminate E.
Qed.

(** C2, counterexample.  The clock of [Ex.w0] advances by a microsecond at
    each reading: the record that Get returns after Create has an [updatedAt]
    that differs from its [createdAt]. *)
Lemma create_then_get_timestamps_differ :
  exists t w1 d t' w2,
    create_task Ex.buy_milk Ex.w0 = (Return t, w1)
    /\ tasks w1 = [d]
    /\ get_task (oid_str (_id d)) w1 = (Return t', w2)
    /\ Task.createdAt t' = "2025-01-15T10:30:00"
    /\ Task.updatedAt t' = Some "2025-01-15T10:30:00.000001"
    /\ Task.updatedAt t' <> Some (Task.createdAt t').
Proof.
  eexists _, _, (created_document Ex.buy_milk Ex.w0), _, _.
  split.
  { apply create_task_run; [reflexivity|]. apply not_elem_of_nil. }
  split; [reflexivity|].
  split.
  { apply (get_task_found _ (Ex.oid_nth 0) (created_document Ex.buy_milk Ex.w0)).
    - vm_compute. reflexivity.
    - apply (find_by_id_new _ []). apply not_elem_of_nil.
    - reflexivity. }
  split; [reflexivity|]. split; [reflexivity|]. discriminate.
Qed.

(** C3, counterexample.  Two tasks of the request carry the same well-formed
    identifier: the second insertion is refused, Sync answers 500, and the
    collection, emptied of its two records, holds the first task only. *)
Lemma sync_same_identifier_twice_fails :
  exists detail w',
    sync_tasks Ex.same_id_request Ex.w2 = (Raise (HTTPException 500 detail), w')
    /\ map (fun d => TaskDict.title (data d)) (tasks Ex.w2) = ["Buy milk"; "Write report"]
    /\ map (fun d => TaskDict.title (data d)) (tasks w') = ["S1"].
Proof.
  exists "Failed to sync tasks: E11000 duplicate key error",
         (snd (sync_tasks Ex.same_id_request Ex.w2)).
  split; [apply run_outcome|split]; vm_compute; reflexivity.
Qed.

(** C4, the failing run.  Midnight passes between the first and the second
    turn of the loop, whose readings are 15 January 23:59:59.999999 and then
    16 January 00:00:00.000001: the trend has two entries for 15 January and
    none for 16 January, nor for 9 January. *)
Lemma daily_trend_across_midnight :
  exists r w',
    get_stats Ex.w_midnight = (Return r, w')
    /\ map DailyStat.date (Stats.dailyTrends r)
       = ["2025-01-10"; "2025-01-11"; "2025-01-12"; "2025-01-13";
          "2025-01-14"; "2025-01-15"; "2025-01-15"].
Proof.
  exists (stats_report Ex.w_midnight), (advance 15 21 Ex.w_midnight).
  split; [apply get_stats_run|]. vm_compute. reflexivity.
Qed.

(** C7, counterexample.  The identifier is well formed and the collection is
    empty, yet an Update with an empty body answers 400, not 404. *)
Lemma update_empty_body_unknown_identifier :
  is_valid "507f1f77bcf86cd799439011" = true
  /\ tasks Ex.w0 = []
  /\ update_task "507f1f77bcf86cd799439011" empty_update Ex.w0
     = (Raise (HTTPException 400 "No valid update data provided"), Ex.w0).
Proof.
  split; [vm_compute; reflexivity|]. split; [reflexivity|].
  unfold update_task.
  replace (is_valid "507f1f77bcf86cd799439011") with true
    by (vm_compute; reflexivity).
  reflexivity.
Qed.

(** The identifiers that [ObjectId] accepts: twenty-four characters that
    [bytes.fromhex] reads, digits of either case and blanks between the
    bytes included. *)
Example identifier_formats :
  is_valid "507f1f77bcf86cd799439011" = true
  /\ is_valid "507F1F77BCF86CD799439011" = true
  /\ is_valid "50 7f 1f77bcf86cd7994390" = true
  /\ is_valid " 507f1f77bcf86cd7994390 " = true
  /\ is_valid "5 07f1f77bcf86cd7994390 " = false
  /\ is_valid "507f1f77bcf86cd79943901" = false
  /\ is_valid "507f1f77bcf86cd79943901g" = false
  /\ is_valid "" = false.
Proof. repeat split; vm_compute; reflexivity. Qed.

(** An identifier with blanks passes the check of the format: the store is
    queried and Get answers 404. *)
Example get_task_identifier_with_blanks :
  get_task "50 7f 1f77bcf86cd7994390" Ex.w2
  = (Raise (HTTPException 404 "Task not found"), advance 0 1 Ex.w2).
Proof. vm_compute. reflexivity. Qed.

(** Sync keeps a supplied identifier with blanks: the document is stored
    under the eleven bytes that were read. *)
Example sync_identifier_with_blanks :
  map (fun d => (oid_str (_id d), TaskDict.id (data d)))
      (tasks (snd (sync_tasks
                     (SyncRequest.mk
                        [Task.mk (Some "50 7f 1f77bcf86cd7994390") "S"
                                 "2025-02-01T00:00:00" "high" "work" false
                                 "2025-01-10T08:00:00" None None None]
                        None)
                     Ex.w2)))
  = [("507f1f77bcf86cd7994390", Some "50 7f 1f77bcf86cd7994390")].
Proof. vm_compute. reflexivity. Qed.

(** A response 500 can follow a write that was applied: the stored document
    holds a priority that the model [Task] refuses, Update renames it and
    then fails to build its response. *)
Example update_answers_500_after_the_write :
  exists detail w',
    update_task "507f1f77bcf86cd799439011"
      (TaskUpdate.mk (Some "New") None None None None None) Ex2.w_foreign
    = (Raise (HTTPException 500 detail), w')
    /\ map (fun d => TaskDict.title (data d)) (tasks Ex2.w_foreign) = ["Old"]
    /\ map (fun d => TaskDict.title (data d)) (tasks w') = ["New"].
Proof.
  eexists _, _. split; [|split].
  - apply run_outcome. vm_compute. reflexivity.
  - reflexivity.
  - vm_compute. reflexivity.
Qed.

(** [round_double] against the binary64 arithmetic of the Standard Library:
    the quotient, its product with 100 and the sum of that and 10 agree for
    every completed count up to a total of 100. *)
Example round_double_agrees_with_binary64 :
  forallb (fun b => forallb (fun a => agrees_with_binary64 (Z.of_nat a) (Z.of_nat b))
                            (seq 0 (S b)))
          (seq 1 100) = true.
Proof. vm_compute. reflexivity. Qed.

(** ** The theorems at concrete inputs *)

(** C2 at the creation of "Buy milk" in the empty world; the clock of
    [Ex.w0] advances, that of [Ex.w0_frozen] does not. *)
Lemma create_then_get_witness :
  TaskCreate.valid Ex.buy_milk = true
  /\ (oid_source Ex.w0 (oid_count Ex.w0) ∉ map _id (tasks Ex.w0))
  /\ oid_full (oid_source Ex.w0 (oid_count Ex.w0))
  /\ exists t w1 d t' w2,
       create_task Ex.buy_milk Ex.w0 = (Return t, w1)
       /\ tasks w1 = tasks Ex.w0 ++ [d]
       /\ get_task (oid_str (_id d)) w1 = (Return t', w2)
       /\ t' = t
       /\ Task.title t' = "Buy milk"
       /\ Task.completed t' = false
       /\ Task.createdAt t' = "2025-01-15T10:30:00"
       /\ Task.updatedAt t' = Some "2025-01-15T10:30:00.000001".
Proof.
  assert (Hv : TaskCreate.valid Ex.buy_milk = true) by (vm_compute; reflexivity).
  assert (Hf : oid_source Ex.w0 (oid_count Ex.w0) ∉ map _id (tasks Ex.w0))
    by apply not_elem_of_nil.
  assert (Hfull : oid_full (oid_source Ex.w0 (oid_count Ex.w0)))
    by (vm_compute; reflexivity).
  split; [exact Hv|]. split; [exact Hf|]. split; [exact Hfull|].
  destruct (create_then_get Ex.buy_milk Ex.w0 Hv Hf Hfull)
    as (t & w1 & d & t' & w2 & H1 & H2 & _ & H4 & H5 & H6 & _ & _ & _ & _ & H11
        & H12 & H13 & _).
  exists t, w1, d, t', w2.
  split; [exact H1|]. split; [exact H2|]. split; [exact H4|]. split; [exact H5|].
  split; [exact H6|]. split; [exact H11|]. split; [exact H12 | exact H13].
Defined.

(** C3 at a request of two tasks without identifier, in a world that holds
    two other tasks. *)
Lemma sync_replaces_the_collection_witness :
  SyncRequest.valid Ex.no_id_request = true
  /\ NoDup (sync_oids (oid_source Ex.w2) (oid_count Ex.w2)
              (SyncRequest.tasks Ex.no_id_request))
  /\ exists w',
       sync_tasks Ex.no_id_request Ex.w2 =
       (Return (SyncResponse.mk
                  (map (synced_task (isoformat (clock Ex.w2 (clock_reads Ex.w2))))
                     (SyncRequest.tasks Ex.no_id_request))
                  []
                  (isoformat (clock Ex.w2 (clock_reads Ex.w2)))),
        w')
       /\ map _id (tasks w')
          = sync_oids (oid_source Ex.w2) (oid_count Ex.w2)
              (SyncRequest.tasks Ex.no_id_request)
       /\ map record_of (tasks w') =
          map (synced_task (isoformat (clock Ex.w2 (clock_reads Ex.w2))))
            (SyncRequest.tasks Ex.no_id_request).
Proof.
  assert (Hv : SyncRequest.valid Ex.no_id_request = true) by (vm_compute; reflexivity).
  assert (Hnd : NoDup (sync_oids (oid_source Ex.w2) (oid_count Ex.w2)
                         (SyncRequest.tasks Ex.no_id_request))).
  { apply (bool_decide_unpack _). vm_compute. exact I. }
  split; [exact Hv|]. split; [exact Hnd|].
  destruct (sync_replaces_the_collection Ex.no_id_request Ex.w2 Hv Hnd)
    as (w' & H1 & _ & H3 & H4).
  exists w'. split; [exact H1|]. split; [exact H3 | exact H4].
Defined.

(** What Sync returns for that request, and what it leaves in the store. *)
Example sync_two_tasks_without_identifier :
  map (fun t => (Task.id t, Task.title t, Task.updatedAt t))
      (match fst (sync_tasks Ex.no_id_request Ex.w2) with
       | Return r => SyncResponse.tasks r
       | Raise _ => []
       end)
  = [(None, "Sync Task 1", Some "2025-01-15T10:30:00.000004");
     (None, "Sync Task 2", Some "2025-01-15T10:30:00.000004")]
  /\ map (fun d => (oid_str (_id d), TaskDict.title (data d)))
         (tasks (snd (sync_tasks Ex.no_id_request Ex.w2)))
     = [("65a000000000000000000002", "Sync Task 1");
        ("65a000000000000000000003", "Sync Task 2")].
Proof. split; vm_compute; reflexivity. Qed.

(** X25 at a world whose clock stays within 15 January 2025. *)
Lemma daily_trend_covers_the_last_seven_days_witness :
  (forall k, (7 <= k < 14)%nat ->
             valid_time (clock Ex.w2 (clock_reads Ex.w2 + k))
             /\ same_date (clock Ex.w2 (clock_reads Ex.w2 + k)) (Ex.tick 0))
  /\ exists r w',
       get_stats Ex.w2 = (Return r, w')
       /\ Stats.dailyTrends r
          = map (fun i => daily_entry (tasks Ex.w2) (days_ago (Ex.tick 0) i))
                [6; 5; 4; 3; 2; 1; 0]
       /\ Forall (fun e => exists i, 0 <= i <= 6
            /\ DailyStat.date e = strftime_Ymd (days_ago (Ex.tick 0) i)
            /\ DailyStat.created e
               = Z.of_nat (length (List.filter
                    (fun d => in_day (days_ago (Ex.tick 0) i)
                                (TaskDict.createdAt (data d)))
                    (tasks Ex.w2)))
            /\ DailyStat.completed e
               = Z.of_nat (length (List.filter
                    (fun d => in_day (days_ago (Ex.tick 0) i)
                                (TaskDict.createdAt (data d))
                              && TaskDict.completed (data d))
                    (tasks Ex.w2)))
            /\ DailyStat.completionRate e
               = pct (DailyStat.completed e) (DailyStat.created e))
          (Stats.dailyTrends r)
       /\ (forall i, toordinal (days_ago (Ex.tick 0) i) = toordinal (Ex.tick 0) - i).
Proof.
  assert (H : forall k, (7 <= k < 14)%nat ->
             valid_time (clock Ex.w2 (clock_reads Ex.w2 + k))
             /\ same_date (clock Ex.w2 (clock_reads Ex.w2 + k)) (Ex.tick 0)).
  { intros k Hk. change (clock Ex.w2) with Ex.tick.
    change (clock_reads Ex.w2) with 4%nat.
    unfold valid_time, same_date, Ex.tick.
    cbn [year month day hour minute second microsecond]. lia. }
  split; [exact H|].
  apply (daily_trend_covers_the_last_seven_days Ex.w2 (Ex.tick 0)). exact H.
Defined.

(** C8 at a world with two tasks. *)
Lemma update_without_fields_rejected_witness :
  is_valid "65a000000000000000000000" = true
  /\ update_task "65a000000000000000000000" empty_update Ex.w2
     = (Raise (HTTPException 400 "No valid update data provided"), Ex.w2).
Proof.
  split; [vm_compute; reflexivity|].
  apply (update_without_fields_rejected "65a000000000000000000000" Ex.w2).
  vm_compute; reflexivity.
Defined.

(** C10 at a world whose first task is completed. *)
Lemma update_completed_false_is_applied_witness :
  ObjectId_new "65a000000000000000000000" = Return (Ex.oid_nth 0)
  /\ (exists d,
        List.find (matches (by_id (Ex.oid_nth 0))) (tasks Ex.w3) = Some d
        /\ TaskDict.completed (data d) = true
        /\ Is_true (Task.valid (task_helper d))
        /\ exists t d' w',
             update_task "65a000000000000000000000"
               (TaskUpdate.mk None None None None (Some false) None) Ex.w3
             = (Return t, w')
             /\ Task.completed t = false
             /\ Task.updatedAt t = Some (isoformat (clock Ex.w3 (clock_reads Ex.w3)))
             /\ Task.title t = TaskDict.title (data d)
             /\ List.find (matches (by_id (Ex.oid_nth 0))) (tasks w') = Some d'
             /\ record_of d' = t).
Proof.
  assert (Ho : ObjectId_new "65a000000000000000000000" = Return (Ex.oid_nth 0))
    by (vm_compute; reflexivity).
  split; [exact Ho|].
  destruct (List.find (matches (by_id (Ex.oid_nth 0))) (tasks Ex.w3)) as [d|] eqn:Hd.
  2:{ exfalso. vm_compute in Hd. discriminate Hd. }
  assert (Hc : TaskDict.completed (data d) = true).
  { vm_compute in Hd. injection Hd as <-. reflexivity. }
  assert (Hv : Is_true (Task.valid (task_helper d))).
  { vm_compute in Hd. injection Hd as <-. exact I. }
  exists d. split; [reflexivity|]. split; [exact Hc|]. split; [exact Hv|].
  destruct (update_completed_false_is_applied "65a000000000000000000000"
              (Ex.oid_nth 0) d Ex.w3 Ho Hd Hv)
    as (t & d' & w' & H1 & H2 & H3 & H4 & _ & _ & _ & _ & _ & _ & H11 & _ & H13).
  exists t, d', w'. split; [exact H1|]. split; [exact H2|]. split; [exact H3|].
  split; [exact H4|]. split; [exact H11 | exact H13].
Defined.

(** C7 at the first task of a world with two tasks: it is deleted, and a
    second Delete answers 404. *)
Lemma malformed_and_missing_identifiers_witness :
  unique_ids Ex.w2
  /\ exists r w',
       delete_task "65a000000000000000000000" Ex.w2 = (Return r, w')
       /\ delete_task "65a000000000000000000000" w'
          = (Raise (HTTPException 404 "Task not found"), advance 0 1 w').
Proof.
  assert (Hu : unique_ids Ex.w2).
  { apply (bool_decide_unpack _). vm_compute. exact I. }
  assert (Hd : delete_task "65a000000000000000000000" Ex.w2
               = (Return (DeleteResponse.mk "Task deleted successfully"
                            "65a000000000000000000000"),
                  snd (delete_task "65a000000000000000000000" Ex.w2))).
  { apply run_outcome. vm_compute. reflexivity. }
  split; [exact Hu|].
  eexists _, _. split; [exact Hd|].
  exact (proj2 (proj2 (malformed_and_missing_identifiers
                         "65a000000000000000000000" Ex.w2)) _ _ Hu Hd).
Defined.

(** C9 at the category "work" in a world with a task of that category and
    one of another. *)
Lemma list_filters_by_category_and_priority_witness :
  "work" ∈ ["work"; "personal"; "study"]
  /\ 0 <= 100
  /\ stored_valid Ex.w2
  /\ exists r,
       get_tasks (Some "work") None None 100 Ex.w2 = (Return r, advance 0 1 Ex.w2)
       /\ Forall (fun t => Task.category t = "work") r.
Proof.
  assert (Hc : "work" ∈ ["work"; "personal"; "study"]) by left.
  assert (Hl : 0 <= 100) by lia.
  assert (Hv : stored_valid Ex.w2).
  { apply (bool_decide_unpack _). vm_compute. exact I. }
  split; [exact Hc|]. split; [exact Hl|]. split; [exact Hv|].
  pose proof (list_filters_by_category_and_priority
                "work" "high" (Some "work") None None 100 Ex.w2) as (H1 & _ & _ & _ & H5).
  destruct (H5 Hl Hv) as [r Hr].
  exists r. split; [exact Hr|]. exact (H1 Hc r _ Hr).
Defined.

(** The window of 15 January 2025 holds a timestamp of that day. *)
Lemma in_day_isoformat_witness :
  valid_date (Ex.tick 0) /\ valid_date (Ex.tick 5) /\ valid_time (Ex.tick 5)
  /\ (in_day (Ex.tick 0) (isoformat (Ex.tick 5)) = true
      <-> same_date (Ex.tick 5) (Ex.tick 0)).
Proof.
  assert (H0 : valid_date (Ex.tick 0)) by (unfold valid_date; cbn; lia).
  assert (H5 : valid_date (Ex.tick 5)) by (unfold valid_date; cbn; lia).
  assert (Hv : valid_time (Ex.tick 5)) by (unfold valid_time; cbn; lia).
  split; [exact H0|]. split; [exact H5|]. split; [exact Hv|].
  exact (in_day_isoformat (Ex.tick 0) (Ex.tick 5) H0 H5 Hv).
Defined.

(** ** The further properties at concrete inputs *)

Lemma Ex_w2_stored_valid : stored_valid Ex.w2.
Proof. apply (bool_decide_unpack _). vm_compute. exact I. Qed.

Lemma Ex_w2_unique_ids : unique_ids Ex.w2.
Proof. apply (bool_decide_unpack _). vm_compute. exact I. Qed.

Lemma Ex_oid_nth_0 : ObjectId_new Ex2.id0 = Return (Ex.oid_nth 0).
Proof. vm_compute. reflexivity. Qed.

(** List with limit 1 in a world with two tasks. *)
Lemma list_returns_the_most_recent_first_witness :
  0 <= 1 /\ stored_valid Ex.w2
  /\ exists r rest,
       get_tasks None None None 1 Ex.w2 = (Return r, advance 0 1 Ex.w2)
       /\ StronglySorted not_older (r ++ rest)
       /\ length r = Nat.min (Z.to_nat 1) (length (r ++ rest)).
Proof.
  assert (Hl : 0 <= 1) by lia.
  split; [exact Hl|]. split; [exact Ex_w2_stored_valid|].
  destruct (list_returns_the_most_recent_first None None None 1 Ex.w2 Hl
              Ex_w2_stored_valid) as (r & rest & H1 & _ & H3 & H4 & _).
  exists r, rest. split; [exact H1|]. split; [exact H3 | exact H4].
Defined.

(** List of the tasks that are not completed. *)
Lemma list_filters_by_completed_witness :
  exists r w',
    get_tasks None None (Some false) 100 Ex.w2 = (Return r, w')
    /\ Forall (fun t => Task.completed t = false) r
    /\ tasks w' = tasks Ex.w2.
Proof.
  assert (Hl : 0 <= 100) by lia.
  destruct (get_tasks_returns None None (Some false) 100 Ex.w2 Hl Ex_w2_stored_valid)
    as [r Hr].
  exists r, (advance 0 1 Ex.w2). split; [exact Hr|].
  exact (list_filters_by_completed None None false 100 Ex.w2 _ r Hr).
Defined.

(** Update of the first task of a world with two tasks. *)
Lemma update_changes_the_supplied_fields_only_witness :
  ObjectId_new Ex2.id0 = Return (Ex.oid_nth 0)
  /\ TaskUpdate.valid Ex2.rename = true
  /\ Ex2.rename <> empty_update
  /\ exists d t w',
       List.find (matches (by_id (Ex.oid_nth 0))) (tasks Ex.w2) = Some d
       /\ Is_true (Task.valid (task_helper d))
       /\ update_task Ex2.id0 Ex2.rename Ex.w2 = (Return t, w')
       /\ Task.title t = "Buy oat milk"
       /\ Task.priority t = "high"
       /\ Task.category t = TaskDict.category (data d)
       /\ Task.notificationId t = Some "n-2"
       /\ get_task Ex2.id0 w' = (Return t, advance 0 1 w').
Proof.
  assert (Hv : TaskUpdate.valid Ex2.rename = true) by (vm_compute; reflexivity).
  assert (Hne : Ex2.rename <> empty_update) by discriminate.
  split; [exact Ex_oid_nth_0|]. split; [exact Hv|]. split; [exact Hne|].
  destruct (List.find (matches (by_id (Ex.oid_nth 0))) (tasks Ex.w2)) as [d|] eqn:Hd.
  2:{ exfalso. vm_compute in Hd. discriminate Hd. }
  assert (Hvd : Is_true (Task.valid (task_helper d))).
  { vm_compute in Hd. injection Hd as <-. exact I. }
  destruct (update_changes_the_supplied_fields_only Ex2.id0 (Ex.oid_nth 0) d
              Ex2.rename Ex.w2 Ex_oid_nth_0 Hd Hvd Hv Hne)
    as (t & d' & w' & l1 & l2 & H1 & _ & H3 & _ & H5 & H6 & _ & H8 & _ & _ & _ & _
        & _ & _ & _ & H16).
  exists d, t, w'. split; [reflexivity|]. split; [exact Hvd|].
  split; [exact H1|]. split; [exact H3|]. split; [exact H5|].
  split; [exact H6|]. split; [exact H8 | exact H16].
Defined.

(** Delete of the first task of a world with two tasks. *)
Lemma delete_removes_that_record_only_witness :
  ObjectId_new Ex2.id0 = Return (Ex.oid_nth 0)
  /\ exists d w' l1 l2,
       List.find (matches (by_id (Ex.oid_nth 0))) (tasks Ex.w2) = Some d
       /\ delete_task Ex2.id0 Ex.w2
          = (Return (DeleteResponse.mk "Task deleted successfully" Ex2.id0), w')
       /\ tasks Ex.w2 = l1 ++ d :: l2
       /\ tasks w' = l1 ++ l2.
Proof.
  split; [exact Ex_oid_nth_0|].
  destruct (List.find (matches (by_id (Ex.oid_nth 0))) (tasks Ex.w2)) as [d|] eqn:Hd.
  2:{ exfalso. vm_compute in Hd. discriminate Hd. }
  destruct (delete_removes_that_record_only Ex2.id0 (Ex.oid_nth 0) d Ex.w2
              Ex_oid_nth_0 Hd) as (w' & l1 & l2 & H1 & H2 & H3 & _).
  exists d, w', l1, l2. split; [reflexivity|]. split; [exact H1|].
  split; [exact H2 | exact H3].
Defined.

(** Delete of an identifier that no task of the world carries: the answer
    is 404 and the collection is as it was. *)
Lemma refused_writes_change_nothing_witness :
  (404 = 400 \/ 404 = 404)
  /\ delete_task "507f1f77bcf86cd799439011" Ex.w2
     = (Raise (HTTPException 404 "Task not found"), advance 0 1 Ex.w2)
  /\ tasks (advance 0 1 Ex.w2) = tasks Ex.w2.
Proof.
  assert (Hc : 404 = 400 \/ 404 = 404) by (right; reflexivity).
  assert (Hd : delete_task "507f1f77bcf86cd799439011" Ex.w2
               = (Raise (HTTPException 404 "Task not found"), advance 0 1 Ex.w2))
    by (vm_compute; reflexivity).
  split; [exact Hc|]. split; [exact Hd|].
  exact (proj2 (refused_writes_change_nothing Ex.w2 (advance 0 1 Ex.w2) 404
                  "Task not found" Hc) "507f1f77bcf86cd799439011" Hd).
Defined.

(** Create of a third task in a world with two. *)
Lemma create_adds_one_record_witness :
  TaskCreate.valid Ex.buy_milk = true
  /\ (oid_source Ex.w2 (oid_count Ex.w2) ∉ map _id (tasks Ex.w2))
  /\ stored_valid Ex.w2
  /\ Z.of_nat (length (tasks Ex.w2)) < 100
  /\ exists t w1 r w2 s0 w3 s1 w4,
       create_task Ex.buy_milk Ex.w2 = (Return t, w1)
       /\ get_tasks None None None 100 w1 = (Return r, w2)
       /\ t ∈ r
       /\ get_stats Ex.w2 = (Return s0, w3)
       /\ get_stats w1 = (Return s1, w4)
       /\ Overview.totalTasks (Stats.overview s1)
          = Overview.totalTasks (Stats.overview s0) + 1.
Proof.
  assert (Hv : TaskCreate.valid Ex.buy_milk = true) by (vm_compute; reflexivity).
  assert (Hf : oid_source Ex.w2 (oid_count Ex.w2) ∉ map _id (tasks Ex.w2)).
  { apply (bool_decide_unpack _). vm_compute. exact I. }
  assert (Hl : Z.of_nat (length (tasks Ex.w2)) < 100) by (vm_compute; reflexivity).
  split; [exact Hv|]. split; [exact Hf|]. split; [exact Ex_w2_stored_valid|].
  split; [exact Hl|].
  destruct (create_adds_one_record Ex.buy_milk 100 Ex.w2 Hv Hf Ex_w2_stored_valid Hl)
    as (t & d & w1 & r & w2 & s0 & w3 & s1 & w4
        & H1 & _ & _ & H4 & H5 & _ & H7 & H8 & H9 & _).
  exists t, w1, r, w2, s0, w3, s1, w4.
  split; [exact H1|]. split; [exact H4|]. split; [exact H5|].
  split; [exact H7|]. split; [exact H8 | exact H9].
Defined.

(** Sync of two tasks that carry the same identifier, in a world that holds
    two other tasks: the first is stored, the old tasks are gone. *)
Lemma sync_stops_at_a_repeated_identifier_witness :
  exists l1 t os o,
    SyncRequest.tasks Ex.same_id_request = l1 ++ [t]
    /\ forallb Task.valid l1 = true
    /\ sync_oids (oid_source Ex.w2) (oid_count Ex.w2) (l1 ++ [t]) = os ++ [o]
    /\ NoDup os /\ o ∈ os
    /\ exists detail w',
         sync_tasks Ex.same_id_request Ex.w2 = (Raise (HTTPException 500 detail), w')
         /\ tasks w'
            = zip_with (synced_document (isoformat (clock Ex.w2 (clock_reads Ex.w2))))
                l1 os.
Proof.
  eexists [_], _, [Ex.oid0], Ex.oid0.
  assert (H1 : SyncRequest.tasks Ex.same_id_request
               = [Task.mk (Some "507f1f77bcf86cd799439011") "S1" "2025-02-01T00:00:00"
                          "high" "work" false "2025-01-10T08:00:00" None None None]
                 ++ [Task.mk (Some "507f1f77bcf86cd799439011") "S2" "2025-02-02T00:00:00"
                             "low" "study" false "2025-01-11T08:00:00" None None None])
    by reflexivity.
  assert (H2 : forallb Task.valid
                 [Task.mk (Some "507f1f77bcf86cd799439011") "S1" "2025-02-01T00:00:00"
                          "high" "work" false "2025-01-10T08:00:00" None None None]
               = true) by (vm_compute; reflexivity).
  assert (H3 : sync_oids (oid_source Ex.w2) (oid_count Ex.w2)
                 (SyncRequest.tasks Ex.same_id_request)
               = [Ex.oid0] ++ [Ex.oid0]).
  { vm_compute. reflexivity. }
  assert (H4 : NoDup [Ex.oid0]) by (apply NoDup_singleton).
  assert (H5 : Ex.oid0 ∈ [Ex.oid0]) by left.
  split; [exact H1|]. split; [exact H2|]. split; [exact H3|].
  split; [exact H4|]. split; [exact H5|].
  exact (sync_stops_at_a_repeated_identifier Ex.same_id_request Ex.w2 _ [] _
           [Ex.oid0] Ex.oid0 H1 H2 H3 H4 H5).
Defined.

Lemma Ex_no_id_request_oids :
  NoDup (sync_oids (oid_source Ex.w2) (oid_count Ex.w2)
           (SyncRequest.tasks Ex.no_id_request)).
Proof. apply (bool_decide_unpack _). vm_compute. exact I. Qed.

(** Sync of two tasks without identifier, then Get of the second. *)
Lemma sync_then_get_witness :
  SyncRequest.valid Ex.no_id_request = true
  /\ NoDup (sync_oids (oid_source Ex.w2) (oid_count Ex.w2)
              (SyncRequest.tasks Ex.no_id_request))
  /\ oid_full (Ex.oid_nth 3)
  /\ exists task r w' t,
       SyncRequest.tasks Ex.no_id_request !! 1%nat = Some task
       /\ sync_oids (oid_source Ex.w2) (oid_count Ex.w2)
            (SyncRequest.tasks Ex.no_id_request) !! 1%nat = Some (Ex.oid_nth 3)
       /\ sync_tasks Ex.no_id_request Ex.w2 = (Return r, w')
       /\ SyncResponse.tasks r !! 1%nat = Some t
       /\ get_task (oid_str (Ex.oid_nth 3)) w' = (Return t, advance 0 1 w').
Proof.
  assert (Hv : SyncRequest.valid Ex.no_id_request = true) by (vm_compute; reflexivity).
  assert (Hfull : oid_full (Ex.oid_nth 3)) by (vm_compute; reflexivity).
  split; [exact Hv|]. split; [exact Ex_no_id_request_oids|]. split; [exact Hfull|].
  assert (Hk : SyncRequest.tasks Ex.no_id_request !! 1%nat
               = Some (Task.mk None "Sync Task 2" "2025-02-02T00:00:00"
                         "medium" "personal" true "2025-01-11T08:00:00" None None None))
    by reflexivity.
  assert (Ho : sync_oids (oid_source Ex.w2) (oid_count Ex.w2)
                 (SyncRequest.tasks Ex.no_id_request) !! 1%nat = Some (Ex.oid_nth 3)).
  { change (oid_source Ex.w2) with Ex.oid_nth.
    change (oid_count Ex.w2) with 2%nat. reflexivity. }
  destruct (sync_then_get Ex.no_id_request Ex.w2 1%nat _ _ Hv Ex_no_id_request_oids
              Hk Ho Hfull) as (r & w' & t & H1 & H2 & _ & _ & H5).
  eexists _, r, w', t. split; [exact Hk|]. split; [exact Ho|].
  split; [exact H1|]. split; [exact H2 | exact H5].
Defined.

(** Sync of two tasks that carry distinct identifiers, the second one
    written with capital digits. *)
Lemma sync_keeps_the_identifiers_it_is_given_witness :
  SyncRequest.valid Ex2.identified_request = true
  /\ Forall2 (fun t o => exists s, Task.id t = Some s /\ ObjectId_new s = Return o)
       (SyncRequest.tasks Ex2.identified_request) [Ex.oid0; Ex2.oid1]
  /\ NoDup [Ex.oid0; Ex2.oid1]
  /\ exists r w',
       sync_tasks Ex2.identified_request Ex.w2 = (Return r, w')
       /\ map Task.title (SyncResponse.tasks r) = ["S1"; "S2"]
       /\ map _id (tasks w') = [Ex.oid0; Ex2.oid1]
       /\ map record_of (tasks w') = SyncResponse.tasks r.
Proof.
  assert (Hv : SyncRequest.valid Ex2.identified_request = true)
    by (vm_compute; reflexivity).
  assert (Hi : Forall2 (fun t o => exists s, Task.id t = Some s
                                             /\ ObjectId_new s = Return o)
                 (SyncRequest.tasks Ex2.identified_request) [Ex.oid0; Ex2.oid1]).
  { repeat constructor.
    - exists "507f1f77bcf86cd799439011". split; vm_compute; reflexivity.
    - exists "507F191E810C19729DE860EA". split; vm_compute; reflexivity. }
  assert (Hn : NoDup [Ex.oid0; Ex2.oid1]).
  { apply (bool_decide_unpack _). vm_compute. exact I. }
  split; [exact Hv|]. split; [exact Hi|]. split; [exact Hn|].
  destruct (sync_keeps_the_identifiers_it_is_given Ex2.identified_request
              [Ex.oid0; Ex2.oid1] Ex.w2 Hv Hi Hn)
    as (r & w' & H1 & H2 & _ & _ & H5 & H6).
  exists r, w'. split; [exact H1|]. split; [now rewrite H2|].
  split; [exact H5 | exact H6].
Defined.

(** List of a world with two tasks, then Sync of the result into that
    world: the documents come back under the identifiers generated next. *)
Lemma list_then_sync_assigns_new_identifiers_witness :
  stored_valid Ex.w2
  /\ Z.of_nat (length (tasks Ex.w2)) <= 100
  /\ NoDup (map (oid_source Ex.w2) (seq (oid_count Ex.w2) (length (tasks Ex.w2))))
  /\ exists listed w1 r w2,
       get_tasks None None None 100 Ex.w2 = (Return listed, w1)
       /\ sync_tasks (SyncRequest.mk listed None) Ex.w2 = (Return r, w2)
       /\ map record_of (tasks w2) = SyncResponse.tasks r
       /\ map (fun d => oid_str (_id d)) (tasks Ex.w2)
          = ["65a000000000000000000000"; "65a000000000000000000001"]
       /\ map (fun d => oid_str (_id d)) (tasks w2)
          = ["65a000000000000000000002"; "65a000000000000000000003"].
Proof.
  assert (Hl : Z.of_nat (length (tasks Ex.w2)) <= 100) by (vm_compute; discriminate).
  assert (Hn : NoDup (map (oid_source Ex.w2)
                        (seq (oid_count Ex.w2) (length (tasks Ex.w2))))).
  { apply (bool_decide_unpack _). vm_compute. exact I. }
  split; [exact Ex_w2_stored_valid|]. split; [exact Hl|]. split; [exact Hn|].
  destruct (list_then_sync_assigns_new_identifiers 100 None Ex.w2 Ex.w2
              Ex_w2_stored_valid Hl Hn)
    as (listed & w1 & r & w2 & H1 & _ & H3 & _ & H5 & H6).
  exists listed, w1, r, w2. split; [exact H1|]. split; [exact H3|].
  split; [exact H5|]. split; [vm_compute; reflexivity|].
  rewrite <- (map_map _id oid_str), H6. vm_compute. reflexivity.
Defined.

Lemma Ex_w2_due :
  Forall (fun d => TaskDict.dueDate (data d) = isoformat (Ex2.due d)
                   /\ valid_date (Ex2.due d) /\ valid_time (Ex2.due d))
         (tasks Ex.w2).
Proof.
  assert (E : tasks Ex.w2 = [created_document Ex.buy_milk Ex.w0;
                             created_document Ex.report Ex.w1])
    by (vm_compute; reflexivity).
  rewrite E.
  apply List.Forall_cons; [|apply List.Forall_cons; [|apply List.Forall_nil]].
  - change (Ex2.due (created_document Ex.buy_milk Ex.w0))
      with (mk_datetime 2025 1 1 0 0 0 0).
    split; [reflexivity|]. unfold valid_date, valid_time.
    cbn [year month day hour minute second microsecond]. lia.
  - change (Ex2.due (created_document Ex.report Ex.w1))
      with (mk_datetime 2026 1 1 0 0 0 0).
    split; [reflexivity|]. unfold valid_date, valid_time.
    cbn [year month day hour minute second microsecond]. lia.
Qed.

(** The overdue count of a world with one task due in the past and one due
    in the future. *)
Lemma overdue_counts_pending_tasks_due_before_now_witness :
  valid_date (clock Ex.w2 (clock_reads Ex.w2))
  /\ valid_time (clock Ex.w2 (clock_reads Ex.w2))
  /\ Forall (fun d => TaskDict.dueDate (data d) = isoformat (Ex2.due d)
                      /\ valid_date (Ex2.due d) /\ valid_time (Ex2.due d))
            (tasks Ex.w2)
  /\ exists r w',
       get_stats Ex.w2 = (Return r, w')
       /\ Overview.overdueTask (Stats.overview r)
          = Z.of_nat (length (List.filter
              (fun d => negb (TaskDict.completed (data d))
                        && before (Ex2.due d) (clock Ex.w2 (clock_reads Ex.w2)))
              (tasks Ex.w2))).
Proof.
  assert (Hd : valid_date (clock Ex.w2 (clock_reads Ex.w2))).
  { change (clock Ex.w2) with Ex.tick. unfold valid_date, Ex.tick.
    cbn [year month day]. lia. }
  assert (Ht : valid_time (clock Ex.w2 (clock_reads Ex.w2))).
  { change (clock Ex.w2) with Ex.tick. change (clock_reads Ex.w2) with 4%nat.
    unfold valid_time, Ex.tick. cbn [hour minute second microsecond]. lia. }
  pose proof Ex_w2_due as Hall.
  split; [exact Hd|]. split; [exact Ht|]. split; [exact Hall|].
  exact (overdue_counts_pending_tasks_due_before_now Ex.w2 Ex2.due Hd Ht Hall).
Defined.

(** The weekly trend in a world whose clock stays within 15 January
    2025. *)
Lemma weekly_trend_covers_the_last_four_weeks_witness :
  (forall k, (k < 8)%nat ->
             valid_time (clock Ex.w2 (clock_reads Ex.w2 + k))
             /\ same_date (clock Ex.w2 (clock_reads Ex.w2 + k)) (Ex.tick 0))
  /\ exists p w',
       get_productivity_analytics Ex.w2 = (Return p, w')
       /\ map WeeklyStat.week (Productivity.weeklyTrends p)
          = ["Week 1"; "Week 2"; "Week 3"; "Week 4"]
       /\ map WeeklyStat.startDate (Productivity.weeklyTrends p)
          = ["2024-12-23"; "2024-12-30"; "2025-01-06"; "2025-01-13"].
Proof.
  assert (H : forall k, (k < 8)%nat ->
             valid_time (clock Ex.w2 (clock_reads Ex.w2 + k))
             /\ same_date (clock Ex.w2 (clock_reads Ex.w2 + k)) (Ex.tick 0)).
  { intros k Hk. change (clock Ex.w2) with Ex.tick.
    change (clock_reads Ex.w2) with 4%nat.
    unfold valid_time, same_date, Ex.tick.
    cbn [year month day hour minute second microsecond]. lia. }
  split; [exact H|].
  destruct (weekly_trend_covers_the_last_four_weeks Ex.w2 (Ex.tick 0) H)
    as (p & w' & H1 & H2 & H3 & _).
  exists p, w'. split; [exact H1|]. split; [exact H3|].
  rewrite H2. vm_compute. reflexivity.
Defined.

(** A task created on Sunday 19 January 2025 at 23:59:59.5 and the week
    that starts on Monday 13 January. *)
Lemma last_second_of_a_week_is_left_out_witness :
  same_date Ex2.sunday_night
    (datetime_add Ex2.monday (timedelta_of 0 6 23 59 59))
  /\ 0 < microsecond Ex2.sunday_night < 1000000
  /\ TaskDict.createdAt (data Ex2.late_task) = isoformat Ex2.sunday_night
  /\ matches [week_window Ex2.monday] Ex2.late_task = false
  /\ matches [created_on Ex2.sunday_night] Ex2.late_task = true.
Proof.
  assert (Hs : same_date Ex2.sunday_night
                 (datetime_add Ex2.monday (timedelta_of 0 6 23 59 59))).
  { vm_compute. repeat split. }
  assert (Hu : 0 < microsecond Ex2.sunday_night < 1000000) by (cbn; lia).
  split; [exact Hs|]. split; [exact Hu|]. split; [reflexivity|].
  exact (last_second_of_a_week_is_left_out Ex2.monday Ex2.sunday_night
           Ex2.late_task eq_refl eq_refl eq_refl eq_refl Hs eq_refl eq_refl eq_refl
           Hu eq_refl).
Defined.

(** "Buy milk" is created in the empty world, completed, deleted and
    looked up. *)
Lemma created_updated_deleted_then_absent_witness :
  TaskCreate.valid Ex.buy_milk = true
  /\ (oid_source Ex.w0 (oid_count Ex.w0) ∉ map _id (tasks Ex.w0))
  /\ oid_full (oid_source Ex.w0 (oid_count Ex.w0))
  /\ TaskUpdate.valid Ex2.complete = true
  /\ Ex2.complete <> empty_update
  /\ exists t d w1 t' w2 w3 w4,
       create_task Ex.buy_milk Ex.w0 = (Return t, w1)
       /\ tasks w1 = tasks Ex.w0 ++ [d]
       /\ update_task (oid_str (_id d)) Ex2.complete w1 = (Return t', w2)
       /\ Task.completed t' = true
       /\ delete_task (oid_str (_id d)) w2
          = (Return (DeleteResponse.mk "Task deleted successfully" (oid_str (_id d))),
             w3)
       /\ get_task (oid_str (_id d)) w3
          = (Raise (HTTPException 404 "Task not found"), w4)
       /\ tasks w3 = tasks Ex.w0.
Proof.
  assert (Hv : TaskCreate.valid Ex.buy_milk = true) by (vm_compute; reflexivity).
  assert (Hf : oid_source Ex.w0 (oid_count Ex.w0) ∉ map _id (tasks Ex.w0))
    by apply not_elem_of_nil.
  assert (Hfull : oid_full (oid_source Ex.w0 (oid_count Ex.w0)))
    by (vm_compute; reflexivity).
  assert (Hvu : TaskUpdate.valid Ex2.complete = true) by (vm_compute; reflexivity).
  assert (Hne : Ex2.complete <> empty_update) by discriminate.
  split; [exact Hv|]. split; [exact Hf|]. split; [exact Hfull|].
  split; [exact Hvu|]. split; [exact Hne|].
  destruct (created_updated_deleted_then_absent Ex.buy_milk Ex2.complete Ex.w0
              Hv Hf Hfull Hvu Hne)
    as (t & d & w1 & t' & w2 & w3 & w4
        & H1 & H2 & _ & H4 & _ & H6 & _ & H8 & H9 & H10).
  exists t, d, w1, t', w2, w3, w4.
  split; [exact H1|]. split; [exact H2|]. split; [exact H4|].
  split; [exact H6|]. split; [exact H8|]. split; [exact H9 | exact H10].
Defined.

(** The counts of today and of the week on Wednesday 15 January 2025, in a
    world with a task due on 1 January 2025 and one due a year later. *)
Lemma today_and_week_counts_witness :
  (forall k, (1 <= k <= 6)%nat ->
             valid_time (clock Ex.w2 (clock_reads Ex.w2 + k))
             /\ same_date (clock Ex.w2 (clock_reads Ex.w2 + k)) (Ex.tick 0))
  /\ valid_date (Ex.tick 0)
  /\ days_ago (Ex.tick 0) (weekday (Ex.tick 0)) = mk_datetime 2025 1 13 0 0 0 0
  /\ days_ago (Ex.tick 0) (weekday (Ex.tick 0) - 6) = mk_datetime 2025 1 19 0 0 0 0
  /\ exists r w',
       get_stats Ex.w2 = (Return r, w')
       /\ Overview.todayTasks (Stats.overview r)
          = Z.of_nat (length (List.filter (fun d => date_eqb (Ex2.due d) (Ex.tick 0))
                                (tasks Ex.w2)))
       /\ Overview.weekTasks (Stats.overview r)
          = Z.of_nat (length (List.filter
              (fun d => date_leb (days_ago (Ex.tick 0) (weekday (Ex.tick 0))) (Ex2.due d)
                        && date_leb (Ex2.due d)
                             (days_ago (Ex.tick 0) (weekday (Ex.tick 0) - 6)))
              (tasks Ex.w2))).
Proof.
  assert (H : forall k, (1 <= k <= 6)%nat ->
             valid_time (clock Ex.w2 (clock_reads Ex.w2 + k))
             /\ same_date (clock Ex.w2 (clock_reads Ex.w2 + k)) (Ex.tick 0)).
  { intros k Hk. change (clock Ex.w2) with Ex.tick.
    change (clock_reads Ex.w2) with 4%nat.
    unfold valid_time, same_date, Ex.tick.
    cbn [year month day hour minute second microsecond]. lia. }
  assert (Hd : valid_date (Ex.tick 0)).
  { unfold valid_date, Ex.tick. cbn [year month day]. lia. }
  assert (Em : days_ago (Ex.tick 0) (weekday (Ex.tick 0))
               = mk_datetime 2025 1 13 0 0 0 0) by (vm_compute; reflexivity).
  assert (Es : days_ago (Ex.tick 0) (weekday (Ex.tick 0) - 6)
               = mk_datetime 2025 1 19 0 0 0 0) by (vm_compute; reflexivity).
  assert (Hm : valid_date (days_ago (Ex.tick 0) (weekday (Ex.tick 0)))).
  { rewrite Em. unfold valid_date. cbn [year month day]. lia. }
  assert (Hs : valid_date (days_ago (Ex.tick 0) (weekday (Ex.tick 0) - 6))).
  { rewrite Es. unfold valid_date. cbn [year month day]. lia. }
  split; [exact H|]. split; [exact Hd|]. split; [exact Em|]. split; [exact Es|].
  destruct (today_and_week_counts Ex.w2 (Ex.tick 0) Ex2.due H Hd Hm Hs Ex_w2_due)
    as (r & w' & H1 & H2 & H3 & _).
  exists r, w'. split; [exact H1|]. split; [exact H2 | exact H3].
Defined.
